(** * filcdn-interaction: orchestration and retry engine of [main.go]

    A shallow embedding of the PDP workflow handlers of [src/main.go]:
    the text parsers applied to the output of [pdptool], the bounded retry
    loops around [add-roots], the creation/poll loop of [orchestrateHandler]
    and the upload handlers, together with the properties the specification
    states about them.

    Modelling conventions.
    - A Go [string] / [[]byte] is a [string] of bytes ([ascii]).
    - [strings.ToLower] and [strings.TrimSpace] are modelled on ASCII input:
      bytes [A-Z] are lowered, the bytes 9..13 and 32 are white space; bytes
      above 127 are left alone. On other input Go decodes UTF-8 runes:
      its [ToLower] maps them through [unicode.ToLower] and encodes them
      again, which can change the length of the text, so that an index
      found in the lowered copy need not be an index of the text itself.
      The properties that apply such an index ([extractProofSetID]) are
      stated for ASCII output ([strings.isASCII]).
    - The external world (the [pdptool] process, Postgres, the temp
      directory) is a [World] record of total functions; the handlers run in
      a state monad that counts spawned processes and database statements and
      records the observable events (process spawns, sleeps, database
      statements, error log lines) in chronological order.
    - The debug [fmt.Printf] lines are not modelled, except the
      [[DB ERROR]] lines; the creation and the deferred removal of the temp
      file leave no event, only the failure of [os.CreateTemp] or [io.Copy]
      is modelled.
    - The unbounded poll loop of [orchestrateHandler] takes a bound on the
      number of polls the model follows. *)

From Stdlib Require Import String Ascii List ZArith Lia Bool Arith.
Import ListNotations.
Set Warnings "-register-all".
Open Scope string_scope.
Open Scope nat_scope.

(** ** The part of Go's [strings] package used by the handlers *)

Module strings.

Definition newline : ascii := "010"%char.
Definition colon : ascii := ":"%char.

(** [asciiSpace] of the Go runtime: ['\t' '\n' '\v' '\f' '\r' ' ']. *)
Definition isSpace (c : ascii) : bool :=
  let n := nat_of_ascii c in
  ((9 <=? n) && (n <=? 13)) || (n =? 32).

Definition lowerByte (c : ascii) : ascii :=
  let n := nat_of_ascii c in
  if (65 <=? n) && (n <=? 90) then ascii_of_nat (n + 32) else c.

Fixpoint ToLower (s : string) : string :=
  match s with
  | EmptyString => EmptyString
  | String c r => String (lowerByte c) (ToLower r)
  end.

(** The test at the head of Go's [ToLower]: no byte is [utf8.RuneSelf]
    (0x80) or above. Go lowers such a text byte by byte, as above. *)
Fixpoint isASCII (s : string) : bool :=
  match s with
  | EmptyString => true
  | String c r => (nat_of_ascii c <? 128) && isASCII r
  end.

Fixpoint HasPrefix (s prefix : string) : bool :=
  match prefix, s with
  | EmptyString, _ => true
  | String _ _, EmptyString => false
  | String p prefix', String c s' => Ascii.eqb c p && HasPrefix s' prefix'
  end.

(** [s[n:]] *)
Fixpoint drop (n : nat) (s : string) : string :=
  match n, s with
  | O, _ => s
  | S _, EmptyString => EmptyString
  | S n', String _ r => drop n' r
  end.

(** [s[:n]] *)
Fixpoint take (n : nat) (s : string) : string :=
  match n, s with
  | O, _ => EmptyString
  | S _, EmptyString => EmptyString
  | S n', String c r => String c (take n' r)
  end.

(** [len(s) >= len(suffix) && s[len(s)-len(suffix):] == suffix] *)
Definition HasSuffix (s suffix : string) : bool :=
  (String.length suffix <=? String.length s)
  && String.eqb (drop (String.length s - String.length suffix) s) suffix.

(** Byte offset of the first occurrence of [substr] in [s], or [-1]. *)
Fixpoint Index (s substr : string) : Z :=
  if HasPrefix s substr then 0%Z
  else match s with
       | EmptyString => (-1)%Z
       | String _ r =>
           let i := Index r substr in
           if (i <? 0)%Z then (-1)%Z else (i + 1)%Z
       end.

Definition Contains (s substr : string) : bool := (0 <=? Index s substr)%Z.

Fixpoint TrimLeft (s : string) : string :=
  match s with
  | EmptyString => EmptyString
  | String c r => if isSpace c then TrimLeft r else s
  end.

Fixpoint TrimRight (s : string) : string :=
  match s with
  | EmptyString => EmptyString
  | String c r =>
      match TrimRight r with
      | EmptyString => if isSpace c then EmptyString else String c EmptyString
      | r' => String c r'
      end
  end.

Definition TrimSpace (s : string) : string := TrimRight (TrimLeft s).

(** [strings.Split(s, sep)] for a one-byte separator (the handlers only
    split on ["\n"] and [","]); the result is never empty. *)
Fixpoint Split (s : string) (sep : ascii) : list string :=
  match s with
  | EmptyString => [EmptyString]
  | String c r =>
      if Ascii.eqb c sep then EmptyString :: Split r sep
      else match Split r sep with
           | l :: ls => String c l :: ls
           | [] => [String c EmptyString]
           end
  end.

(** [strings.SplitN(s, sep, 2)] for a one-byte separator: the text before
    the first separator and the text after it, or [s] alone. *)
Fixpoint Cut (s : string) (sep : ascii) : option (string * string) :=
  match s with
  | EmptyString => None
  | String c r =>
      if Ascii.eqb c sep then Some (EmptyString, r)
      else match Cut r sep with
           | Some (a, b) => Some (String c a, b)
           | None => None
           end
  end.

Definition SplitN2 (s : string) (sep : ascii) : list string :=
  match Cut s sep with
  | Some (a, b) => [a; b]
  | None => [s]
  end.

End strings.

(** A line feed, to write multi-line tool output. *)
Definition LF : string := String strings.newline EmptyString.


(** ** Output parsers

    The three extractions are written inline in the handlers; they are
    named here as the specification names them. *)

Definition createdSegment : string := "/pdp/proof-sets/created/".

(** [orchestrateHandler], "Parse txHash": the body of the [for _, line :=
    range lines] loop, with [break] on the first line that has both the
    [Location:] prefix and the path segment. *)
Fixpoint scanLocation (lines : list string) : string :=
  match lines with
  | [] => ""
  | line :: rest =>
      let line := strings.TrimSpace line in
      if strings.HasPrefix line "Location:" then
        let idx := strings.Index line createdSegment in
        if (0 <=? idx)%Z then
          strings.TrimSpace
            (strings.drop (Z.to_nat idx + String.length createdSegment) line)
        else scanLocation rest
      else scanLocation rest
  end.

Definition parseTxHash (out : string) : string :=
  scanLocation (strings.Split out strings.newline).

Definition createdMarker : string := "proofset created: true".
Definition idMarker : string := "proofset id: ".

(** [orchestrateHandler], step 2, the text after the "ProofSet Created!"
    message: the value of [proofSetID] when the loop breaks ([proofSetID] is
    still [""] when the id marker is absent). The slice [sout[idStart:]] is
    taken at the index found in the lowered copy: for ASCII output that is
    the index of the marker in [sout], and the slice is in range. *)
Definition extractProofSetID (sout : string) : string :=
  let idx := strings.Index (strings.ToLower sout) idMarker in
  if (0 <=? idx)%Z then
    let idStart := Z.to_nat idx + String.length idMarker in
    let rest := strings.drop idStart sout in
    let idEnd := strings.Index rest LF in
    if (idEnd <? 0)%Z then strings.TrimSpace rest
    else strings.TrimSpace (strings.take (Z.to_nat idEnd) rest)
  else "".

(** [None] is "still pending"; [Some id] leaves the poll loop. *)
Definition parseProofSetID (sout : string) : option string :=
  if strings.Contains (strings.ToLower sout) createdMarker
  then Some (extractProofSetID sout)
  else None.

(** [uLines[len(uLines)-1]] of [strings.Split(strings.TrimSpace(out), "\n")] *)
Definition lastLine (out : string) : string :=
  last (strings.Split (strings.TrimSpace out) strings.newline) "".

(** [parseRootCID] as in [uploadAndAddRootHandler] and
    [uploadFileToStorage]: the whole last line, trimmed. *)
Definition parseRootCID_line (out : string) : string :=
  strings.TrimSpace (lastLine out).

(** [parseRootCID] as in [orchestrateHandler]: the last line up to its first
    colon, not trimmed again. *)
Definition parseRootCID_colon (out : string) : string :=
  nth 0 (strings.SplitN2 (lastLine out) strings.colon) "".

(** ** The world outside the handlers *)

(** What [exec.Cmd.CombinedOutput] returns: the captured stdout and
    stderr, and the (printed) error when the process failed. *)
Record CmdResult := { output : string; err : option string }.

Inductive SqlArg :=
| SqlText (s : string)
| SqlInt (n : option Z)
| SqlTextArray (l : option (list string)).

Inductive JSON :=
| JString (s : string)
| JInt (n : Z)
| JBool (b : bool)
| JNull
| JArray (l : list JSON)
| JObject (fields : list (string * JSON)).

Inductive Event :=
| Spawn (args : list string)
| Sleep (seconds : nat)
| DbExec (sql : string) (args : list SqlArg)
| LogLine (line : string).

Record World := {
  (** the [n]-th [pdptool] process of the request, run with [args] *)
  tool : nat -> list string -> CmdResult;
  (** the [n]-th [db.Exec] of the request: [None] on success *)
  dbExec : nat -> string -> list SqlArg -> option string;
  (** [os.CreateTemp]: the path, or the error *)
  createTemp : string + string;
  (** [io.Copy] into the temp file: the error, if any *)
  copyFile : option string;
  (** [strconv.Atoi] *)
  Atoi : string -> option Z;
  (** [json.Unmarshal] into an [interface{}] *)
  jsonUnmarshal : string -> option JSON
}.

Record FileHeader := { Filename : string }.

Record Request := {
  (** [c.Request.ParseMultipartForm]: the error, if any *)
  ParseMultipartForm : option string;
  (** [c.PostForm(key)] *)
  PostForm : string -> string;
  (** [c.Query(key)] *)
  Query : string -> string;
  (** [c.Param(key)] *)
  Param : string -> string;
  (** [c.Request.FormFile("file")] *)
  FormFile : option FileHeader;
  (** [c.ShouldBindJSON(&req)]: the error, or the bound fields *)
  ShouldBindJSON : string + (string -> string)
}.

Record Response := { Status : nat; Body : list (string * JSON) }.

Definition StatusOK := 200.
Definition StatusBadRequest := 400.
Definition StatusInternalServerError := 500.

(** [gin.H{"error": msg}] *)
Definition errorBody (msg : string) : list (string * JSON) :=
  [("error", JString msg)].

Fixpoint lookup (key : string) (fields : list (string * JSON)) : option JSON :=
  match fields with
  | [] => None
  | (k, v) :: rest => if String.eqb k key then Some v else lookup key rest
  end.

(** The [error] string of a response, when it has one. *)
Definition errorOf (r : Response) : option string :=
  match lookup "error" (Body r) with
  | Some (JString s) => Some s
  | _ => None
  end.

(** ** The handler monad: state passing over the request's history *)

Record History := {
  spawned : nat;
  statements : nat;
  events : list Event
}.

Definition start : History :=
  {| spawned := 0; statements := 0; events := [] |}.

Definition M (A : Type) : Type := History -> A * History.

Definition ret {A} (a : A) : M A := fun h => (a, h).

Definition bind {A B} (m : M A) (k : A -> M B) : M B :=
  fun h => let (a, h') := m h in k a h'.

Declare Scope handler_scope.
Delimit Scope handler_scope with handler.
Notation "x <- m ;; k" := (bind m (fun x => k))
  (at level 61, m at next level, right associativity) : handler_scope.
Notation "m ;; k" := (bind m (fun _ => k))
  (at level 61, right associativity) : handler_scope.
Open Scope handler_scope.

Definition record (e : Event) : M unit :=
  fun h => (tt, {| spawned := spawned h; statements := statements h;
                   events := events h ++ [e] |}).

(** [time.Sleep(seconds * time.Second)] *)
Definition sleep (seconds : nat) : M unit := record (Sleep seconds).

(** [fmt.Printf] of an error line *)
Definition logf (line : string) : M unit := record (LogLine line).

(** The process spawns of a history, and its sleeps. *)
Definition spawnsOf (es : list Event) : list (list string) :=
  flat_map (fun e => match e with Spawn a => [a] | _ => [] end) es.

Definition sleepsOf (es : list Event) : list nat :=
  flat_map (fun e => match e with Sleep n => [n] | _ => [] end) es.

Definition isSpawnOf (sub : string) (e : Event) : bool :=
  match e with
  | Spawn (s :: _) => String.eqb s sub
  | _ => false
  end.

Definition countSpawns (sub : string) (es : list Event) : nat :=
  List.length (filter (isSpawnOf sub) es).

(** ** Handlers of [main.go] *)

Definition maxRetries : nat := 3.
Definition notFoundMarker : string := "not found or does not belong to service".

Definition uploadFileArgs (serviceUrl serviceName tmpPath : string) : list string :=
  ["upload-file"; "--service-url"; serviceUrl; "--service-name"; serviceName; tmpPath].

Definition addRootsArgs (serviceUrl serviceName proofSetID rootCID : string)
  : list string :=
  ["add-roots"; "--service-url"; serviceUrl; "--service-name"; serviceName;
   "--proof-set-id"; proofSetID; "--root"; rootCID].

Definition createProofSetArgs (serviceUrl serviceName recordKeeper : string)
  : list string :=
  ["create-proof-set"; "--service-url"; serviceUrl; "--service-name"; serviceName;
   "--recordkeeper"; recordKeeper].

Definition statusArgs (serviceUrl serviceName txHash : string) : list string :=
  ["get-proof-set-create-status"; "--service-url"; serviceUrl;
   "--service-name"; serviceName; "--tx-hash"; txHash].

Definition pingArgs (serviceUrl serviceName : string) : list string :=
  ["ping"; "--service-url"; serviceUrl; "--service-name"; serviceName].

Definition isEncryptedName (filename : string) : bool :=
  strings.HasSuffix (strings.ToLower filename) ".enc".

(** How the inline retry loop of [uploadAndAddRootHandler] is left: by a
    [return] after writing a response, or by falling out of the loop with the
    last [arOut] and the [addRootsSuccess] flag. *)
Inductive LoopExit :=
| Returned (resp : Response)
| LoopEnd (arOut : string) (addRootsSuccess : bool).

Definition insertFileCids : string :=
  "INSERT INTO file_cids (filename,cid) VALUES ($1,$2)".

Definition insertFileCidsSpaced : string :=
  "INSERT INTO file_cids (filename, cid) VALUES ($1, $2)".

Definition insertPaper : string :=
  "INSERT INTO paper (cid, title, journal, year, keywords) VALUES ($1, $2, $3, $4, $5)".

Definition insertGenome : string :=
  "INSERT INTO genome (cid, organism, assembly_version, notes) VALUES ($1, $2, $3, $4)".

Definition insertSpectrum : string :=
  "INSERT INTO spectrum (cid, compound, technique_nmr_ir_ms, metadata_json) VALUES ($1, $2, $3, $4)".

Definition badRequest (msg : string) : Response :=
  {| Status := StatusBadRequest; Body := errorBody msg |}.

Definition serverError (msg : string) : Response :=
  {| Status := StatusInternalServerError; Body := errorBody msg |}.

Section Handlers.

Variable W : World.

(** [newPDPCommand(args...).CombinedOutput()] *)
Definition CombinedOutput (args : list string) : M CmdResult :=
  fun h => (tool W (spawned h) args,
            {| spawned := S (spawned h); statements := statements h;
               events := events h ++ [Spawn args] |}).

(** [db.Exec(context.Background(), sql, args...)], keeping only the error *)
Definition Exec (sql : string) (args : list SqlArg) : M (option string) :=
  fun h => (dbExec W (statements h) sql args,
            {| spawned := spawned h; statements := S (statements h);
               events := events h ++ [DbExec sql args] |}).

(** [addRootToProofSet]: the [for attempt := 1; attempt <= maxRetries;
    attempt++] loop, with [left = maxRetries + 1 - attempt] iterations to
    go; the result is the returned [error], [None] for [nil]. *)
Fixpoint addRootAttempts (left attempt : nat) (args : list string)
  : M (option string) :=
  match left with
  | O => ret (Some "add-roots failed after 3 attempts")
  | S left' =>
      r <- CombinedOutput args ;;
      match err r with
      | Some _ =>
          if strings.Contains (output r) notFoundMarker && (attempt <? maxRetries)
          then sleep (attempt * 2) ;; addRootAttempts left' (S attempt) args
          else ret (Some ("add-roots failed: " ++ output r))
      | None => ret None
      end
  end.

Definition addRootToProofSet (serviceUrl serviceName proofSetID rootCID : string)
  : M (option string) :=
  addRootAttempts maxRetries 1
    (addRootsArgs serviceUrl serviceName proofSetID rootCID).

(** [uploadFileToStorage]: [inl] is the returned error, [inr] the root CID. *)
Definition uploadFileToStorage (header : FileHeader)
    (serviceUrl serviceName : string) : M (string + string) :=
  let isEncrypted := isEncryptedName (Filename header) in
  match createTemp W with
  | inr e => ret (inl ("failed to create temp file: " ++ e))
  | inl tmpPath =>
      match copyFile W with
      | Some e => ret (inl ("failed to copy file: " ++ e))
      | None =>
          r <- CombinedOutput (uploadFileArgs serviceUrl serviceName tmpPath) ;;
          match err r with
          | Some _ => ret (inl ("upload-file failed: " ++ output r))
          | None =>
              let rootCID := parseRootCID_line (output r) in
              (if isEncrypted then sleep 3 else ret tt) ;;
              ret (inr rootCID)
          end
      end
  end.

(** The inline [add-roots] loop of [uploadAndAddRootHandler]. *)
Fixpoint inlineAddRoots (left attempt : nat) (args : list string)
    (rootCID : string) (isEncrypted : bool) (arOut : string) : M LoopExit :=
  match left with
  | O => ret (LoopEnd arOut false)
  | S left' =>
      r <- CombinedOutput args ;;
      let arOut := output r in
      match err r with
      | Some _ =>
          if strings.Contains arOut notFoundMarker && (attempt <? maxRetries)
          then sleep (attempt * 2) ;;
               inlineAddRoots left' (S attempt) args rootCID isEncrypted arOut
          else if attempt =? maxRetries
          then ret (Returned
                 {| Status := StatusInternalServerError;
                    Body := [("error", JString arOut);
                             ("details",
                              JObject [("rootCID", JString rootCID);
                                       ("attempts", JInt (Z.of_nat attempt));
                                       ("isEncrypted", JBool isEncrypted)])] |})
          else inlineAddRoots left' (S attempt) args rootCID isEncrypted arOut
      | None => ret (LoopEnd arOut true)
      end
  end.

Definition uploadAndAddRootHandler (c : Request) : M Response :=
  let serviceUrl := PostForm c "serviceUrl" in
  let serviceName := PostForm c "serviceName" in
  let proofSetID := PostForm c "proofSetID" in
  if String.eqb proofSetID "" then
    ret {| Status := StatusBadRequest; Body := errorBody "proofSetID is required" |}
  else
  match FormFile c with
  | None => ret {| Status := StatusBadRequest; Body := errorBody "file is required" |}
  | Some header =>
  let isEncrypted := isEncryptedName (Filename header) in
  match createTemp W with
  | inr e => ret {| Status := StatusInternalServerError; Body := errorBody e |}
  | inl tmpPath =>
  match copyFile W with
  | Some _ =>
      ret {| Status := StatusInternalServerError;
             Body := errorBody "Failed to copy file" |}
  | None =>
  r <- CombinedOutput (uploadFileArgs serviceUrl serviceName tmpPath) ;;
  match err r with
  | Some _ =>
      ret {| Status := StatusInternalServerError; Body := errorBody (output r) |}
  | None =>
  let rootCID := parseRootCID_line (output r) in
  (if isEncrypted then sleep 3 else ret tt) ;;
  exit <- inlineAddRoots maxRetries 1
            (addRootsArgs serviceUrl serviceName proofSetID rootCID)
            rootCID isEncrypted "" ;;
  match exit with
  | Returned resp => ret resp
  | LoopEnd arOut false =>
      ret {| Status := StatusInternalServerError;
             Body := [("error", JString arOut);
                      ("details",
                       JObject [("rootCID", JString rootCID);
                                ("maxRetries", JInt (Z.of_nat maxRetries));
                                ("isEncrypted", JBool isEncrypted)])] |}
  | LoopEnd arOut true =>
      e <- Exec insertFileCids [SqlText (Filename header); SqlText rootCID] ;;
      match e with
      | Some msg => logf ("[DB ERROR] " ++ msg ++ LF)
      | None => ret tt
      end ;;
      ret {| Status := StatusOK;
             Body := [("proofSetID", JString proofSetID);
                      ("rootCID", JString rootCID);
                      ("addRoots", JString (strings.TrimSpace arOut));
                      ("isEncrypted", JBool isEncrypted)] |}
  end
  end end end end.

(** [uploadAndAddPaperHandler], "Parse year": [year] stays [nil] when the
    field is empty or is not a number. *)
Definition paperYear (c : Request) : option Z :=
  let yearStr := PostForm c "year" in
  if String.eqb yearStr "" then None else Atoi W yearStr.

(** [uploadAndAddPaperHandler], "Parse keywords": [keywords] stays [nil]
    when the field is empty. *)
Definition paperKeywords (c : Request) : option (list string) :=
  let keywordsStr := PostForm c "keywords" in
  if String.eqb keywordsStr "" then None
  else Some (map strings.TrimSpace
               (strings.Split (strings.TrimSpace keywordsStr) ","%char)).

Definition paperArgs (c : Request) (rootCID : string) : list SqlArg :=
  [SqlText rootCID; SqlText (PostForm c "title"); SqlText (PostForm c "journal");
   SqlInt (paperYear c); SqlTextArray (paperKeywords c)].

Definition genomeArgs (c : Request) (rootCID : string) : list SqlArg :=
  [SqlText rootCID; SqlText (PostForm c "organism");
   SqlText (PostForm c "assemblyVersion"); SqlText (PostForm c "notes")].

Definition spectrumArgs (c : Request) (rootCID : string) : list SqlArg :=
  [SqlText rootCID; SqlText (PostForm c "compound");
   SqlText (PostForm c "technique"); SqlText (PostForm c "metadata")].

Definition uploadAndAddPaperHandler (c : Request) : M Response :=
  match ParseMultipartForm c with
  | Some _ => ret (badRequest "Failed to parse form")
  | None =>
  let serviceUrl := PostForm c "serviceUrl" in
  let serviceName := PostForm c "serviceName" in
  let proofSetID := PostForm c "proofSetID" in
  let title := PostForm c "title" in
  let journal := PostForm c "journal" in
  if String.eqb proofSetID "" || String.eqb title "" then
    ret (badRequest "proofSetID and title are required")
  else
  let year := paperYear c in
  let keywords := paperKeywords c in
  match FormFile c with
  | None => ret (badRequest "file is required")
  | Some header =>
  up <- uploadFileToStorage header serviceUrl serviceName ;;
  match up with
  | inl e => ret (serverError e)
  | inr rootCID =>
  ar <- addRootToProofSet serviceUrl serviceName proofSetID rootCID ;;
  match ar with
  | Some e => ret (serverError e)
  | None =>
  e1 <- Exec insertPaper
          [SqlText rootCID; SqlText title; SqlText journal; SqlInt year;
           SqlTextArray keywords] ;;
  match e1 with
  | Some msg =>
      logf ("[DB ERROR] Failed to save paper: " ++ msg ++ LF) ;;
      ret (serverError "Failed to save paper metadata")
  | None =>
  e2 <- Exec insertFileCidsSpaced [SqlText (Filename header); SqlText rootCID] ;;
  match e2 with
  | Some msg => logf ("[DB ERROR] Failed to save file_cids: " ++ msg ++ LF)
  | None => ret tt
  end ;;
  ret {| Status := StatusOK;
         Body := [("proofSetID", JString proofSetID);
                  ("rootCID", JString rootCID);
                  ("title", JString title);
                  ("journal", JString journal);
                  ("year", match year with Some y => JInt y | None => JNull end);
                  ("keywords", match keywords with
                               | Some ks => JArray (map JString ks)
                               | None => JNull
                               end)] |}
  end end end
  end
  end.

Definition uploadAndAddGenomeHandler (c : Request) : M Response :=
  match ParseMultipartForm c with
  | Some _ => ret (badRequest "Failed to parse form")
  | None =>
  let serviceUrl := PostForm c "serviceUrl" in
  let serviceName := PostForm c "serviceName" in
  let proofSetID := PostForm c "proofSetID" in
  let organism := PostForm c "organism" in
  let assemblyVersion := PostForm c "assemblyVersion" in
  let notes := PostForm c "notes" in
  if String.eqb proofSetID "" || String.eqb organism "" then
    ret (badRequest "proofSetID and organism are required")
  else
  match FormFile c with
  | None => ret (badRequest "file is required")
  | Some header =>
  up <- uploadFileToStorage header serviceUrl serviceName ;;
  match up with
  | inl e => ret (serverError e)
  | inr rootCID =>
  ar <- addRootToProofSet serviceUrl serviceName proofSetID rootCID ;;
  match ar with
  | Some e => ret (serverError e)
  | None =>
  e1 <- Exec insertGenome
          [SqlText rootCID; SqlText organism; SqlText assemblyVersion; SqlText notes] ;;
  match e1 with
  | Some msg =>
      logf ("[DB ERROR] Failed to save genome: " ++ msg ++ LF) ;;
      ret (serverError "Failed to save genome metadata")
  | None =>
  e2 <- Exec insertFileCidsSpaced [SqlText (Filename header); SqlText rootCID] ;;
  match e2 with
  | Some msg => logf ("[DB ERROR] Failed to save file_cids: " ++ msg ++ LF)
  | None => ret tt
  end ;;
  ret {| Status := StatusOK;
         Body := [("proofSetID", JString proofSetID);
                  ("rootCID", JString rootCID);
                  ("organism", JString organism);
                  ("assemblyVersion", JString assemblyVersion);
                  ("notes", JString notes)] |}
  end end end
  end
  end.

Definition uploadAndAddSpectrumHandler (c : Request) : M Response :=
  match ParseMultipartForm c with
  | Some _ => ret (badRequest "Failed to parse form")
  | None =>
  let serviceUrl := PostForm c "serviceUrl" in
  let serviceName := PostForm c "serviceName" in
  let proofSetID := PostForm c "proofSetID" in
  let compound := PostForm c "compound" in
  let technique := PostForm c "technique" in
  let metadataJson := PostForm c "metadata" in
  if String.eqb proofSetID "" || String.eqb compound "" then
    ret (badRequest "proofSetID and compound are required")
  else
  if negb (String.eqb metadataJson "")
     && match jsonUnmarshal W metadataJson with None => true | Some _ => false end
  then ret (badRequest "Invalid JSON metadata")
  else
  let metadataJsonb :=
    if String.eqb metadataJson "" then JNull
    else match jsonUnmarshal W metadataJson with Some v => v | None => JNull end in
  match FormFile c with
  | None => ret (badRequest "file is required")
  | Some header =>
  up <- uploadFileToStorage header serviceUrl serviceName ;;
  match up with
  | inl e => ret (serverError e)
  | inr rootCID =>
  ar <- addRootToProofSet serviceUrl serviceName proofSetID rootCID ;;
  match ar with
  | Some e => ret (serverError e)
  | None =>
  e1 <- Exec insertSpectrum
          [SqlText rootCID; SqlText compound; SqlText technique; SqlText metadataJson] ;;
  match e1 with
  | Some msg =>
      logf ("[DB ERROR] Failed to save spectrum: " ++ msg ++ LF) ;;
      ret (serverError "Failed to save spectrum metadata")
  | None =>
  e2 <- Exec insertFileCidsSpaced [SqlText (Filename header); SqlText rootCID] ;;
  match e2 with
  | Some msg => logf ("[DB ERROR] Failed to save file_cids: " ++ msg ++ LF)
  | None => ret tt
  end ;;
  ret {| Status := StatusOK;
         Body := [("proofSetID", JString proofSetID);
                  ("rootCID", JString rootCID);
                  ("compound", JString compound);
                  ("technique", JString technique);
                  ("metadata", metadataJsonb)] |}
  end end end
  end
  end.

(** [orchestrateHandler], step 2: the unbounded [for] loop that polls
    [get-proof-set-create-status]. [fuel] bounds the number of polls the
    model follows; [None] means the loop was still polling when it ran out.
    The [error] of [CombinedOutput] is assigned to [_]. *)
Fixpoint pollProofSet (fuel : nat) (args : list string) : M (option string) :=
  match fuel with
  | O => ret None
  | S fuel' =>
      r <- CombinedOutput args ;;
      match parseProofSetID (output r) with
      | Some proofSetID => ret (Some proofSetID)
      | None => sleep 3 ;; pollProofSet fuel' args
      end
  end.

Definition orchestrateHandler (fuel : nat) (c : Request) : M (option Response) :=
  let serviceUrl := PostForm c "serviceUrl" in
  let serviceName := PostForm c "serviceName" in
  let recordKeeper := PostForm c "recordkeeper" in
  match FormFile c with
  | None => ret (Some (badRequest "file is required"))
  | Some header =>
  r <- CombinedOutput (createProofSetArgs serviceUrl serviceName recordKeeper) ;;
  match err r with
  | Some _ => ret (Some (serverError "create-proof-set failed"))
  | None =>
  let txHash := parseTxHash (output r) in
  if String.eqb txHash "" then ret (Some (serverError "txHash parse failed"))
  else
  polled <- pollProofSet fuel (statusArgs serviceUrl serviceName txHash) ;;
  match polled with
  | None => ret None
  | Some proofSetID =>
  match createTemp W with
  | inr _ => ret (Some (serverError "temp file error"))
  | inl tmpPath =>
  u <- CombinedOutput (uploadFileArgs serviceUrl serviceName tmpPath) ;;
  match err u with
  | Some _ => ret (Some (serverError "upload-file failed"))
  | None =>
  let rootCID := parseRootCID_colon (output u) in
  a <- CombinedOutput (addRootsArgs serviceUrl serviceName proofSetID rootCID) ;;
  match err a with
  | Some _ => ret (Some (serverError "add-roots failed"))
  | None =>
      ret (Some {| Status := StatusOK;
                   Body := [("txHash", JString txHash);
                            ("proofSetID", JString proofSetID);
                            ("rootCID", JString rootCID);
                            ("addRoots", JString (strings.TrimSpace (output a)))] |})
  end end end end end end.

Definition pingHandler (c : Request) : M Response :=
  match ShouldBindJSON c with
  | inl e => ret (badRequest e)
  | inr req =>
      r <- CombinedOutput (pingArgs (req "serviceUrl") (req "serviceName")) ;;
      match err r with
      | Some _ => ret (serverError (output r))
      | None => ret {| Status := StatusOK; Body := [("message", JString (output r))] |}
      end
  end.

Definition createProofSetHandler (c : Request) : M Response :=
  match ShouldBindJSON c with
  | inl e => ret (badRequest e)
  | inr req =>
      r <- CombinedOutput (createProofSetArgs (req "serviceUrl") (req "serviceName")
                             (req "recordkeeper")) ;;
      match err r with
      | Some _ => ret (serverError (output r))
      | None => ret {| Status := StatusOK; Body := [("output", JString (output r))] |}
      end
  end.

Definition getProofSetStatusHandler (c : Request) : M Response :=
  r <- CombinedOutput (statusArgs (Query c "serviceUrl") (Query c "serviceName")
                         (Param c "txHash")) ;;
  match err r with
  | Some _ => ret (serverError (output r))
  | None => ret {| Status := StatusOK; Body := [("status", JString (output r))] |}
  end.

Definition uploadFileHandler (c : Request) : M Response :=
  match FormFile c with
  | None => ret (badRequest "file is required")
  | Some header =>
  match createTemp W with
  | inr _ => ret (serverError "temp file error")
  | inl tmpPath =>
      r <- CombinedOutput (uploadFileArgs (PostForm c "serviceUrl")
                             (PostForm c "serviceName") tmpPath) ;;
      match err r with
      | Some _ => ret (serverError "upload-file failed")
      | None => ret {| Status := StatusOK; Body := [("output", JString (output r))] |}
      end
  end end.

Definition addRootsHandler (c : Request) : M Response :=
  match ShouldBindJSON c with
  | inl e => ret (badRequest e)
  | inr req =>
      r <- CombinedOutput (addRootsArgs (req "serviceUrl") (req "serviceName")
                             (Param c "proofSetId") (req "root")) ;;
      match err r with
      | Some _ => ret (serverError "add-roots failed")
      | None => ret {| Status := StatusOK; Body := [("message", JString (output r))] |}
      end
  end.

(** The code the three typed upload handlers repeat after reading their form
    fields (upload, bind, typed insert, file mapping insert, response),
    written once over the statement, the messages and the answer in which
    they differ. The handlers above do not call it; the proofs show that each
    of them runs it. *)
Definition uploadBindPersist (header : FileHeader)
    (serviceUrl serviceName proofSetID : string)
    (typedSql : string) (typedArgs : string -> list SqlArg)
    (typedFailure typedLog : string)
    (okBody : string -> list (string * JSON)) : M Response :=
  up <- uploadFileToStorage header serviceUrl serviceName ;;
  match up with
  | inl e => ret (serverError e)
  | inr rootCID =>
  ar <- addRootToProofSet serviceUrl serviceName proofSetID rootCID ;;
  match ar with
  | Some e => ret (serverError e)
  | None =>
  e1 <- Exec typedSql (typedArgs rootCID) ;;
  match e1 with
  | Some msg =>
      logf ("[DB ERROR] " ++ typedLog ++ msg ++ LF) ;;
      ret (serverError typedFailure)
  | None =>
  e2 <- Exec insertFileCidsSpaced [SqlText (Filename header); SqlText rootCID] ;;
  match e2 with
  | Some msg => logf ("[DB ERROR] Failed to save file_cids: " ++ msg ++ LF)
  | None => ret tt
  end ;;
  ret {| Status := StatusOK; Body := okBody rootCID |}
  end end end.

End Handlers.

(** Does the byte [c] occur in [s]? *)
Fixpoint hasByte (c : ascii) (s : string) : bool :=
  match s with
  | EmptyString => false
  | String d r => Ascii.eqb d c || hasByte c r
  end.


(** A text that is empty or starts with a byte that is not white space. *)
Definition startsNonSpace (s : string) : bool :=
  match s with
  | EmptyString => true
  | String c _ => negb (strings.isSpace c)
  end.

(** ** Vocabulary of the retry properties *)

(** Does an [add-roots] result end the retrying: a success, or a failure
    whose output lacks the "not found" text? *)
Definition stops (r : CmdResult) : bool :=
  match err r with
  | None => true
  | Some _ => negb (strings.Contains (output r) notFoundMarker)
  end.

(** [min(cap, attempts until the first result that stops)], counting the
    results [results i], [results (i+1)], ... *)
Fixpoint attemptsCapped (results : nat -> CmdResult) (cap i : nat) : nat :=
  match cap with
  | O => O
  | S cap' =>
      if stops (results i) then 1 else S (attemptsCapped results cap' (S i))
  end.

(** [n] invocations of the command, with a sleep of [attempt * 2] seconds
    after each attempt but the last. *)
Fixpoint retrySchedule (n attempt : nat) (args : list string) : list Event :=
  match n with
  | O => []
  | S n' =>
      Spawn args ::
      match n' with
      | O => []
      | S _ => Sleep (attempt * 2) :: retrySchedule n' (S attempt) args
      end
  end.

(** The 500 response of the inline loop on its last attempt. *)
Definition exhaustedResponse (arOut rootCID : string) (isEncrypted : bool)
  : Response :=
  {| Status := StatusInternalServerError;
     Body := [("error", JString arOut);
              ("details",
               JObject [("rootCID", JString rootCID);
                        ("attempts", JInt (Z.of_nat maxRetries));
                        ("isEncrypted", JBool isEncrypted)])] |}.

(** ** Concrete worlds and requests, for the examples *)

Definition succeeded (out : string) : CmdResult :=
  {| output := out; err := None |}.

Definition exited (out : string) : CmdResult :=
  {| output := out; err := Some "exit status 1" |}.

(** A world whose [n]-th process answers with the [n]-th entry of [script]
    and whose [n]-th database statement fails as the [n]-th entry of [db]
    says; past the end of the lists everything succeeds silently. *)
Definition scriptedWorld (script : list CmdResult) (db : list (option string))
  : World :=
  {| tool := fun n _ => nth n script (succeeded "");
     dbExec := fun n _ _ => nth n db None;
     createTemp := inl "/tmp/pdp-upload-1";
     copyFile := None;
     Atoi := fun _ => None;
     jsonUnmarshal := fun _ => None |}.

Fixpoint field (fields : list (string * string)) (key : string) : string :=
  match fields with
  | [] => ""
  | (k, v) :: rest => if String.eqb k key then v else field rest key
  end.

(** A multipart request with the given form fields and file name. *)
Definition formRequest (fields : list (string * string)) (filename : string)
  : Request :=
  {| ParseMultipartForm := None;
     PostForm := field fields;
     Query := fun _ => "";
     Param := fun _ => "";
     FormFile := Some {| Filename := filename |};
     ShouldBindJSON := inl "EOF" |}.

Definition transientOutput : string :=
  "Error: proof set 12 not found or does not belong to service pdp".

(** The history [h] after [n] more database statements and the events [es]. *)
Definition stated (h : History) (n : nat) (es : list Event) : History :=
  {| spawned := spawned h; statements := statements h + n;
     events := events h ++ es |}.

(** The history [h] after [n] more processes and the events [es]. *)
Definition advance (h : History) (n : nat) (es : list Event) : History :=
  {| spawned := spawned h + n; statements := statements h;
     events := events h ++ es |}.

(** The [error] returned by [addRootToProofSet] when its last attempt
    produced [r]. *)
Definition bindError (r : CmdResult) : option string :=
  match err r with
  | None => None
  | Some _ => Some ("add-roots failed: " ++ output r)
  end.

Definition demoFields : list (string * string) :=
  [("serviceUrl", "http://pdp.local"); ("serviceName", "pdp");
   ("proofSetID", "12"); ("title", "On roots"); ("organism", "E. coli");
   ("compound", "caffeine")].

Definition demoRequest : Request := formRequest demoFields "paper.pdf".

Definition demoAddRootsArgs : list string :=
  addRootsArgs "http://pdp.local" "pdp" "12" "baga6ea4seaq".

Definition demoUploadArgs : list string :=
  uploadFileArgs "http://pdp.local" "pdp" "/tmp/pdp-upload-1".

(** [add-roots] fails twice with the "not found" text, then succeeds. *)
Definition retryWorld : World :=
  scriptedWorld
    [exited transientOutput; exited transientOutput; succeeded "root added"] [].

(** The upload succeeds; the first [add-roots] fails with another text, the
    second would succeed. *)
Definition deniedWorld : World :=
  scriptedWorld
    [succeeded ("uploading..." ++ LF ++ "baga6ea4seaq" ++ LF);
     exited "Error: permission denied";
     succeeded "root added"] [].

(** Upload and bind succeed; the first database statement succeeds and the
    second fails. *)
Definition mappingFailsWorld : World :=
  scriptedWorld [succeeded "baga6ea4seaq"; succeeded "root added"]
    [None; Some "connection refused"].

(** Upload and bind succeed; the first database statement fails. *)
Definition insertFailsWorld : World :=
  scriptedWorld [succeeded "baga6ea4seaq"; succeeded "root added"]
    [Some "connection refused"].

(** The [[DB ERROR]] line of a failed file mapping insert in the typed
    handlers, if the insert failed. *)
Definition mappingLog (e : option string) : list Event :=
  match e with
  | Some msg => [LogLine ("[DB ERROR] Failed to save file_cids: " ++ msg ++ LF)]
  | None => []
  end.

Definition demoHeader : FileHeader := {| Filename := "paper.pdf" |}.

Definition afterUpload : History :=
  {| spawned := 1; statements := 0; events := [Spawn demoUploadArgs] |}.

Definition afterBind : History :=
  {| spawned := 2; statements := 0;
     events := [Spawn demoUploadArgs; Spawn demoAddRootsArgs] |}.

(** The settle delay of the upload step. *)
Definition settle (isEncrypted : bool) : list Event :=
  if isEncrypted then [Sleep 3] else [].

(** An upload of an already encrypted file. *)
Definition encHeader : FileHeader := {| Filename := "genome.fasta.ENC" |}.

(** ** Vocabulary of the error payload properties *)






(** ** Vocabulary of the parser properties *)

(** A line of the [create-proof-set] output that carries the handle: after
    trimming it starts with [Location:] and contains the path segment. *)
Definition locationLine (line : string) : bool :=
  strings.HasPrefix (strings.TrimSpace line) "Location:"
  && strings.Contains (strings.TrimSpace line) createdSegment.

(** [marker] does not start at any offset of [s] below [n]. *)
Definition absentBefore (s marker : string) (n : nat) : Prop :=
  forall k, k < n -> strings.HasPrefix (strings.drop k s) marker = false.

(** The identifier line of a status output: [sout] is [a ++ m ++ v ++ b]
    where [m] is the first ["proofset id: "] marker of [sout], in any letter
    case, [v] has no line feed, and [b] is empty or starts with a line
    feed. *)
Definition idLine (sout v : string) : Prop :=
  exists a m b,
    sout = a ++ m ++ v ++ b
    /\ strings.ToLower m = idMarker
    /\ absentBefore (strings.ToLower sout) idMarker (String.length a)
    /\ hasByte strings.newline v = false
    /\ (b = "" \/ strings.HasPrefix b LF = true).

(** [k] polls with a pending answer, each followed by the 3 second sleep. *)
Fixpoint pendingPolls (k : nat) (args : list string) : list Event :=
  match k with
  | O => []
  | S k' => Spawn args :: Sleep 3 :: pendingPolls k' args
  end.

(** A status command that keeps failing without output. *)
Definition statusDownWorld : World :=
  scriptedWorld
    [succeeded ("Location: /pdp/proof-sets/created/0xabc" ++ LF);
     exited ""; exited ""; exited ""; exited ""] [].

Definition demoStatusArgs : list string :=
  statusArgs "http://pdp.local" "pdp" "0xabc".

(** A status command that fails twice, once without output and once with a
    message, and then reports the creation with identifier 7. *)
Definition statusRecoversWorld : World :=
  scriptedWorld
    [succeeded ("Location: /pdp/proof-sets/created/0xabc" ++ LF);
     exited ""; exited ("Error: connection refused" ++ LF);
     succeeded ("ProofSet Created: true" ++ LF ++ "ProofSet Id: 7" ++ LF)] [].

(** Two pending answers, then the creation is reported with identifier 7. *)
Definition createdWorld : World :=
  scriptedWorld
    [succeeded "ProofSet Created: false";
     succeeded "ProofSet Created: false";
     succeeded ("ProofSet Created: true" ++ LF ++ "ProofSet Id: 7" ++ LF)] [].

(** The same scenario with the markers as the specification abbreviates
    them. *)
Definition abbreviatedWorld : World :=
  scriptedWorld
    [succeeded "pending"; succeeded "pending";
     succeeded "created: true / id: 7"] [].

(** The end-to-end scenario of the specification: the upload prints
    ["root-abc"] and the first bind succeeds. *)
Definition happyWorld : World :=
  scriptedWorld [succeeded "root-abc"; succeeded "Roots added"] [].

(** A full run of the orchestrated flow: creation, two polls, upload, bind. *)
Definition orchestrateWorld : World :=
  scriptedWorld
    [succeeded ("Proof set creation initiated" ++ LF
                ++ "Location: /pdp/proof-sets/created/0xabc" ++ LF);
     succeeded "ProofSet Created: false";
     succeeded ("ProofSet Created: true" ++ LF ++ "ProofSet Id: 7" ++ LF);
     succeeded ("uploading" ++ LF ++ "baga6ea4seaq:baga6ea4sub" ++ LF);
     succeeded "Roots added"] [].

(** ** Vocabulary of the properties of whole requests *)

(** The total time a history has slept, in seconds. *)
Definition sleptSeconds (h : History) : nat := list_sum (sleepsOf (events h)).

(** A request that is answered 400 has left the history as it was: no
    process, no sleep, no database statement and no [[DB ERROR]] line. *)
Definition rejectsEarly (res : Response * History) : Prop :=
  Status (fst res) = StatusBadRequest -> snd res = start.

(** What one upload request may cost: at most one [upload-file] and three
    [add-roots] processes and no other, at most 9 seconds of sleep and at
    most two database statements. *)
Definition boundedEffects (res : Response * History) : Prop :=
  countSpawns "upload-file" (events (snd res)) <= 1
  /\ countSpawns "add-roots" (events (snd res)) <= maxRetries
  /\ spawned (snd res)
     = countSpawns "upload-file" (events (snd res))
       + countSpawns "add-roots" (events (snd res))
  /\ sleptSeconds (snd res) <= 9
  /\ statements (snd res) <= 2.

(** A request that has sent a statement to the database has bound the root
    first: its last process is an [add-roots] that succeeded. *)
Definition persistsAfterBind (W : World) (res : Response * History) : Prop :=
  statements (snd res) <> 0 ->
  exists args,
    last (spawnsOf (events (snd res))) [] = "add-roots" :: args
    /\ err (tool W (pred (spawned (snd res))) ("add-roots" :: args)) = None.

(** A request that has run [add-roots] has uploaded first: its first process
    is an [upload-file] that succeeded, and every [add-roots] binds the
    identifier parsed from the output of that upload. *)
Definition bindsUploadedRoot (W : World) (res : Response * History) : Prop :=
  forall args,
    In ("add-roots" :: args) (spawnsOf (events (snd res))) ->
    exists up,
      nth 0 (spawnsOf (events (snd res))) [] = "upload-file" :: up
      /\ err (tool W 0 ("upload-file" :: up)) = None
      /\ last args ""
         = parseRootCID_line (output (tool W 0 ("upload-file" :: up))).

(** [k] pending polls, each followed by a 3 second sleep, then the poll that
    leaves the loop. *)
Fixpoint pollSchedule (k : nat) (args : list string) : list Event :=
  match k with
  | O => [Spawn args]
  | S k' => Spawn args :: Sleep 3 :: pollSchedule k' args
  end.

(** The first [add-roots] fails with the "not found" text, the second with
    another text. *)
Definition deniedBindWorld : World :=
  scriptedWorld [exited transientOutput; exited "Error: permission denied"] [].

(** The status output reports the creation without an identifier line. *)
Definition unidentifiedWorld : World :=
  scriptedWorld
    [succeeded ("Location: /pdp/proof-sets/created/0xabc" ++ LF);
     succeeded "ProofSet Created: true";
     succeeded "baga6ea4seaq";
     exited "Error: proof set id is required"] [].

(** ** The data endpoints of [main.go]

    [queryDataHandler], [getDataByIDHandler] and [listCIDsHandler] only read:
    they are modelled as functions that return their answer together with
    the statements they sent to the database, in order. The rows the
    database returns are given by a [Reads] record; a [time.Time] column is
    the string it is rendered as. *)

From Stdlib Require Import DecimalString.

Definition TAB : string := String "009"%char "".

(** [%d] of a non-negative [int]. *)
Definition Itoa (n : nat) : string := NilEmpty.string_of_uint (Nat.to_uint n).

(** [strings.Join(elems, sep)] *)
Definition Join (elems : list string) (sep : string) : string :=
  String.concat sep elems.

(** What gin gives the data endpoints of a request. *)
Record QueryContext := {
  (** [c.Param(key)] *)
  RouteParam : string -> string;
  (** [c.GetQuery(key)]: the value, when the key is in the query string *)
  GetQuery : string -> option string
}.

(** [c.Query(key)] *)
Definition QueryOf (c : QueryContext) (key : string) : string :=
  match GetQuery c key with Some v => v | None => "" end.

(** [c.DefaultQuery(key, defaultValue)] *)
Definition DefaultQuery (c : QueryContext) (key defaultValue : string) : string :=
  match GetQuery c key with Some v => v | None => defaultValue end.

Record PaperRow := {
  paper_cid : string; paper_title : string; paper_journal : option string;
  paper_year : option Z; paper_keywords : option (list string);
  paper_created_at : string
}.

Record GenomeRow := {
  genome_cid : string; genome_organism : string;
  genome_assembly_version : option string; genome_notes : option string;
  genome_created_at : string
}.

Record SpectrumRow := {
  spectrum_cid : string; spectrum_compound : string;
  spectrum_technique : option string; spectrum_metadata_json : option string;
  spectrum_created_at : string
}.

Record FileCidRow := {
  file_id : Z; file_filename : string; file_cid : string;
  file_uploaded_at : string
}.

(** The [entry] struct of [listCIDsHandler]. *)
Record CidEntry := {
  entry_Filename : string; entry_CID : string; entry_UploadedAt : string
}.

(** The [pgx.Rows] of a [db.Query] that returned no error. *)
Record Cursor (A : Type) := {
  (** the rows for which [rows.Next()] is true, in order, each the error of
      its [rows.Scan] or the scanned values *)
  delivered : list (string + A);
  (** [rows.Err()] once [rows.Next()] is false: the error that ended the
      reading before the end of the result, if any *)
  readError : option string
}.
Arguments delivered {A} _.
Arguments readError {A} _.

(** What a [db.Query] gives: its error, or the rows. *)
Definition Rows (A : Type) : Type := string + Cursor A.

(** Rows that are read to the end. *)
Definition allRows {A : Type} (rows : list (string + A)) : Rows A :=
  inr {| delivered := rows; readError := None |}.

Record Reads := {
  (** [db.QueryRow(sql, args...).Scan(&totalCount)] *)
  countRows : string -> list SqlArg -> string + Z;
  paperRows : string -> list SqlArg -> Rows PaperRow;
  genomeRows : string -> list SqlArg -> Rows GenomeRow;
  spectrumRows : string -> list SqlArg -> Rows SpectrumRow;
  fileCidRows : string -> list SqlArg -> Rows FileCidRow;
  entryRows : string -> list SqlArg -> Rows CidEntry;
  (** [db.QueryRow(sql, cid).Scan(...)] of the four lookups *)
  paperRow : string -> list SqlArg -> string + PaperRow;
  genomeRow : string -> list SqlArg -> string + GenomeRow;
  spectrumRow : string -> list SqlArg -> string + SpectrumRow;
  fileCidRow : string -> list SqlArg -> string + FileCidRow
}.

(** A statement sent to the database: its text and its arguments. *)
Definition Statement : Type := string * list SqlArg.

Definition jsonOptString (s : option string) : JSON :=
  match s with Some v => JString v | None => JNull end.

Definition jsonOptInt (n : option Z) : JSON :=
  match n with Some v => JInt v | None => JNull end.

(** A slice of maps as [encoding/json] writes it: [null] for the nil slice,
    which is what a loop that appended nothing leaves. *)
Definition jsonSlice (rows : list JSON) : JSON :=
  match rows with [] => JNull | _ => JArray rows end.

(** The [for rows.Next()] loops over the rows delivered: their maps in
    order, or the error of the first [rows.Scan] that fails. None of the
    loops is followed by a look at [rows.Err()]. *)
Fixpoint scanRows {A : Type} (toMap : A -> list (string * JSON))
    (rows : list (string + A)) (acc : list JSON) : string + list JSON :=
  match rows with
  | [] => inr acc
  | inl e :: _ => inl e
  | inr r :: rest => scanRows toMap rest (acc ++ [JObject (toMap r)])
  end.

(** [whereClauses], [args] and [argIndex] of the query functions. *)
Record Filters := {
  whereClauses : list string;
  queryArgs : list SqlArg;
  argIndex : nat
}.

Definition noFilters : Filters :=
  {| whereClauses := []; queryArgs := []; argIndex := 1 |}.

(** [whereClauses = append(whereClauses, fmt.Sprintf(clause, argIndex));
    args = append(args, arg); argIndex++] *)
Definition addFilter (clause : nat -> string) (arg : SqlArg) (f : Filters)
  : Filters :=
  {| whereClauses := whereClauses f ++ [clause (argIndex f)];
     queryArgs := queryArgs f ++ [arg];
     argIndex := S (argIndex f) |}.

(** [if value != "" { ... like ... }] with the argument ["%"+value+"%"] *)
Definition addLike (value : string) (clause : nat -> string) (f : Filters)
  : Filters :=
  if String.eqb value "" then f
  else addFilter clause (SqlText ("%" ++ value ++ "%")) f.

(** [whereClause] *)
Definition whereClauseOf (f : Filters) : string :=
  match whereClauses f with
  | [] => ""
  | _ => "WHERE " ++ Join (whereClauses f) " AND "
  end.

(** [validSortFields[sortBy]] *)
Definition validSort (fields : list string) (sortBy : string) : bool :=
  existsb (String.eqb sortBy) fields.

Definition paperSortFields : list string :=
  ["created_at"; "title"; "journal"; "year"; "cid"].
Definition genomeSortFields : list string :=
  ["created_at"; "organism"; "assembly_version"; "cid"].
Definition spectrumSortFields : list string :=
  ["created_at"; "compound"; "technique_nmr_ir_ms"; "cid"].
Definition fileCidSortFields : list string :=
  ["uploaded_at"; "filename"; "cid"; "id"].

(** The raw string literal of the row queries, filled in by [fmt.Sprintf]. *)
Definition selectQuery (columns table whereClause sortBy sortOrder : string)
    (argIndex : nat) : string :=
  LF ++ TAB ++ TAB ++ "SELECT " ++ columns ++ " " ++ LF
  ++ TAB ++ TAB ++ "FROM " ++ table ++ " " ++ whereClause ++ " " ++ LF
  ++ TAB ++ TAB ++ "ORDER BY " ++ sortBy ++ " " ++ sortOrder ++ " " ++ LF
  ++ TAB ++ TAB ++ "LIMIT $" ++ Itoa argIndex ++ " OFFSET $" ++ Itoa (argIndex + 1).

(** [fmt.Sprintf("SELECT COUNT( * ) FROM <table> %s", whereClause)] *)
Definition countQueryOf (table whereClause : string) : string :=
  "SELECT COUNT(" ++ "*) FROM " ++ table ++ " " ++ whereClause.

Definition jsonPaper (r : PaperRow) : list (string * JSON) :=
  [("cid", JString (paper_cid r));
   ("title", JString (paper_title r));
   ("journal", jsonOptString (paper_journal r));
   ("year", jsonOptInt (paper_year r));
   ("keywords", match paper_keywords r with
                | Some ks => JArray (map JString ks)
                | None => JNull
                end);
   ("created_at", JString (paper_created_at r))].

Definition jsonGenome (r : GenomeRow) : list (string * JSON) :=
  [("cid", JString (genome_cid r));
   ("organism", JString (genome_organism r));
   ("assembly_version", jsonOptString (genome_assembly_version r));
   ("notes", jsonOptString (genome_notes r));
   ("created_at", JString (genome_created_at r))].

Definition jsonFileCid (r : FileCidRow) : list (string * JSON) :=
  [("id", JInt (file_id r));
   ("filename", JString (file_filename r));
   ("cid", JString (file_cid r));
   ("uploaded_at", JString (file_uploaded_at r))].

(** What a query function returns: the error, or the rows and the total. *)
Definition QueryOutcome : Type := string + (list JSON * Z).

Section DataEndpoints.

Variable W : World.
Variable D : Reads.

(** [parseIntParam] *)
Definition parseIntParam (c : QueryContext) (param : string) (defaultValue : Z)
  : Z :=
  let str := QueryOf c param in
  if String.eqb str "" then defaultValue
  else match Atoi W str with
       | Some val => if (0 <? val)%Z then val else defaultValue
       | None => defaultValue
       end.

(** [getResultCount]: [results] is the slice of maps of a query function, or
    the nil interface ([None]) that matches no case of the type switch (what
    the [switch dataType] of [queryDataHandler] leaves when no case matches,
    which its check of [validTypes] excludes; both count 0). *)
Definition getResultCount (results : option (list JSON)) : Z :=
  match results with
  | Some r => Z.of_nat (List.length r)
  | None => 0%Z
  end.

(** The filters of [queryPapers], in the order of its [if] blocks. *)
Definition paperFilters (c : QueryContext) : Filters :=
  let f := noFilters in
  let f := addLike (QueryOf c "search")
             (fun i => "(title ILIKE $" ++ Itoa i ++ " OR journal ILIKE $"
                       ++ Itoa i ++ ")") f in
  let f := let yearStr := QueryOf c "year" in
           if String.eqb yearStr "" then f
           else match Atoi W yearStr with
                | Some year =>
                    addFilter (fun i => "year = $" ++ Itoa i) (SqlInt (Some year)) f
                | None => f
                end in
  let f := addLike (QueryOf c "journal")
             (fun i => "journal ILIKE $" ++ Itoa i) f in
  let f := let keyword := QueryOf c "keyword" in
           if String.eqb keyword "" then f
           else addFilter (fun i => "$" ++ Itoa i ++ " = ANY(keywords)")
                  (SqlText keyword) f in
  f.

Definition genomeFilters (c : QueryContext) : Filters :=
  let f := noFilters in
  let f := addLike (QueryOf c "search")
             (fun i => "(organism ILIKE $" ++ Itoa i ++ " OR notes ILIKE $"
                       ++ Itoa i ++ ")") f in
  let f := addLike (QueryOf c "organism")
             (fun i => "organism ILIKE $" ++ Itoa i) f in
  let f := addLike (QueryOf c "assembly")
             (fun i => "assembly_version ILIKE $" ++ Itoa i) f in
  f.

Definition spectrumFilters (c : QueryContext) : Filters :=
  let f := noFilters in
  let f := addLike (QueryOf c "search")
             (fun i => "compound ILIKE $" ++ Itoa i) f in
  let f := addLike (QueryOf c "compound")
             (fun i => "compound ILIKE $" ++ Itoa i) f in
  let f := addLike (QueryOf c "technique")
             (fun i => "technique_nmr_ir_ms ILIKE $" ++ Itoa i) f in
  f.

Definition fileCidFilters (c : QueryContext) : Filters :=
  addLike (QueryOf c "search") (fun i => "filename ILIKE $" ++ Itoa i) noFilters.

Definition queryPapers (c : QueryContext) (limit offset : Z)
    (sortBy sortOrder : string) : QueryOutcome * list Statement :=
  let f := paperFilters c in
  let whereClause := whereClauseOf f in
  let sortBy := if validSort paperSortFields sortBy then sortBy else "created_at" in
  let countQuery := countQueryOf "paper" whereClause in
  match countRows D countQuery (queryArgs f) with
  | inl e => (inl e, [(countQuery, queryArgs f)])
  | inr totalCount =>
      let query :=
        selectQuery "cid, title, journal, year, keywords, created_at"
          "paper" whereClause sortBy sortOrder (argIndex f) in
      let args :=
        (queryArgs f ++ [SqlInt (Some limit); SqlInt (Some offset)])%list in
      let sent := [(countQuery, queryArgs f); (query, args)] in
      match paperRows D query args with
      | inl e => (inl e, sent)
      | inr rows =>
          match scanRows jsonPaper (delivered rows) [] with
          | inl e => (inl e, sent)
          | inr maps => (inr (maps, totalCount), sent)
          end
      end
  end.

Definition queryGenomes (c : QueryContext) (limit offset : Z)
    (sortBy sortOrder : string) : QueryOutcome * list Statement :=
  let f := genomeFilters c in
  let whereClause := whereClauseOf f in
  let sortBy := if validSort genomeSortFields sortBy then sortBy else "created_at" in
  let countQuery := countQueryOf "genome" whereClause in
  match countRows D countQuery (queryArgs f) with
  | inl e => (inl e, [(countQuery, queryArgs f)])
  | inr totalCount =>
      let query :=
        selectQuery "cid, organism, assembly_version, notes, created_at"
          "genome" whereClause sortBy sortOrder (argIndex f) in
      let args :=
        (queryArgs f ++ [SqlInt (Some limit); SqlInt (Some offset)])%list in
      let sent := [(countQuery, queryArgs f); (query, args)] in
      match genomeRows D query args with
      | inl e => (inl e, sent)
      | inr rows =>
          match scanRows jsonGenome (delivered rows) [] with
          | inl e => (inl e, sent)
          | inr maps => (inr (maps, totalCount), sent)
          end
      end
  end.

(** The map of a spectrum row: [metadata] is the parsed [metadata_json], or
    [nil] when the column is null, empty or not JSON. *)
Definition jsonSpectrum (r : SpectrumRow) : list (string * JSON) :=
  let metadata :=
    match spectrum_metadata_json r with
    | Some metadataJson =>
        if String.eqb metadataJson "" then JNull
        else match jsonUnmarshal W metadataJson with
             | Some v => v
             | None => JNull
             end
    | None => JNull
    end in
  [("cid", JString (spectrum_cid r));
   ("compound", JString (spectrum_compound r));
   ("technique", jsonOptString (spectrum_technique r));
   ("metadata", metadata);
   ("created_at", JString (spectrum_created_at r))].

Definition querySpectrums (c : QueryContext) (limit offset : Z)
    (sortBy sortOrder : string) : QueryOutcome * list Statement :=
  let f := spectrumFilters c in
  let whereClause := whereClauseOf f in
  let sortBy := if validSort spectrumSortFields sortBy then sortBy else "created_at" in
  let countQuery := countQueryOf "spectrum" whereClause in
  match countRows D countQuery (queryArgs f) with
  | inl e => (inl e, [(countQuery, queryArgs f)])
  | inr totalCount =>
      let query :=
        selectQuery "cid, compound, technique_nmr_ir_ms, metadata_json, created_at"
          "spectrum" whereClause sortBy sortOrder (argIndex f) in
      let args :=
        (queryArgs f ++ [SqlInt (Some limit); SqlInt (Some offset)])%list in
      let sent := [(countQuery, queryArgs f); (query, args)] in
      match spectrumRows D query args with
      | inl e => (inl e, sent)
      | inr rows =>
          match scanRows jsonSpectrum (delivered rows) [] with
          | inl e => (inl e, sent)
          | inr maps => (inr (maps, totalCount), sent)
          end
      end
  end.

Definition queryFileCids (c : QueryContext) (limit offset : Z)
    (sortBy sortOrder : string) : QueryOutcome * list Statement :=
  let f := fileCidFilters c in
  let whereClause := whereClauseOf f in
  let sortBy := if validSort fileCidSortFields sortBy then sortBy else "uploaded_at" in
  let countQuery := countQueryOf "file_cids" whereClause in
  match countRows D countQuery (queryArgs f) with
  | inl e => (inl e, [(countQuery, queryArgs f)])
  | inr totalCount =>
      let query :=
        selectQuery "id, filename, cid, uploaded_at"
          "file_cids" whereClause sortBy sortOrder (argIndex f) in
      let args :=
        (queryArgs f ++ [SqlInt (Some limit); SqlInt (Some offset)])%list in
      let sent := [(countQuery, queryArgs f); (query, args)] in
      match fileCidRows D query args with
      | inl e => (inl e, sent)
      | inr rows =>
          match scanRows jsonFileCid (delivered rows) [] with
          | inl e => (inl e, sent)
          | inr maps => (inr (maps, totalCount), sent)
          end
      end
  end.

(** The code the four query functions repeat after building their filters
    (the count, the row query with [limit] and [offset] appended to the
    arguments, the scan loop), written once over the table, its columns and
    its rows. The query functions above do not call it; the proofs show that
    each of them is an instance. [sortBy] is the validated sort field. *)
Definition countThenSelect {A : Type}
    (rowsOf : string -> list SqlArg -> Rows A)
    (toMap : A -> list (string * JSON))
    (columns table : string) (f : Filters) (sortBy sortOrder : string)
    (limit offset : Z) : QueryOutcome * list Statement :=
  let whereClause := whereClauseOf f in
  let countQuery := countQueryOf table whereClause in
  match countRows D countQuery (queryArgs f) with
  | inl e => (inl e, [(countQuery, queryArgs f)])
  | inr totalCount =>
      let query :=
        selectQuery columns table whereClause sortBy sortOrder (argIndex f) in
      let args :=
        (queryArgs f ++ [SqlInt (Some limit); SqlInt (Some offset)])%list in
      let sent := [(countQuery, queryArgs f); (query, args)] in
      match rowsOf query args with
      | inl e => (inl e, sent)
      | inr rows =>
          match scanRows toMap (delivered rows) [] with
          | inl e => (inl e, sent)
          | inr maps => (inr (maps, totalCount), sent)
          end
      end
  end.

Definition validTypes : list string := ["paper"; "genome"; "spectrum"; "file_cids"].

Definition invalidTypeMessage : string :=
  "Invalid data type. Valid types: paper, genome, spectrum, file_cids".

Definition queryDataHandler (c : QueryContext) : Response * list Statement :=
  let dataType := RouteParam c "type" in
  if negb (existsb (String.eqb dataType) validTypes) then
    (badRequest invalidTypeMessage, [])
  else
  let limit := parseIntParam c "limit" 20 in
  let offset := parseIntParam c "offset" 0 in
  let sortBy := DefaultQuery c "sort" "created_at" in
  let sortOrder := DefaultQuery c "order" "DESC" in
  let sortOrder :=
    if negb (String.eqb sortOrder "ASC") && negb (String.eqb sortOrder "DESC")
    then "DESC" else sortOrder in
  let '(outcome, sent) :=
    if String.eqb dataType "paper" then queryPapers c limit offset sortBy sortOrder
    else if String.eqb dataType "genome"
    then queryGenomes c limit offset sortBy sortOrder
    else if String.eqb dataType "spectrum"
    then querySpectrums c limit offset sortBy sortOrder
    else if String.eqb dataType "file_cids"
    then queryFileCids c limit offset sortBy sortOrder
    else (inr ([], 0%Z), []) in
  match outcome with
  | inl e => (serverError e, sent)
  | inr (results, totalCount) =>
      ({| Status := StatusOK;
          Body := [("data", jsonSlice results);
                   ("pagination",
                    JObject [("total", JInt totalCount);
                             ("limit", JInt limit);
                             ("offset", JInt offset);
                             ("count", JInt (getResultCount (Some results)))]);
                   ("sort",
                    JObject [("by", JString sortBy);
                             ("order", JString sortOrder)])] |},
       sent)
  end.

Definition StatusNotFound := 404.

Definition selectPaperByCID : string :=
  "SELECT cid, title, journal, year, keywords, created_at FROM paper WHERE cid = $1".
Definition selectGenomeByCID : string :=
  "SELECT cid, organism, assembly_version, notes, created_at FROM genome WHERE cid = $1".
Definition selectSpectrumByCID : string :=
  "SELECT cid, compound, technique_nmr_ir_ms, metadata_json, created_at FROM spectrum WHERE cid = $1".
Definition selectFileCidByCID : string :=
  "SELECT id, filename, cid, uploaded_at FROM file_cids WHERE cid = $1".

(** What a lookup returns: the error of the scan, or the map of the row. *)
Definition Lookup : Type := (string + list (string * JSON)) * list Statement.

Definition getPaperByCID (cid : string) : Lookup :=
  (match paperRow D selectPaperByCID [SqlText cid] with
   | inl e => inl e
   | inr r => inr (jsonPaper r)
   end, [(selectPaperByCID, [SqlText cid])]).

Definition getGenomeByCID (cid : string) : Lookup :=
  (match genomeRow D selectGenomeByCID [SqlText cid] with
   | inl e => inl e
   | inr r => inr (jsonGenome r)
   end, [(selectGenomeByCID, [SqlText cid])]).

Definition getSpectrumByCID (cid : string) : Lookup :=
  (match spectrumRow D selectSpectrumByCID [SqlText cid] with
   | inl e => inl e
   | inr r => inr (jsonSpectrum r)
   end, [(selectSpectrumByCID, [SqlText cid])]).

Definition getFileCidByCID (cid : string) : Lookup :=
  (match fileCidRow D selectFileCidByCID [SqlText cid] with
   | inl e => inl e
   | inr r => inr (jsonFileCid r)
   end, [(selectFileCidByCID, [SqlText cid])]).

Definition getDataByIDHandler (c : QueryContext) : Response * list Statement :=
  let dataType := RouteParam c "type" in
  let cid := RouteParam c "cid" in
  if String.eqb cid "" then (badRequest "CID is required", [])
  else
  let lookup :=
    if String.eqb dataType "paper" then Some (getPaperByCID cid)
    else if String.eqb dataType "genome" then Some (getGenomeByCID cid)
    else if String.eqb dataType "spectrum" then Some (getSpectrumByCID cid)
    else if String.eqb dataType "file_cids" then Some (getFileCidByCID cid)
    else None in
  match lookup with
  | None => (badRequest invalidTypeMessage, [])
  | Some (inl e, sent) =>
      if strings.Contains e "no rows"
      then ({| Status := StatusNotFound; Body := errorBody "Record not found" |},
            sent)
      else (serverError e, sent)
  | Some (inr result, sent) =>
      ({| Status := StatusOK; Body := [("data", JObject result)] |}, sent)
  end.

Definition selectCIDs : string :=
  "SELECT filename, cid, uploaded_at" ++ LF
  ++ "           FROM file_cids" ++ LF
  ++ "          WHERE ($1 = '' OR filename = $1)" ++ LF
  ++ "          ORDER BY uploaded_at DESC".

Definition jsonEntry (e : CidEntry) : list (string * JSON) :=
  [("filename", JString (entry_Filename e));
   ("cid", JString (entry_CID e));
   ("uploaded_at", JString (entry_UploadedAt e))].

(** [listCIDsHandler]: the status and the JSON value it writes, an array of
    entries ([null] for no entry) or an error object. *)
Definition listCIDsHandler (c : QueryContext) : (nat * JSON) * list Statement :=
  let filename := QueryOf c "filename" in
  let sent := [(selectCIDs, [SqlText filename])] in
  match entryRows D selectCIDs [SqlText filename] with
  | inl e => ((StatusInternalServerError, JObject (errorBody e)), sent)
  | inr rows =>
      match scanRows jsonEntry (delivered rows) [] with
      | inl e => ((StatusInternalServerError, JObject (errorBody e)), sent)
      | inr result => ((StatusOK, jsonSlice result), sent)
      end
  end.

End DataEndpoints.

(** ** Vocabulary of the properties of the data endpoints *)

(** The request [c] with the query parameter [key] set to [value]. *)
Definition withQuery (c : QueryContext) (key value : string) : QueryContext :=
  {| RouteParam := RouteParam c;
     GetQuery := fun k => if String.eqb k key then Some value else GetQuery c k |}.

(** The sort fields a table may be ordered by, and the one used otherwise. *)
Definition sortFieldsOf (dataType : string) : list string :=
  if String.eqb dataType "paper" then paperSortFields
  else if String.eqb dataType "genome" then genomeSortFields
  else if String.eqb dataType "spectrum" then spectrumSortFields
  else fileCidSortFields.

Definition defaultSortOf (dataType : string) : string :=
  if String.eqb dataType "file_cids" then "uploaded_at" else "created_at".

(** Which filters of its table a request applies. *)
Definition filterShape (W : World) (c : QueryContext) : list bool :=
  let given := fun key => negb (String.eqb (QueryOf c key) "") in
  let dataType := RouteParam c "type" in
  if String.eqb dataType "paper" then
    [given "search";
     given "year" && match Atoi W (QueryOf c "year") with
                     | Some _ => true
                     | None => false
                     end;
     given "journal"; given "keyword"]
  else if String.eqb dataType "genome" then
    [given "search"; given "organism"; given "assembly"]
  else if String.eqb dataType "spectrum" then
    [given "search"; given "compound"; given "technique"]
  else [given "search"].

(** The filters of the table of a request. *)
Definition filtersOf (W : World) (c : QueryContext) : Filters :=
  let dataType := RouteParam c "type" in
  if String.eqb dataType "paper" then paperFilters W c
  else if String.eqb dataType "genome" then genomeFilters c
  else if String.eqb dataType "spectrum" then spectrumFilters c
  else fileCidFilters c.

(** Every clause has its argument: there are as many clauses as arguments,
    the [j]-th clause (from 1) names the placeholder [$j], and [argIndex] is
    the next free placeholder. *)
Definition numbered (f : Filters) : Prop :=
  List.length (whereClauses f) = List.length (queryArgs f)
  /\ argIndex f = S (List.length (queryArgs f))
  /\ forall j, j < List.length (whereClauses f) ->
       strings.Contains (nth j (whereClauses f) "") ("$" ++ Itoa (S j)) = true.

(** A database without rows, on which every statement succeeds. *)
Definition emptyReads : Reads :=
  {| countRows := fun _ _ => inr 0%Z;
     paperRows := fun _ _ => allRows [];
     genomeRows := fun _ _ => allRows [];
     spectrumRows := fun _ _ => allRows [];
     fileCidRows := fun _ _ => allRows [];
     entryRows := fun _ _ => allRows [];
     paperRow := fun _ _ => inl "no rows in result set";
     genomeRow := fun _ _ => inl "no rows in result set";
     spectrumRow := fun _ _ => inl "no rows in result set";
     fileCidRow := fun _ _ => inl "no rows in result set" |}.

(** [GET /api/data/<type>?<query>] *)
Definition dataRequest (dataType : string) (query : list (string * string))
  : QueryContext :=
  {| RouteParam := fun k => if String.eqb k "type" then dataType else "";
     GetQuery := fun k =>
       match find (fun kv => String.eqb (fst kv) k) query with
       | Some kv => Some (snd kv)
       | None => None
       end |}.

(** The columns a row query of a table selects. *)
Definition columnsOf (dataType : string) : string :=
  if String.eqb dataType "paper"
  then "cid, title, journal, year, keywords, created_at"
  else if String.eqb dataType "genome"
  then "cid, organism, assembly_version, notes, created_at"
  else if String.eqb dataType "spectrum"
  then "cid, compound, technique_nmr_ir_ms, metadata_json, created_at"
  else "id, filename, cid, uploaded_at".

(** The sort field a row query uses for a requested one. *)
Definition usedSort (dataType sortBy : string) : string :=
  if validSort (sortFieldsOf dataType) sortBy then sortBy
  else defaultSortOf dataType.

(** The sort order a row query uses for a requested one. *)
Definition usedOrder (sortOrder : string) : string :=
  if negb (String.eqb sortOrder "ASC") && negb (String.eqb sortOrder "DESC")
  then "DESC" else sortOrder.

(** The count and row statements of a table, as the four query functions
    send them (a device of the proofs: the query functions do not call it). *)
Definition selectRows (W : World) (D : Reads) (dataType : string) (f : Filters)
    (sortBy sortOrder : string) (limit offset : Z)
  : QueryOutcome * list Statement :=
  if String.eqb dataType "paper"
  then countThenSelect D (paperRows D) jsonPaper (columnsOf dataType) dataType
         f sortBy sortOrder limit offset
  else if String.eqb dataType "genome"
  then countThenSelect D (genomeRows D) jsonGenome (columnsOf dataType) dataType
         f sortBy sortOrder limit offset
  else if String.eqb dataType "spectrum"
  then countThenSelect D (spectrumRows D) (jsonSpectrum W) (columnsOf dataType)
         dataType f sortBy sortOrder limit offset
  else countThenSelect D (fileCidRows D) jsonFileCid (columnsOf dataType)
         dataType f sortBy sortOrder limit offset.

(** The answer [queryDataHandler] gives for the outcome of a query
    function. *)
Definition answerOf (limit offset : Z) (sortBy sortOrder : string)
    (res : QueryOutcome * list Statement) : Response * list Statement :=
  match fst res with
  | inl e => (serverError e, snd res)
  | inr (results, totalCount) =>
      ({| Status := StatusOK;
          Body := [("data", jsonSlice results);
                   ("pagination",
                    JObject [("total", JInt totalCount);
                             ("limit", JInt limit);
                             ("offset", JInt offset);
                             ("count", JInt (Z.of_nat (List.length results)))]);
                   ("sort",
                    JObject [("by", JString sortBy);
                             ("order", JString sortOrder)])] |},
       snd res)
  end.

(** What a request answers for the rows of its statement. A statement that
    fails is answered with its error. Otherwise the rows delivered are
    answered all, in the order of the database, or not at all: when a row
    fails to scan, the outcome is its error. An error that ends the reading
    early plays no part: the rows delivered before it are answered as if
    they were the whole result. *)
Definition answersRowsRead {A : Type} (answered : Rows A)
    (toMap : A -> list (string * JSON)) (total : Z) (outcome : QueryOutcome)
  : Prop :=
  match answered with
  | inl e => outcome = inl e
  | inr rows =>
      (forall vals, delivered rows = map inr vals ->
         outcome = inr (map (fun r => JObject (toMap r)) vals, total))
      /\ (forall vals e rest,
            delivered rows = (map inr vals ++ inl e :: rest)%list ->
            outcome = inl e)
  end.

Definition demoEntry : CidEntry :=
  {| entry_Filename := "a.txt"; entry_CID := "baga6ea4seaq";
     entry_UploadedAt := "2024-01-01T00:00:00Z" |}.

(** A database whose listing of [file_cids] is [entries]. *)
Definition entriesReads (entries : Rows CidEntry) : Reads :=
  {| countRows := fun _ _ => inr 2%Z;
     paperRows := fun _ _ => allRows [];
     genomeRows := fun _ _ => allRows [];
     spectrumRows := fun _ _ => allRows [];
     fileCidRows := fun _ _ => allRows [];
     entryRows := fun _ _ => entries;
     paperRow := fun _ _ => inl "no rows in result set";
     genomeRow := fun _ _ => inl "no rows in result set";
     spectrumRow := fun _ _ => inl "no rows in result set";
     fileCidRow := fun _ _ => inl "no rows in result set" |}.

(** A table of two entries, the second of which cannot be scanned. *)
Definition brokenRowReads : Reads :=
  entriesReads (allRows [inr demoEntry; inl "can't scan into dest[2]"]).

(** A table of two entries, read over a connection that is lost after the
    first. *)
Definition interruptedReads : Reads :=
  entriesReads
    (inr {| delivered := [inr demoEntry];
            readError := Some "unexpected EOF" |}).

(** * The JavaScript helpers *)

(** ** [retryAsync] of [uploadstuff.js]

    [fn] is an effectful operation: [fn i] is what its [i]-th call gives, the
    error it throws ([inl], an [Error] object) or the value it resolves to
    ([inr]). What the helper writes to the console is left out. *)

Inductive JsEvent :=
| Called (i : nat)        (* the [i]-th [await fn()] *)
| Waited (delayMs : nat). (* [await new Promise(r => setTimeout(r, delayMs))] *)

(** How the promise of an [async] function settles: resolved with a value,
    or rejected with the value thrown, [None] for [undefined]. *)
Inductive Settled (E A : Type) :=
| Resolved (a : A)
| Rejected (e : option E).
Arguments Resolved {E A} a.
Arguments Rejected {E A} e.

(** The [for (let i = 1; i <= attempts; i++)] loop from [i] on, with [left]
    iterations to go, and the [throw lastError] after it. *)
Fixpoint retryLoop {E A : Type} (fn : nat -> E + A) (attempts delayMs : nat)
    (i left : nat) (lastError : option E) : Settled E A * list JsEvent :=
  match left with
  | 0 => (Rejected lastError, [])
  | S left' =>
      match fn i with
      | inr a => (Resolved a, [Called i])
      | inl e =>
          let '(settled, events) :=
            retryLoop fn attempts delayMs (S i) left' (Some e) in
          (settled,
           (Called i :: (if i <? attempts then [Waited delayMs] else [])
            ++ events)%list)
      end
  end.

(** [retryAsync(operationName, fn, attempts = 100, delayMs = 60000)] *)
Definition retryAsync {E A : Type} (fn : nat -> E + A)
    (attempts delayMs : nat) : Settled E A * list JsEvent :=
  retryLoop fn attempts delayMs 1 attempts None.

(** [n] calls from the [i]-th on, [delayMs] apart. *)
Fixpoint callSchedule (n i delayMs : nat) : list JsEvent :=
  match n with
  | 0 => []
  | 1 => [Called i]
  | S n' => Called i :: Waited delayMs :: callSchedule n' (S i) delayMs
  end.

(** The time spent waiting, in milliseconds. *)
Definition waitedMs (events : list JsEvent) : nat :=
  list_sum (map (fun ev => match ev with Waited d => d | Called _ => 0 end)
              events).

(** An operation that fails twice and then gives 7. *)
Definition thirdTimeLucky (i : nat) : string + nat :=
  if i <? 3 then inl "timeout" else inr 7.

(** ** The error middleware of [src/server.js] *)

(** The fields of the error that the middleware reads: [None] for
    [undefined]; a [cause] is an object whose [message] may be undefined. *)
Record JsError := {
  err_message : option string;
  err_cause : option (option string);
  err_status : option nat
}.

(** A value in a template literal. *)
Definition interpolate (v : option string) : string :=
  match v with Some s => s | None => "undefined" end.

(** [err.cause ? `${err.message}: ${err.cause.message}` : err.message] *)
Definition errorMessage (err : JsError) : option string :=
  match err_cause err with
  | Some causeMessage =>
      Some (interpolate (err_message err) ++ ": " ++ interpolate causeMessage)
  | None => err_message err
  end.

(** The status and the body of
    [res.status(err.status || 500).json({error: errorMessage || '...'})]:
    [undefined], [0] and the empty text are falsy. *)
Definition errorMiddleware (err : JsError) : nat * list (string * JSON) :=
  (match err_status err with
   | Some 0 | None => 500
   | Some status => status
   end,
   [("error",
     JString match errorMessage err with
             | Some "" | None => "An internal server error occurred."
             | Some text => text
             end)]).

(** ** Vocabulary of the legacy endpoints *)

(** A request that runs the tool at most once: either nothing was run and
    the answer is not a success, or one process was run, with nothing before
    or after it, and the answer is 200 when it succeeded and 500 when it
    failed. *)
Definition singleShot (W : World) (h : History) (res : Response * History)
  : Prop :=
  (snd res = h /\ Status (fst res) <> StatusOK)
  \/ exists args,
       snd res = advance h 1 [Spawn args]
       /\ match err (tool W (spawned h) args) with
          | None => Status (fst res) = StatusOK
          | Some _ => Status (fst res) = StatusInternalServerError
          end.
(** * Facts about the string functions *)

Section StringFacts.

Import strings.

Lemma append_empty_r (s : string) : s ++ "" = s.
Proof. induction s; simpl; congruence. Qed.

Lemma append_assoc_s (a b c : string) : (a ++ b) ++ c = a ++ (b ++ c).
Proof. induction a; simpl; congruence. Qed.

Lemma length_append_s (a b : string) :
  String.length (a ++ b) = String.length a + String.length b.
Proof. induction a; simpl; congruence. Qed.

Lemma drop_empty (n : nat) : drop n "" = "".
Proof. destruct n; reflexivity. Qed.


Lemma drop_app (a b : string) (k : nat) :
  drop (String.length a + k) (a ++ b) = drop k b.
Proof. induction a; simpl; auto. Qed.

Lemma drop_app_length (a b : string) : drop (String.length a) (a ++ b) = b.
Proof. rewrite <- (Nat.add_0_r (String.length a)). apply drop_app. Qed.

Lemma drop_all (s : string) : drop (String.length s) s = "".
Proof. induction s; simpl; auto. Qed.

Lemma take_app_length (a b : string) : take (String.length a) (a ++ b) = a.
Proof. induction a; simpl; congruence. Qed.

Lemma take_drop (n : nat) (s : string) : take n s ++ drop n s = s.
Proof.
  revert s; induction n as [|n IH]; intros [|c r]; simpl; try reflexivity.
  now rewrite IH.
Qed.

Lemma length_drop (n : nat) (s : string) :
  String.length (drop n s) = String.length s - n.
Proof.
  revert s; induction n as [|n IH]; intros [|c r]; simpl; auto.
Qed.

Lemma HasPrefix_empty (s : string) : HasPrefix s "" = true.
Proof. destruct s; reflexivity. Qed.

Lemma HasPrefix_app_self (p t : string) : HasPrefix (p ++ t) p = true.
Proof.
  induction p as [|c p IH]; simpl; [apply HasPrefix_empty|].
  now rewrite Ascii.eqb_refl.
Qed.

Lemma HasPrefix_split (s p : string) :
  HasPrefix s p = true -> s = p ++ drop (String.length p) s.
Proof.
  revert s; induction p as [|c p IH]; intros s H; simpl in *.
  - destruct s; reflexivity.
  - destruct s as [|d s]; [discriminate|].
    apply andb_true_iff in H as [Hc Hp].
    apply Ascii.eqb_eq in Hc; subst d.
    simpl. f_equal. now apply IH.
Qed.


Lemma HasPrefix_length (s p : string) :
  HasPrefix s p = true -> String.length p <= String.length s.
Proof.
  intros H. rewrite (HasPrefix_split _ _ H), length_append_s. lia.
Qed.

Lemma Index_nil (sub : string) :
  Index "" sub = if HasPrefix "" sub then 0%Z else (-1)%Z.
Proof. reflexivity. Qed.

Lemma Index_cons (c : ascii) (r sub : string) :
  Index (String c r) sub =
  if HasPrefix (String c r) sub then 0%Z
  else if (Index r sub <? 0)%Z then (-1)%Z else (Index r sub + 1)%Z.
Proof. reflexivity. Qed.

Lemma Index_range (s sub : string) :
  (-1 <= Index s sub <= Z.of_nat (String.length s))%Z.
Proof.
  induction s as [|c r IH].
  - rewrite Index_nil. destruct (HasPrefix "" sub); simpl; lia.
  - rewrite Index_cons.
    destruct (HasPrefix (String c r) sub); [simpl; lia|].
    destruct (Z.ltb_spec (Index r sub) 0); simpl String.length; lia.
Qed.

(** [Index] returns the first offset at which [sub] starts. *)
Lemma Index_first (n : nat) (s sub : string) :
  (forall k, k < n -> HasPrefix (drop k s) sub = false) ->
  HasPrefix (drop n s) sub = true ->
  n <= String.length s ->
  Index s sub = Z.of_nat n.
Proof.
  revert s; induction n as [|n IH]; intros s Hbefore Hat Hlen.
  - simpl in Hat. destruct s; [rewrite Index_nil | rewrite Index_cons];
      now rewrite Hat.
  - destruct s as [|c r]; [simpl in Hlen; lia|].
    rewrite Index_cons.
    assert (H0 := Hbefore 0 ltac:(lia)). cbn [drop] in H0. rewrite H0.
    rewrite (IH r).
    + destruct (Z.ltb_spec (Z.of_nat n) 0); lia.
    + intros k Hk. apply (Hbefore (S k)). lia.
    + exact Hat.
    + simpl in Hlen. lia.
Qed.

Lemma Index_none (s sub : string) :
  (forall k, HasPrefix (drop k s) sub = false) -> Index s sub = (-1)%Z.
Proof.
  induction s as [|c r IH]; intros H.
  - rewrite Index_nil. assert (H0 := H 0). cbn [drop] in H0. now rewrite H0.
  - rewrite Index_cons. assert (H0 := H 0). cbn [drop] in H0. rewrite H0.
    rewrite IH; [reflexivity|].
    intros k. apply (H (S k)).
Qed.

Lemma Index_found (s sub : string) :
  (0 <= Index s sub)%Z ->
  HasPrefix (drop (Z.to_nat (Index s sub)) s) sub = true.
Proof.
  induction s as [|c r IH].
  - rewrite Index_nil. destruct (HasPrefix "" sub) eqn:E; [auto | lia].
  - rewrite Index_cons.
    destruct (HasPrefix (String c r) sub) eqn:E; [auto|].
    destruct (Z.ltb_spec (Index r sub) 0); [lia|].
    intros _.
    replace (Z.to_nat (Index r sub + 1)) with (S (Z.to_nat (Index r sub))) by lia.
    simpl. auto.
Qed.

Lemma Contains_iff (s sub : string) :
  Contains s sub = true <-> exists k, HasPrefix (drop k s) sub = true.
Proof.
  unfold Contains. rewrite Z.leb_le. split.
  - intros H. eexists. now apply Index_found.
  - intros [k Hk]. revert k Hk.
    induction s as [|c r IH]; intros k Hk.
    + rewrite drop_empty in Hk. rewrite Index_nil, Hk. lia.
    + rewrite Index_cons.
      destruct (HasPrefix (String c r) sub) eqn:E; [lia|].
      destruct k as [|k]; [cbn [drop] in Hk; congruence|].
      cbn [drop] in Hk. specialize (IH _ Hk).
      destruct (Z.ltb_spec (Index r sub) 0); lia.
Qed.

Lemma Contains_false_iff (s sub : string) :
  Contains s sub = false <-> forall k, HasPrefix (drop k s) sub = false.
Proof.
  split.
  - intros H k. destruct (HasPrefix (drop k s) sub) eqn:E; [|reflexivity].
    assert (Contains s sub = true) by (apply Contains_iff; eauto). congruence.
  - intros H. destruct (Contains s sub) eqn:E; [|reflexivity].
    apply Contains_iff in E as [k Hk]. rewrite H in Hk. discriminate.
Qed.




(** *** Trimming *)

Lemma TrimRight_idem (s : string) : TrimRight (TrimRight s) = TrimRight s.
Proof.
  induction s as [|c r IH]; [reflexivity|].
  cbn [TrimRight].
  destruct (TrimRight r) as [|d r'] eqn:E.
  - destruct (isSpace c) eqn:Ec; [reflexivity|].
    cbn [TrimRight]. now rewrite Ec.
  - cbn [TrimRight]. cbn [TrimRight] in IH. rewrite IH. reflexivity.
Qed.

Lemma TrimLeft_starts (s : string) : startsNonSpace (TrimLeft s) = true.
Proof.
  induction s as [|c r IH]; [reflexivity|].
  cbn [TrimLeft]. destruct (isSpace c) eqn:Ec; [exact IH|].
  cbn. now rewrite Ec.
Qed.

Lemma TrimLeft_fixed (s : string) : startsNonSpace s = true -> TrimLeft s = s.
Proof.
  destruct s as [|c r]; [reflexivity|]. cbn.
  now destruct (isSpace c).
Qed.

Lemma TrimRight_starts (s : string) :
  startsNonSpace s = true -> startsNonSpace (TrimRight s) = true.
Proof.
  destruct s as [|c r]; [reflexivity|].
  cbn [startsNonSpace TrimRight]. intros Hc.
  destruct (TrimRight r); [|exact Hc].
  destruct (isSpace c) eqn:Ec; cbn; [reflexivity | now rewrite Ec].
Qed.

Lemma TrimSpace_starts (s : string) : startsNonSpace (TrimSpace s) = true.
Proof. apply TrimRight_starts, TrimLeft_starts. Qed.

Theorem TrimSpace_idem (s : string) : TrimSpace (TrimSpace s) = TrimSpace s.
Proof.
  unfold TrimSpace.
  rewrite (TrimLeft_fixed (TrimRight (TrimLeft s))) by apply TrimSpace_starts.
  apply TrimRight_idem.
Qed.

(** *** Bytes that do not occur *)

Lemma hasByte_TrimLeft (c : ascii) (s : string) :
  hasByte c s = false -> hasByte c (TrimLeft s) = false.
Proof.
  induction s as [|d r IH]; [auto|].
  cbn [TrimLeft]. destruct (isSpace d); [|auto].
  cbn [hasByte]. intros H. apply orb_false_iff in H as [_ H]. auto.
Qed.

Lemma hasByte_TrimRight (c : ascii) (s : string) :
  hasByte c s = false -> hasByte c (TrimRight s) = false.
Proof.
  induction s as [|d r IH]; [auto|].
  cbn [TrimRight hasByte]. intros H. apply orb_false_iff in H as [Hd Hr].
  specialize (IH Hr).
  destruct (TrimRight r).
  - destruct (isSpace d); cbn [hasByte]; [reflexivity | now rewrite Hd].
  - cbn [hasByte] in *. now rewrite Hd, IH.
Qed.

Lemma hasByte_TrimSpace (c : ascii) (s : string) :
  hasByte c s = false -> hasByte c (TrimSpace s) = false.
Proof. intros H. now apply hasByte_TrimRight, hasByte_TrimLeft. Qed.

Lemma Split_nonempty (s : string) (c : ascii) : Split s c <> [].
Proof.
  destruct s as [|d r]; cbn [Split]; [discriminate|].
  destruct (Ascii.eqb d c); [discriminate|].
  destruct (Split r c); discriminate.
Qed.

Lemma Split_lines_free (s : string) (c : ascii) :
  Forall (fun l => hasByte c l = false) (Split s c).
Proof.
  induction s as [|d r IH]; cbn [Split].
  - constructor; [reflexivity | constructor].
  - destruct (Ascii.eqb d c) eqn:E.
    + constructor; [reflexivity | exact IH].
    + destruct (Split r c) as [|l ls]; constructor; try constructor.
      * cbn. now rewrite E.
      * inversion IH; subst. cbn [hasByte]. now rewrite E.
      * now inversion IH.
Qed.

Lemma Split_free (s : string) (c : ascii) :
  hasByte c s = false -> Split s c = [s].
Proof.
  induction s as [|d r IH]; [reflexivity|].
  cbn [hasByte Split]. intros H. apply orb_false_iff in H as [Hd Hr].
  rewrite Hd, (IH Hr). reflexivity.
Qed.

Lemma last_Forall {A} (P : A -> Prop) (l : list A) (d : A) :
  l <> [] -> Forall P l -> P (last l d).
Proof.
  induction l as [|a l IH]; intros Hne HP; [congruence|].
  inversion HP; subst. destruct l as [|b l]; [assumption|].
  apply IH; [discriminate | assumption].
Qed.

Lemma lastLine_free (out : string) : hasByte newline (lastLine out) = false.
Proof.
  unfold lastLine.
  apply (last_Forall (fun l => hasByte newline l = false)).
  - apply Split_nonempty.
  - apply Split_lines_free.
Qed.

Lemma lastLine_single (s : string) :
  hasByte newline s = false -> lastLine s = TrimSpace s.
Proof.
  intros H. unfold lastLine.
  rewrite Split_free by now apply hasByte_TrimSpace.
  reflexivity.
Qed.

Lemma Cut_free (s : string) (c : ascii) : hasByte c s = false -> Cut s c = None.
Proof.
  induction s as [|d r IH]; [reflexivity|].
  cbn [hasByte Cut]. intros H. apply orb_false_iff in H as [Hd Hr].
  now rewrite Hd, (IH Hr).
Qed.

Lemma Cut_before (s : string) (c : ascii) (a b : string) :
  Cut s c = Some (a, b) ->
  hasByte c a = false /\ s = a ++ String c b.
Proof.
  revert a; induction s as [|d r IH]; intros a; [discriminate|].
  cbn [Cut]. destruct (Ascii.eqb d c) eqn:E.
  - intros [= <- <-]. apply Ascii.eqb_eq in E. subst. split; reflexivity.
  - destruct (Cut r c) as [[a' b']|]; [|discriminate].
    intros [= <- <-]. destruct (IH a' eq_refl) as [Ha Hs].
    split; [cbn; now rewrite E, Ha | cbn; now rewrite <- Hs].
Qed.

Lemma hasByte_app (c : ascii) (a b : string) :
  hasByte c (a ++ b) = hasByte c a || hasByte c b.
Proof.
  induction a as [|d a IH]; [reflexivity|].
  cbn. now rewrite IH, orb_assoc.
Qed.

(** The first field of [SplitN(s, sep, 2)]. *)
Lemma SplitN2_head_free (s : string) (c : ascii) :
  hasByte c (nth 0 (SplitN2 s c) "") = false.
Proof.
  unfold SplitN2. destruct (Cut s c) as [[a b]|] eqn:E; cbn.
  - now apply Cut_before in E.
  - clear -E. induction s as [|d r IH]; [reflexivity|].
    cbn [Cut] in E. cbn [hasByte].
    destruct (Ascii.eqb d c); [discriminate|].
    destruct (Cut r c) as [[? ?]|]; [discriminate | now rewrite IH].
Qed.

Lemma SplitN2_head_keeps_free (s : string) (c d : ascii) :
  hasByte d s = false -> hasByte d (nth 0 (SplitN2 s c) "") = false.
Proof.
  intros H. unfold SplitN2. destruct (Cut s c) as [[a b]|] eqn:E; cbn; [|exact H].
  apply Cut_before in E as [_ Hs]. rewrite Hs, hasByte_app in H.
  now apply orb_false_iff in H.
Qed.

Lemma SplitN2_free (s : string) (c : ascii) :
  hasByte c s = false -> nth 0 (SplitN2 s c) "" = s.
Proof. intros H. unfold SplitN2. now rewrite Cut_free. Qed.

(** *** Letter case and suffixes *)

Lemma length_ToLower (s : string) : String.length (ToLower s) = String.length s.
Proof. induction s; cbn; congruence. Qed.

Lemma ToLower_append (a b : string) : ToLower (a ++ b) = ToLower a ++ ToLower b.
Proof. induction a; cbn; congruence. Qed.

Lemma ToLower_drop (n : nat) (s : string) : ToLower (drop n s) = drop n (ToLower s).
Proof.
  revert s; induction n as [|n IH]; intros [|c r]; cbn; auto.
Qed.

Lemma HasSuffix_iff (s suffix : string) :
  HasSuffix s suffix = true <-> exists p, s = p ++ suffix.
Proof.
  unfold HasSuffix. rewrite andb_true_iff, Nat.leb_le, String.eqb_eq. split.
  - intros [_ H]. exists (take (String.length s - String.length suffix) s).
    rewrite <- (take_drop (String.length s - String.length suffix) s) at 1.
    now rewrite H.
  - intros [p ->]. rewrite length_append_s. split; [lia|].
    replace (String.length p + String.length suffix - String.length suffix)
      with (String.length p) by lia.
    apply drop_app_length.
Qed.

End StringFacts.

(** * Runs of the model on concrete inputs *)

Example ToLower_run : strings.ToLower "ProofSet Id: 7" = "proofset id: 7".
Proof. reflexivity. Qed.

Example TrimSpace_run : strings.TrimSpace ("  a b " ++ LF) = "a b".
Proof. reflexivity. Qed.

Example Split_run :
  strings.Split ("a" ++ LF ++ LF ++ "b") strings.newline = ["a"; ""; "b"].
Proof. reflexivity. Qed.

Example Split_empty_run : strings.Split "" strings.newline = [""].
Proof. reflexivity. Qed.

Example Index_run :
  strings.Index "hello world" "o w" = 4%Z /\ strings.Index "hello" "xyz" = (-1)%Z.
Proof. split; reflexivity. Qed.

Example SplitN2_run : strings.SplitN2 "a:b:c" strings.colon = ["a"; "b:c"].
Proof. reflexivity. Qed.

Example parseRootCID_run :
  parseRootCID_line ("uploading" ++ LF ++ " baga6ea4seaq:baga6ea4sub " ++ LF)
  = "baga6ea4seaq:baga6ea4sub"
  /\ parseRootCID_colon ("uploading" ++ LF ++ " baga6ea4seaq:baga6ea4sub " ++ LF)
     = " baga6ea4seaq".
Proof. split; reflexivity. Qed.

(** The upload step returns ["root-abc"] after one invocation and no settle
    delay, and the workflow stores one file mapping row for it. *)
Example upload_and_add_root_run :
  uploadFileToStorage happyWorld demoHeader "http://pdp.local" "pdp" start
  = (inr "root-abc",
     {| spawned := 1; statements := 0; events := [Spawn demoUploadArgs] |})
  /\ uploadAndAddRootHandler happyWorld demoRequest start
     = ({| Status := StatusOK;
           Body := [("proofSetID", JString "12");
                    ("rootCID", JString "root-abc");
                    ("addRoots", JString "Roots added");
                    ("isEncrypted", JBool false)] |},
        {| spawned := 2; statements := 1;
           events := [Spawn demoUploadArgs;
                      Spawn (addRootsArgs "http://pdp.local" "pdp" "12" "root-abc");
                      DbExec insertFileCids
                        [SqlText "paper.pdf"; SqlText "root-abc"]] |}).
Proof. split; reflexivity. Qed.

Example orchestrate_run :
  orchestrateHandler orchestrateWorld 10 demoRequest start
  = (Some {| Status := StatusOK;
             Body := [("txHash", JString "0xabc");
                      ("proofSetID", JString "7");
                      ("rootCID", JString "baga6ea4seaq");
                      ("addRoots", JString "Roots added")] |},
     {| spawned := 5; statements := 0;
        events := [Spawn (createProofSetArgs "http://pdp.local" "pdp" "");
                   Spawn demoStatusArgs; Sleep 3; Spawn demoStatusArgs;
                   Spawn demoUploadArgs;
                   Spawn (addRootsArgs "http://pdp.local" "pdp" "7" "baga6ea4seaq")] |}).
Proof. vm_compute. reflexivity. Qed.

(** [orchestrateHandler] has its own upload code, without the settle delay of
    the upload step: for an [.ENC] file [add-roots] follows [upload-file]
    at once. *)
Example orchestrate_enc_run :
  events (snd (orchestrateHandler orchestrateWorld 10
                 (formRequest demoFields "genome.fasta.ENC") start))
  = [Spawn (createProofSetArgs "http://pdp.local" "pdp" "");
     Spawn demoStatusArgs; Sleep 3; Spawn demoStatusArgs;
     Spawn demoUploadArgs;
     Spawn (addRootsArgs "http://pdp.local" "pdp" "7" "baga6ea4seaq")].
Proof. vm_compute. reflexivity. Qed.

(** * The content identifier parser *)

Lemma parseRootCID_line_free (out : string) :
  hasByte strings.newline (parseRootCID_line out) = false.
Proof. apply hasByte_TrimSpace, lastLine_free. Qed.

Lemma parseRootCID_line_idem (out : string) :
  parseRootCID_line (parseRootCID_line out) = parseRootCID_line out.
Proof.
  unfold parseRootCID_line at 1.
  rewrite lastLine_single by apply parseRootCID_line_free.
  unfold parseRootCID_line. now rewrite !TrimSpace_idem.
Qed.

Lemma parseRootCID_colon_free (out : string) :
  hasByte strings.newline (parseRootCID_colon out) = false
  /\ hasByte strings.colon (parseRootCID_colon out) = false.
Proof.
  split.
  - apply SplitN2_head_keeps_free, lastLine_free.
  - apply SplitN2_head_free.
Qed.

(** Re-parsing an identifier that has neither a line feed nor a colon trims
    it, with either variant. *)
Lemma parseRootCID_colon_single (r : string) :
  hasByte strings.newline r = false ->
  hasByte strings.colon r = false ->
  parseRootCID_colon r = strings.TrimSpace r.
Proof.
  intros Hn Hc. unfold parseRootCID_colon.
  rewrite lastLine_single by assumption.
  apply SplitN2_free. now apply hasByte_TrimSpace.
Qed.

Lemma parseRootCID_colon_reparse (out : string) :
  parseRootCID_colon (parseRootCID_colon out)
  = strings.TrimSpace (parseRootCID_colon out).
Proof.
  destruct (parseRootCID_colon_free out) as [Hn Hc].
  now apply parseRootCID_colon_single.
Qed.

(** C9 (as amended). Re-parsing the identifier returned by the whole-line
    variant of [parseRootCID] gives the same identifier. Re-parsing the
    identifier returned by the before-the-colon variant gives that identifier
    with its surrounding white space trimmed, and from then on the
    identifier is stable. *)
Theorem parseRootCID_reparse (out : string) :
  parseRootCID_line (parseRootCID_line out) = parseRootCID_line out
  /\ parseRootCID_colon (parseRootCID_colon out)
     = strings.TrimSpace (parseRootCID_colon out)
  /\ parseRootCID_colon (parseRootCID_colon (parseRootCID_colon out))
     = parseRootCID_colon (parseRootCID_colon out).
Proof.
  split; [apply parseRootCID_line_idem|].
  split; [apply parseRootCID_colon_reparse|].
  rewrite (parseRootCID_colon_reparse (parseRootCID_colon out)).
  rewrite (parseRootCID_colon_reparse out).
  apply TrimSpace_idem.
Qed.

(** C9, counterexample. On the upload output ["abc : def"] the
    before-the-colon variant returns ["abc "], with the space that precedes
    the colon; re-parsing ["abc "] returns ["abc"]. *)
Lemma parseRootCID_colon_not_idempotent :
  parseRootCID_colon "abc : def" = "abc "
  /\ parseRootCID_colon (parseRootCID_colon "abc : def") = "abc"
  /\ parseRootCID_colon (parseRootCID_colon "abc : def")
     <> parseRootCID_colon "abc : def".
Proof. repeat split. discriminate. Qed.

(** * The bounded retry around [add-roots] *)

Lemma attemptsCapped_pos (results : nat -> CmdResult) (cap i : nat) :
  1 <= cap -> 1 <= attemptsCapped results cap i.
Proof.
  destruct cap; [lia|]. intros _. cbn. destruct (stops (results i)); lia.
Qed.

Lemma attemptsCapped_le (results : nat -> CmdResult) (cap i : nat) :
  attemptsCapped results cap i <= cap.
Proof.
  revert i; induction cap as [|cap IH]; intros i; cbn; [lia|].
  destruct (stops (results i)); [lia|]. specialize (IH (S i)). lia.
Qed.

(** [attemptsCapped] is the minimum the specification writes: when the
    [k]-th result from [i] is the first that stops, it is [min cap k]. *)
Lemma attemptsCapped_min (results : nat -> CmdResult) (cap i k : nat) :
  (forall j, j < k -> stops (results (i + j)) = false) ->
  stops (results (i + k)) = true ->
  attemptsCapped results cap i = Nat.min cap (S k).
Proof.
  revert i k; induction cap as [|cap IH]; intros i k Hbefore Hat; [reflexivity|].
  cbn [attemptsCapped]. destruct k as [|k].
  - rewrite Nat.add_0_r in Hat. rewrite Hat. destruct cap; reflexivity.
  - rewrite <- (Nat.add_0_r i) at 1. rewrite (Hbefore 0) by lia.
    rewrite (IH (S i) k).
    + reflexivity.
    + intros j Hj. replace (S i + j) with (i + S j) by lia. apply Hbefore. lia.
    + replace (S i + k) with (i + S k) by lia. exact Hat.
Qed.

Lemma attemptsCapped_exhausted (results : nat -> CmdResult) (cap i : nat) :
  (forall j, j < cap -> stops (results (i + j)) = false) ->
  attemptsCapped results cap i = cap.
Proof.
  revert i; induction cap as [|cap IH]; intros i H; [reflexivity|].
  cbn [attemptsCapped]. rewrite <- (Nat.add_0_r i) at 1. rewrite (H 0) by lia.
  f_equal. apply IH. intros j Hj.
  replace (S i + j) with (i + S j) by lia. apply H. lia.
Qed.

Lemma retrySchedule_spawns (n attempt : nat) (args : list string) :
  spawnsOf (retrySchedule n attempt args) = repeat args n.
Proof.
  revert attempt; induction n as [|n IH]; intros attempt; [reflexivity|].
  cbn [retrySchedule]. destruct n as [|n]; [reflexivity|].
  change (spawnsOf (Spawn args :: Sleep (attempt * 2)
                      :: retrySchedule (S n) (S attempt) args))
    with (args :: spawnsOf (retrySchedule (S n) (S attempt) args)).
  now rewrite IH.
Qed.

Lemma retrySchedule_sleeps (n attempt : nat) (args : list string) :
  sleepsOf (retrySchedule n attempt args)
  = map (fun a => a * 2) (seq attempt (n - 1)).
Proof.
  revert attempt; induction n as [|n IH]; intros attempt; [reflexivity|].
  cbn [retrySchedule]. destruct n as [|n]; [reflexivity|].
  change (sleepsOf (Spawn args :: Sleep (attempt * 2)
                      :: retrySchedule (S n) (S attempt) args))
    with (attempt * 2 :: sleepsOf (retrySchedule (S n) (S attempt) args)).
  rewrite IH. replace (S (S n) - 1) with (S (S n - 1)) by lia. reflexivity.
Qed.

Lemma advance_advance (h : History) (a b : nat) (e1 e2 : list Event) :
  advance (advance h a e1) b e2 = advance h (a + b) (e1 ++ e2).
Proof.
  unfold advance; cbn. f_equal; [lia | now rewrite List.app_assoc].
Qed.

Lemma CombinedOutput_run (W : World) (args : list string) (h : History) :
  CombinedOutput W args h = (tool W (spawned h) args, advance h 1 [Spawn args]).
Proof.
  unfold CombinedOutput, advance. do 2 f_equal. lia.
Qed.

Lemma sleep_run (n : nat) (h : History) :
  sleep n h = (tt, advance h 0 [Sleep n]).
Proof.
  unfold sleep, record, advance. do 2 f_equal. lia.
Qed.

Lemma bind_run {A B} (m : M A) (k : A -> M B) (h h1 : History) (a : A) :
  m h = (a, h1) -> bind m k h = k a h1.
Proof. unfold bind. now intros ->. Qed.

(** What [addRootToProofSet] does, for any behaviour of the tool: it runs
    [add-roots] until a result stops the retrying or the attempts are used
    up, sleeping [attempt * 2] seconds in between, and reports the last
    result. *)
Lemma addRootAttempts_run (W : World) (args : list string)
    (left attempt : nat) (h : History) :
  attempt + left = S maxRetries -> 1 <= left ->
  let n := attemptsCapped (fun j => tool W j args) left (spawned h) in
  addRootAttempts W left attempt args h
  = (bindError (tool W (spawned h + n - 1) args),
     advance h n (retrySchedule n attempt args)).
Proof.
  revert attempt h; induction left as [|left IH]; intros attempt h Hsum Hpos;
    [lia|].
  cbn zeta. cbn [addRootAttempts attemptsCapped].
  rewrite (bind_run _ _ _ _ _ (CombinedOutput_run W args h)).
  unfold stops, bindError.
  destruct (err (tool W (spawned h) args)) as [e|] eqn:Eerr.
  - destruct (strings.Contains (output (tool W (spawned h) args)) notFoundMarker)
      eqn:Ec; cbn [negb andb].
    + destruct (Nat.ltb_spec attempt maxRetries) as [Hlt|Hge].
      * rewrite (bind_run _ _ _ _ _ (sleep_run _ _)).
        assert (Hl : 1 <= left) by (unfold maxRetries in *; lia).
        assert (Hs : S attempt + left = S maxRetries)
          by (unfold maxRetries in *; lia).
        set (h2 := advance (advance h 1 [Spawn args]) 0 [Sleep (attempt * 2)]).
        assert (Hsp : spawned h2 = S (spawned h)) by (cbn; lia).
        rewrite (IH (S attempt) h2 Hs Hl). cbn zeta. rewrite Hsp.
        assert (Hn := attemptsCapped_pos (fun j => tool W j args) left
                        (S (spawned h)) Hl).
        destruct (attemptsCapped (fun j => tool W j args) left (S (spawned h)))
          as [|n]; [lia|].
        replace (S (spawned h) + S n - 1) with (spawned h + S (S n) - 1) by lia.
        f_equal. unfold h2. rewrite !advance_advance.
        f_equal.
      * assert (left = 0) by (unfold maxRetries in *; lia). subst left.
        cbn [attemptsCapped].
        replace (spawned h + 1 - 1) with (spawned h) by lia.
        rewrite Eerr. reflexivity.
    + replace (spawned h + 1 - 1) with (spawned h) by lia.
      rewrite Eerr. reflexivity.
  - replace (spawned h + 1 - 1) with (spawned h) by lia.
    rewrite Eerr. reflexivity.
Qed.

(** The inline loop of [uploadAndAddRootHandler] follows the same schedule as
    long as every failure it meets carries the "not found" text. *)
Lemma inlineAddRoots_run (W : World) (args : list string) (rootCID : string)
    (isEncrypted : bool) (left attempt : nat) (arOut : string) (h : History) :
  attempt + left = S maxRetries -> 1 <= left ->
  (forall j, j < left ->
     err (tool W (spawned h + j) args) <> None ->
     strings.Contains (output (tool W (spawned h + j) args)) notFoundMarker = true) ->
  let n := attemptsCapped (fun j => tool W j args) left (spawned h) in
  let r := tool W (spawned h + n - 1) args in
  inlineAddRoots W left attempt args rootCID isEncrypted arOut h
  = (match err r with
     | None => LoopEnd (output r) true
     | Some _ => Returned (exhaustedResponse (output r) rootCID isEncrypted)
     end,
     advance h n (retrySchedule n attempt args)).
Proof.
  revert attempt arOut h; induction left as [|left IH];
    intros attempt arOut h Hsum Hpos Htransient; [lia|].
  cbn zeta. cbn [inlineAddRoots attemptsCapped].
  rewrite (bind_run _ _ _ _ _ (CombinedOutput_run W args h)).
  assert (H0 := Htransient 0 ltac:(lia)). rewrite Nat.add_0_r in H0.
  unfold stops.
  destruct (err (tool W (spawned h) args)) as [e|] eqn:Eerr.
  - rewrite H0 by discriminate. cbn [negb andb].
    destruct (Nat.ltb_spec attempt maxRetries) as [Hlt|Hge].
    + rewrite (bind_run _ _ _ _ _ (sleep_run _ _)).
      assert (Hl : 1 <= left) by (unfold maxRetries in *; lia).
      assert (Hs : S attempt + left = S maxRetries)
        by (unfold maxRetries in *; lia).
      set (h2 := advance (advance h 1 [Spawn args]) 0 [Sleep (attempt * 2)]).
      assert (Hsp : spawned h2 = S (spawned h)) by (cbn; lia).
      rewrite (IH (S attempt) _ h2 Hs Hl).
      * cbn zeta. rewrite Hsp.
        assert (Hn := attemptsCapped_pos (fun j => tool W j args) left
                        (S (spawned h)) Hl).
        destruct (attemptsCapped (fun j => tool W j args) left (S (spawned h)))
          as [|n]; [lia|].
        replace (S (spawned h) + S n - 1) with (spawned h + S (S n) - 1) by lia.
        f_equal. unfold h2. rewrite !advance_advance.
        f_equal.
      * intros j Hj. rewrite Hsp.
        replace (S (spawned h) + j) with (spawned h + S j) by lia.
        apply Htransient. lia.
    + assert (left = 0) by (unfold maxRetries in *; lia). subst left.
      assert (attempt = maxRetries) by (unfold maxRetries in *; lia). subst attempt.
      rewrite Nat.eqb_refl. cbn [attemptsCapped].
      replace (spawned h + 1 - 1) with (spawned h) by lia.
      rewrite Eerr. reflexivity.
  - replace (spawned h + 1 - 1) with (spawned h) by lia.
    rewrite Eerr. reflexivity.
Qed.

Lemma stops_transient (r : CmdResult) :
  (err r <> None -> strings.Contains (output r) notFoundMarker = true) ->
  stops r = match err r with None => true | Some _ => false end.
Proof.
  unfold stops. destruct (err r); [|reflexivity].
  intros H. now rewrite H.
Qed.

(** C1. When every failure of [add-roots] carries the text "not found or
    does not belong to service", the bind-root operation, both as the helper
    [addRootToProofSet] and as the inline loop of [uploadAndAddRootHandler],
    runs [add-roots] exactly [n = min(3, attempts up to the first success)]
    times, sleeps 2 seconds after the first failed attempt and 4 seconds
    after the second, and, when all three attempts fail, returns an error
    that carries the output of the third attempt. *)
Theorem bindRoot_transient_retry (W : World)
    (serviceUrl serviceName proofSetID rootCID : string) (isEncrypted : bool)
    (h : History) :
  let args := addRootsArgs serviceUrl serviceName proofSetID rootCID in
  let result := fun j => tool W (spawned h + j) args in
  (forall j, j < maxRetries -> err (result j) <> None ->
     strings.Contains (output (result j)) notFoundMarker = true) ->
  let n := attemptsCapped (fun j => tool W j args) maxRetries (spawned h) in
  addRootToProofSet W serviceUrl serviceName proofSetID rootCID h
  = (bindError (result (n - 1)), advance h n (retrySchedule n 1 args))
  /\ inlineAddRoots W maxRetries 1 args rootCID isEncrypted "" h
     = (match err (result (n - 1)) with
        | None => LoopEnd (output (result (n - 1))) true
        | Some _ =>
            Returned (exhaustedResponse (output (result (n - 1))) rootCID isEncrypted)
        end,
        advance h n (retrySchedule n 1 args))
  /\ spawnsOf (retrySchedule n 1 args) = repeat args n
  /\ sleepsOf (retrySchedule n 1 args) = firstn (n - 1) [2; 4]
  /\ (forall k, (forall j, j < k -> err (result j) <> None) ->
        err (result k) = None -> n = Nat.min maxRetries (S k))
  /\ ((forall j, j < maxRetries -> err (result j) <> None) ->
        n = maxRetries
        /\ bindError (result (n - 1))
           = Some ("add-roots failed: " ++ output (result 2))
        /\ errorOf (exhaustedResponse (output (result (n - 1))) rootCID isEncrypted)
           = Some (output (result 2))).
Proof.
  intros args result Htransient n.
  assert (Hpos : 1 <= n) by (apply attemptsCapped_pos; unfold maxRetries; lia).
  assert (Hle : n <= maxRetries) by apply attemptsCapped_le.
  assert (Hlast : tool W (spawned h + n - 1) args = result (n - 1)).
  { unfold result. f_equal. lia. }
  assert (Hstop : forall j, j < maxRetries ->
            stops (tool W (spawned h + j) args)
            = match err (result j) with None => true | Some _ => false end).
  { intros j Hj. apply stops_transient. now apply Htransient. }
  assert (Hall : (forall j, j < maxRetries -> err (result j) <> None) ->
                 n = maxRetries).
  { intros Hfail. apply attemptsCapped_exhausted. intros j Hj.
    rewrite (Hstop j Hj). specialize (Hfail j Hj).
    destruct (err (result j)); congruence. }
  split; [|split; [|split; [|split; [|split]]]].
  - unfold addRootToProofSet. fold args.
    rewrite addRootAttempts_run by (unfold maxRetries; lia).
    cbn zeta. fold n. now rewrite Hlast.
  - rewrite inlineAddRoots_run; [|unfold maxRetries; lia..|exact Htransient].
    cbn zeta. fold n. now rewrite Hlast.
  - apply retrySchedule_spawns.
  - rewrite retrySchedule_sleeps. unfold maxRetries in Hle.
    destruct n as [|[|[|[|n']]]]; try lia; reflexivity.
  - intros k Hbefore Hat.
    destruct (Nat.lt_ge_cases k maxRetries) as [Hk|Hk].
    + apply attemptsCapped_min.
      * intros j Hj. rewrite Hstop by lia. specialize (Hbefore j Hj).
        destruct (err (result j)); congruence.
      * rewrite Hstop by lia. now rewrite Hat.
    + rewrite Hall; [lia|]. intros j Hj. apply Hbefore. lia.
  - intros Hfail. specialize (Hall Hfail).
    split; [exact Hall|]. rewrite Hall. change (maxRetries - 1) with 2.
    split; [|reflexivity].
    unfold bindError. specialize (Hfail 2 ltac:(unfold maxRetries; lia)).
    destruct (err (result 2)); congruence.
Qed.

(** C1, an instance: two transient failures, then a success. *)
Lemma bindRoot_transient_retry_witness :
  (forall j, j < maxRetries ->
     err (tool retryWorld (spawned start + j) demoAddRootsArgs) <> None ->
     strings.Contains (output (tool retryWorld (spawned start + j) demoAddRootsArgs))
       notFoundMarker = true)
  /\ addRootToProofSet retryWorld "http://pdp.local" "pdp" "12" "baga6ea4seaq" start
     = (None,
        {| spawned := 3; statements := 0;
           events := [Spawn demoAddRootsArgs; Sleep 2;
                      Spawn demoAddRootsArgs; Sleep 4;
                      Spawn demoAddRootsArgs] |}).
Proof.
  assert (H : forall j, j < maxRetries ->
     err (tool retryWorld (spawned start + j) demoAddRootsArgs) <> None ->
     strings.Contains (output (tool retryWorld (spawned start + j) demoAddRootsArgs))
       notFoundMarker = true).
  { intros j Hj Herr. destruct j as [|[|[|j]]].
    - reflexivity.
    - reflexivity.
    - exfalso. apply Herr. reflexivity.
    - exfalso. unfold maxRetries in Hj. lia. }
  split; [exact H|].
  exact (proj1 (bindRoot_transient_retry retryWorld
                  "http://pdp.local" "pdp" "12" "baga6ea4seaq" false start H)).
Defined.

(** The helper [addRootToProofSet] returns a failure without the "not found"
    text at once, on whichever attempt it occurs. *)
Lemma addRootToProofSet_terminal (W : World)
    (serviceUrl serviceName proofSetID rootCID : string) (h : History) (k : nat) :
  let args := addRootsArgs serviceUrl serviceName proofSetID rootCID in
  let result := fun j => tool W (spawned h + j) args in
  k < maxRetries ->
  (forall j, j < k -> stops (result j) = false) ->
  err (result k) <> None ->
  strings.Contains (output (result k)) notFoundMarker = false ->
  addRootToProofSet W serviceUrl serviceName proofSetID rootCID h
  = (Some ("add-roots failed: " ++ output (result k)),
     advance h (S k) (retrySchedule (S k) 1 args)).
Proof.
  intros args result Hk Hbefore Herr Hno.
  unfold addRootToProofSet. fold args.
  rewrite addRootAttempts_run by (unfold maxRetries; lia). cbn zeta.
  rewrite (attemptsCapped_min _ _ _ k).
  - rewrite Nat.min_r by lia.
    replace (spawned h + S k - 1) with (spawned h + k) by lia.
    unfold bindError. fold (result k). destruct (err (result k)); congruence.
  - exact Hbefore.
  - unfold stops. fold (result k). rewrite Hno.
    destruct (err (result k)); [reflexivity | congruence].
Qed.

(** The inline loop of [uploadAndAddRootHandler] does not: before its last
    attempt, a failure without the "not found" text is followed by the next
    attempt, without a sleep. *)
Lemma inlineAddRoots_terminal_continues (W : World) (args : list string)
    (rootCID : string) (isEncrypted : bool) (left attempt : nat)
    (arOut : string) (h : History) :
  attempt < maxRetries ->
  err (tool W (spawned h) args) <> None ->
  strings.Contains (output (tool W (spawned h) args)) notFoundMarker = false ->
  inlineAddRoots W (S left) attempt args rootCID isEncrypted arOut h
  = inlineAddRoots W left (S attempt) args rootCID isEncrypted
      (output (tool W (spawned h) args)) (advance h 1 [Spawn args]).
Proof.
  intros Hlt Herr Hno. cbn [inlineAddRoots].
  rewrite (bind_run _ _ _ _ _ (CombinedOutput_run W args h)).
  destruct (err (tool W (spawned h) args)); [|congruence].
  rewrite Hno. cbn [andb].
  destruct (Nat.eqb_spec attempt maxRetries); [lia | reflexivity].
Qed.

(** C2, at the failing input. In [deniedWorld] the first [add-roots] fails
    with "Error: permission denied". [uploadAndAddRootHandler] runs
    [add-roots] a second time and answers 200; [uploadAndAddPaperHandler],
    through [addRootToProofSet], stops after the first and answers 500 with
    that output. *)
Theorem inline_retry_ignores_terminal_failure :
  uploadAndAddRootHandler deniedWorld demoRequest start
  = ({| Status := StatusOK;
        Body := [("proofSetID", JString "12");
                 ("rootCID", JString "baga6ea4seaq");
                 ("addRoots", JString "root added");
                 ("isEncrypted", JBool false)] |},
     {| spawned := 3; statements := 1;
        events := [Spawn demoUploadArgs;
                   Spawn demoAddRootsArgs;
                   Spawn demoAddRootsArgs;
                   DbExec insertFileCids
                     [SqlText "paper.pdf"; SqlText "baga6ea4seaq"]] |})
  /\ uploadAndAddPaperHandler deniedWorld demoRequest start
     = (serverError "add-roots failed: Error: permission denied",
        {| spawned := 2; statements := 0;
           events := [Spawn demoUploadArgs; Spawn demoAddRootsArgs] |}).
Proof. split; vm_compute; reflexivity. Qed.

(** * Persisting the upload *)

Lemma history_eq (a b a' b' : nat) (e e' : list Event) :
  a = a' -> b = b' -> e = e' ->
  {| spawned := a; statements := b; events := e |}
  = {| spawned := a'; statements := b'; events := e' |}.
Proof. now intros -> -> ->. Qed.

(** The tail shared by the three typed upload handlers: after a successful
    upload and bind, a failed typed insert ends the request with a 500 and
    without the file mapping insert; after a successful typed insert the
    file mapping insert is attempted and the answer is 200 whatever its
    outcome. *)
Lemma uploadBindPersist_run (W : World) (header : FileHeader)
    (serviceUrl serviceName proofSetID typedSql : string)
    (typedArgs : string -> list SqlArg) (typedFailure typedLog : string)
    (okBody : string -> list (string * JSON))
    (h h1 h2 : History) (rootCID : string) :
  uploadFileToStorage W header serviceUrl serviceName h = (inr rootCID, h1) ->
  addRootToProofSet W serviceUrl serviceName proofSetID rootCID h1 = (None, h2) ->
  let mapping := [SqlText (Filename header); SqlText rootCID] in
  uploadBindPersist W header serviceUrl serviceName proofSetID
    typedSql typedArgs typedFailure typedLog okBody h
  = match dbExec W (statements h2) typedSql (typedArgs rootCID) with
    | Some msg =>
        (serverError typedFailure,
         stated h2 1 [DbExec typedSql (typedArgs rootCID);
                      LogLine ("[DB ERROR] " ++ typedLog ++ msg ++ LF)])
    | None =>
        ({| Status := StatusOK; Body := okBody rootCID |},
         stated h2 2
           ([DbExec typedSql (typedArgs rootCID);
             DbExec insertFileCidsSpaced mapping]
            ++ match dbExec W (S (statements h2)) insertFileCidsSpaced mapping with
               | Some msg =>
                   [LogLine ("[DB ERROR] Failed to save file_cids: " ++ msg ++ LF)]
               | None => []
               end))
    end.
Proof.
  intros Hup Hbind mapping. subst mapping. unfold uploadBindPersist.
  rewrite (bind_run _ _ _ _ _ Hup), (bind_run _ _ _ _ _ Hbind).
  unfold bind, Exec, logf, record, ret, stated, serverError. cbn.
  destruct (dbExec W (statements h2) typedSql (typedArgs rootCID)); cbn.
  - f_equal. apply history_eq; [reflexivity | lia |].
    rewrite <- ?List.app_assoc. reflexivity.
  - destruct (dbExec W (S (statements h2)) insertFileCidsSpaced _); cbn;
      f_equal; apply history_eq; try reflexivity; try lia;
      rewrite <- ?List.app_assoc; reflexivity.
Qed.

(** * The upload step *)

(** The file name test of the upload step, read as a statement about the
    name: its last bytes are [".enc"] in some letter case. *)
Lemma isEncryptedName_iff (filename : string) :
  isEncryptedName filename = true
  <-> exists p e, filename = p ++ e /\ strings.ToLower e = ".enc".
Proof.
  unfold isEncryptedName. rewrite HasSuffix_iff. split.
  - intros [p Hp].
    set (n := String.length filename - 4).
    exists (strings.take n filename), (strings.drop n filename). split.
    + symmetry. apply take_drop.
    + rewrite ToLower_drop, Hp.
      assert (Hn : n = String.length p).
      { unfold n. rewrite <- (length_ToLower filename), Hp, length_append_s.
        cbn. lia. }
      rewrite Hn. apply drop_app_length.
  - intros (p & e & -> & He). exists (strings.ToLower p).
    now rewrite ToLower_append, He.
Qed.

Lemma uploadFileToStorage_run (W : World) (header : FileHeader)
    (serviceUrl serviceName tmpPath : string) (h : History) :
  createTemp W = inl tmpPath ->
  copyFile W = None ->
  let args := uploadFileArgs serviceUrl serviceName tmpPath in
  err (tool W (spawned h) args) = None ->
  uploadFileToStorage W header serviceUrl serviceName h
  = (inr (parseRootCID_line (output (tool W (spawned h) args))),
     advance h 1
       (Spawn args :: if isEncryptedName (Filename header) then [Sleep 3] else [])).
Proof.
  intros Htmp Hcopy args Herr. unfold uploadFileToStorage.
  rewrite Htmp, Hcopy.
  rewrite (bind_run _ _ _ _ _ (CombinedOutput_run W _ h)). fold args.
  rewrite Herr.
  destruct (isEncryptedName (Filename header)).
  - rewrite (bind_run _ _ _ _ _ (sleep_run _ _)). unfold ret.
    now rewrite advance_advance.
  - reflexivity.
Qed.

(** Conversely, a successful upload step is one such run. *)
Lemma uploadFileToStorage_ok (W : World) (header : FileHeader)
    (serviceUrl serviceName rootCID : string) (h h1 : History) :
  uploadFileToStorage W header serviceUrl serviceName h = (inr rootCID, h1) ->
  exists tmpPath,
    createTemp W = inl tmpPath /\ copyFile W = None
    /\ err (tool W (spawned h) (uploadFileArgs serviceUrl serviceName tmpPath)) = None.
Proof.
  unfold uploadFileToStorage.
  destruct (createTemp W) as [tmpPath|e]; [|discriminate].
  destruct (copyFile W); [discriminate|].
  rewrite (bind_run _ _ _ _ _ (CombinedOutput_run W _ h)).
  destruct (err (tool W (spawned h) (uploadFileArgs serviceUrl serviceName tmpPath)))
    eqn:E; [discriminate|].
  intros _. now exists tmpPath.
Qed.

Lemma inlineAddRoots_grows (W : World) (args : list string) (rootCID : string)
    (isEncrypted : bool) (left attempt : nat) (arOut : string) (h : History) :
  exists rest : list Event,
    events (snd (inlineAddRoots W left attempt args rootCID isEncrypted arOut h))
    = (events h ++ rest)%list.
Proof.
  revert attempt arOut h; induction left as [|left IH]; intros attempt arOut h.
  - exists []. cbn. now rewrite app_nil_r.
  - cbn [inlineAddRoots].
    rewrite (bind_run _ _ _ _ _ (CombinedOutput_run W args h)).
    destruct (err (tool W (spawned h) args)).
    + destruct (strings.Contains _ _ && (attempt <? maxRetries)).
      * rewrite (bind_run _ _ _ _ _ (sleep_run _ _)).
        destruct (IH (S attempt) (output (tool W (spawned h) args))
                    (advance (advance h 1 [Spawn args]) 0 [Sleep (attempt * 2)]))
          as [rest Hrest].
        rewrite Hrest. cbn [advance events]. rewrite <- !List.app_assoc. eauto.
      * destruct (attempt =? maxRetries).
        -- cbn. eauto.
        -- destruct (IH (S attempt) (output (tool W (spawned h) args))
                       (advance h 1 [Spawn args])) as [rest Hrest].
           rewrite Hrest. cbn [advance events]. rewrite <- !List.app_assoc. eauto.
    + cbn. eauto.
Qed.

(** The loop starts by running [add-roots]. *)
Lemma inlineAddRoots_first (W : World) (args : list string) (rootCID : string)
    (isEncrypted : bool) (left attempt : nat) (arOut : string) (h : History) :
  exists rest : list Event,
    events (snd (inlineAddRoots W (S left) attempt args rootCID isEncrypted arOut h))
    = (events h ++ Spawn args :: rest)%list.
Proof.
  cbn [inlineAddRoots].
  rewrite (bind_run _ _ _ _ _ (CombinedOutput_run W args h)).
  destruct (err (tool W (spawned h) args)).
  - destruct (strings.Contains _ _ && (attempt <? maxRetries)).
    + rewrite (bind_run _ _ _ _ _ (sleep_run _ _)).
      destruct (inlineAddRoots_grows W args rootCID isEncrypted left (S attempt)
                  (output (tool W (spawned h) args))
                  (advance (advance h 1 [Spawn args]) 0 [Sleep (attempt * 2)]))
        as [rest Hrest].
      rewrite Hrest. cbn [advance events]. rewrite <- !List.app_assoc. cbn. eauto.
    + destruct (attempt =? maxRetries).
      * cbn. eauto.
      * destruct (inlineAddRoots_grows W args rootCID isEncrypted left (S attempt)
                    (output (tool W (spawned h) args)) (advance h 1 [Spawn args]))
          as [rest Hrest].
        rewrite Hrest. cbn [advance events]. rewrite <- !List.app_assoc. cbn. eauto.
  - cbn. eauto.
Qed.

(** [uploadAndAddRootHandler] once its upload has succeeded: the optional
    settle delay, the retry loop, and what follows each way out of it. *)
Lemma uploadAndAddRootHandler_run (W : World) (c : Request) (header : FileHeader)
    (tmpPath : string) (h : History) :
  PostForm c "proofSetID" <> "" ->
  FormFile c = Some header ->
  createTemp W = inl tmpPath ->
  copyFile W = None ->
  let serviceUrl := PostForm c "serviceUrl" in
  let serviceName := PostForm c "serviceName" in
  let proofSetID := PostForm c "proofSetID" in
  let upArgs := uploadFileArgs serviceUrl serviceName tmpPath in
  err (tool W (spawned h) upArgs) = None ->
  let rootCID := parseRootCID_line (output (tool W (spawned h) upArgs)) in
  let isEncrypted := isEncryptedName (Filename header) in
  let h1 := advance h 1 (Spawn upArgs :: if isEncrypted then [Sleep 3] else []) in
  let loop := inlineAddRoots W maxRetries 1
                (addRootsArgs serviceUrl serviceName proofSetID rootCID)
                rootCID isEncrypted "" h1 in
  let mapping := [SqlText (Filename header); SqlText rootCID] in
  uploadAndAddRootHandler W c h
  = match fst loop with
    | Returned resp => (resp, snd loop)
    | LoopEnd arOut false =>
        ({| Status := StatusInternalServerError;
            Body := [("error", JString arOut);
                     ("details",
                      JObject [("rootCID", JString rootCID);
                               ("maxRetries", JInt (Z.of_nat maxRetries));
                               ("isEncrypted", JBool isEncrypted)])] |},
         snd loop)
    | LoopEnd arOut true =>
        ({| Status := StatusOK;
            Body := [("proofSetID", JString proofSetID);
                     ("rootCID", JString rootCID);
                     ("addRoots", JString (strings.TrimSpace arOut));
                     ("isEncrypted", JBool isEncrypted)] |},
         stated (snd loop) 1
           (DbExec insertFileCids mapping
            :: match dbExec W (statements (snd loop)) insertFileCids mapping with
               | Some msg => [LogLine ("[DB ERROR] " ++ msg ++ LF)]
               | None => []
               end))
    end.
Proof.
  intros Hps Hfile Htmp Hcopy serviceUrl serviceName proofSetID upArgs Herr
    rootCID isEncrypted h1 loop mapping.
  unfold uploadAndAddRootHandler.
  apply String.eqb_neq in Hps. rewrite Hps, Hfile, Htmp, Hcopy.
  rewrite (bind_run _ _ _ _ _ (CombinedOutput_run W _ h)).
  fold serviceUrl serviceName upArgs. rewrite Herr.
  fold proofSetID rootCID isEncrypted.
  assert (Hsettle : (if isEncrypted then sleep 3 else ret tt)
                      (advance h 1 [Spawn upArgs]) = (tt, h1)).
  { unfold h1. destruct isEncrypted.
    - rewrite sleep_run, advance_advance. reflexivity.
    - reflexivity. }
  rewrite (bind_run _ _ _ _ _ Hsettle).
  unfold bind at 1. fold loop.
  destruct loop as [[resp|arOut [|]] h2]; cbn [fst snd]; try reflexivity.
  unfold bind, Exec, logf, record, ret, stated. cbn.
  subst mapping.
  destruct (dbExec W (statements h2) insertFileCids _); cbn;
    f_equal; apply history_eq; try reflexivity; try lia;
    rewrite <- ?List.app_assoc; reflexivity.
Qed.

Lemma uploadAndAddPaperHandler_reaches (W : World) (c : Request)
    (header : FileHeader) :
  ParseMultipartForm c = None -> FormFile c = Some header ->
  PostForm c "proofSetID" <> "" -> PostForm c "title" <> "" ->
  exists okBody,
    uploadAndAddPaperHandler W c
    = uploadBindPersist W header (PostForm c "serviceUrl") (PostForm c "serviceName")
        (PostForm c "proofSetID") insertPaper (paperArgs W c)
        "Failed to save paper metadata" "Failed to save paper: " okBody.
Proof.
  intros Hform Hfile Hps Hreq. unfold uploadAndAddPaperHandler.
  apply String.eqb_neq in Hps, Hreq. rewrite Hform, Hps, Hreq, Hfile.
  cbn [orb]. eexists. reflexivity.
Qed.

Lemma uploadAndAddGenomeHandler_reaches (W : World) (c : Request)
    (header : FileHeader) :
  ParseMultipartForm c = None -> FormFile c = Some header ->
  PostForm c "proofSetID" <> "" -> PostForm c "organism" <> "" ->
  exists okBody,
    uploadAndAddGenomeHandler W c
    = uploadBindPersist W header (PostForm c "serviceUrl") (PostForm c "serviceName")
        (PostForm c "proofSetID") insertGenome (genomeArgs c)
        "Failed to save genome metadata" "Failed to save genome: " okBody.
Proof.
  intros Hform Hfile Hps Hreq. unfold uploadAndAddGenomeHandler.
  apply String.eqb_neq in Hps, Hreq. rewrite Hform, Hps, Hreq, Hfile.
  cbn [orb]. eexists. reflexivity.
Qed.

Lemma uploadAndAddSpectrumHandler_reaches (W : World) (c : Request)
    (header : FileHeader) :
  ParseMultipartForm c = None -> FormFile c = Some header ->
  PostForm c "proofSetID" <> "" -> PostForm c "compound" <> "" ->
  (PostForm c "metadata" = "" \/ jsonUnmarshal W (PostForm c "metadata") <> None) ->
  exists okBody,
    uploadAndAddSpectrumHandler W c
    = uploadBindPersist W header (PostForm c "serviceUrl") (PostForm c "serviceName")
        (PostForm c "proofSetID") insertSpectrum (spectrumArgs c)
        "Failed to save spectrum metadata" "Failed to save spectrum: " okBody.
Proof.
  intros Hform Hfile Hps Hreq Hjson. unfold uploadAndAddSpectrumHandler.
  apply String.eqb_neq in Hps, Hreq. rewrite Hform, Hps, Hreq, Hfile.
  cbn [orb].
  assert (Hvalid : negb (PostForm c "metadata" =? "")%string
                   && match jsonUnmarshal W (PostForm c "metadata") with
                      | Some _ => false
                      | None => true
                      end = false).
  { destruct Hjson as [-> | Hj]; [reflexivity|].
    destruct (jsonUnmarshal W (PostForm c "metadata")); [|congruence].
    apply andb_false_r. }
  rewrite Hvalid. eexists. reflexivity.
Qed.

(** What a typed handler answers once it has reached its shared tail with a
    successful upload and bind. *)
Lemma typed_persist (W : World) (header : FileHeader)
    (serviceUrl serviceName proofSetID typedSql : string)
    (typedArgs : string -> list SqlArg) (typedFailure typedLog : string)
    (okBody : string -> list (string * JSON))
    (handler : M Response) (h h1 h2 : History) (rootCID : string) :
  handler = uploadBindPersist W header serviceUrl serviceName proofSetID
              typedSql typedArgs typedFailure typedLog okBody ->
  uploadFileToStorage W header serviceUrl serviceName h = (inr rootCID, h1) ->
  addRootToProofSet W serviceUrl serviceName proofSetID rootCID h1 = (None, h2) ->
  let mapping := [SqlText (Filename header); SqlText rootCID] in
  match dbExec W (statements h2) typedSql (typedArgs rootCID) with
  | Some msg =>
      handler h
      = (serverError typedFailure,
         stated h2 1 [DbExec typedSql (typedArgs rootCID);
                      LogLine ("[DB ERROR] " ++ typedLog ++ msg ++ LF)])
  | None =>
      Status (fst (handler h)) = StatusOK
      /\ snd (handler h)
         = stated h2 2
             ([DbExec typedSql (typedArgs rootCID);
               DbExec insertFileCidsSpaced mapping]
              ++ mappingLog (dbExec W (S (statements h2)) insertFileCidsSpaced mapping))
  end.
Proof.
  intros -> Hup Hbind mapping.
  rewrite (uploadBindPersist_run _ _ _ _ _ _ _ _ _ _ _ _ _ _ Hup Hbind).
  cbn zeta. fold mapping.
  destruct (dbExec W (statements h2) typedSql (typedArgs rootCID));
    [reflexivity | split; reflexivity].
Qed.

(** C3 (as amended). After a successful upload and a successful bind:
    - in all four upload handlers a failure of the file mapping insert into
      [file_cids] is logged and the answer is still 200;
    - in [uploadAndAddPaperHandler], [uploadAndAddGenomeHandler] and
      [uploadAndAddSpectrumHandler] a failure of the typed insert is logged
      and answered with a 500 "Failed to save ... metadata", and the file
      mapping insert is not attempted. *)
Theorem metadata_insert_failures (W : World) (c : Request) (header : FileHeader)
    (rootCID : string) (h1 : History) :
  let serviceUrl := PostForm c "serviceUrl" in
  let serviceName := PostForm c "serviceName" in
  let proofSetID := PostForm c "proofSetID" in
  let mapping := [SqlText (Filename header); SqlText rootCID] in
  FormFile c = Some header ->
  proofSetID <> "" ->
  uploadFileToStorage W header serviceUrl serviceName start = (inr rootCID, h1) ->
  (forall arOut h2,
     inlineAddRoots W maxRetries 1
       (addRootsArgs serviceUrl serviceName proofSetID rootCID)
       rootCID (isEncryptedName (Filename header)) "" h1 = (LoopEnd arOut true, h2) ->
     Status (fst (uploadAndAddRootHandler W c start)) = StatusOK
     /\ snd (uploadAndAddRootHandler W c start)
        = stated h2 1
            (DbExec insertFileCids mapping
             :: match dbExec W (statements h2) insertFileCids mapping with
                | Some msg => [LogLine ("[DB ERROR] " ++ msg ++ LF)]
                | None => []
                end))
  /\ (forall h2,
        addRootToProofSet W serviceUrl serviceName proofSetID rootCID h1 = (None, h2) ->
        ParseMultipartForm c = None ->
        let mappingEvents :=
          DbExec insertFileCidsSpaced mapping
          :: mappingLog (dbExec W (S (statements h2)) insertFileCidsSpaced mapping) in
        (PostForm c "title" <> "" ->
         match dbExec W (statements h2) insertPaper (paperArgs W c rootCID) with
         | Some msg =>
             uploadAndAddPaperHandler W c start
             = (serverError "Failed to save paper metadata",
                stated h2 1
                  [DbExec insertPaper (paperArgs W c rootCID);
                   LogLine ("[DB ERROR] Failed to save paper: " ++ msg ++ LF)])
         | None =>
             Status (fst (uploadAndAddPaperHandler W c start)) = StatusOK
             /\ snd (uploadAndAddPaperHandler W c start)
                = stated h2 2
                    (DbExec insertPaper (paperArgs W c rootCID) :: mappingEvents)
         end)
        /\ (PostForm c "organism" <> "" ->
            match dbExec W (statements h2) insertGenome (genomeArgs c rootCID) with
            | Some msg =>
                uploadAndAddGenomeHandler W c start
                = (serverError "Failed to save genome metadata",
                   stated h2 1
                     [DbExec insertGenome (genomeArgs c rootCID);
                      LogLine ("[DB ERROR] Failed to save genome: " ++ msg ++ LF)])
            | None =>
                Status (fst (uploadAndAddGenomeHandler W c start)) = StatusOK
                /\ snd (uploadAndAddGenomeHandler W c start)
                   = stated h2 2
                       (DbExec insertGenome (genomeArgs c rootCID) :: mappingEvents)
            end)
        /\ (PostForm c "compound" <> "" ->
            (PostForm c "metadata" = ""
             \/ jsonUnmarshal W (PostForm c "metadata") <> None) ->
            match dbExec W (statements h2) insertSpectrum (spectrumArgs c rootCID) with
            | Some msg =>
                uploadAndAddSpectrumHandler W c start
                = (serverError "Failed to save spectrum metadata",
                   stated h2 1
                     [DbExec insertSpectrum (spectrumArgs c rootCID);
                      LogLine ("[DB ERROR] Failed to save spectrum: " ++ msg ++ LF)])
            | None =>
                Status (fst (uploadAndAddSpectrumHandler W c start)) = StatusOK
                /\ snd (uploadAndAddSpectrumHandler W c start)
                   = stated h2 2
                       (DbExec insertSpectrum (spectrumArgs c rootCID) :: mappingEvents)
            end)).
Proof.
  intros serviceUrl serviceName proofSetID mapping Hfile Hps Hup. split.
  - intros arOut h2 Hloop.
    destruct (uploadFileToStorage_ok _ _ _ _ _ _ _ Hup)
      as (tmpPath & Htmp & Hcopy & Herr).
    rewrite (uploadFileToStorage_run W header serviceUrl serviceName tmpPath
               start Htmp Hcopy Herr) in Hup.
    injection Hup as Hcid Hh1. subst rootCID h1.
    rewrite (uploadAndAddRootHandler_run W c header tmpPath start
               Hps Hfile Htmp Hcopy Herr).
    cbn zeta.
    match goal with
    | |- context [inlineAddRoots ?w ?n ?a ?args ?r ?e ?o ?x] =>
        replace (inlineAddRoots w n a args r e o x) with (LoopEnd arOut true, h2)
          by (symmetry; exact Hloop)
    end.
    cbn [fst snd]. split; reflexivity.
  - intros h2 Hbind Hform mappingEvents. split; [|split].
    + intros Hreq.
      destruct (uploadAndAddPaperHandler_reaches W c header Hform Hfile Hps Hreq)
        as [okBody Hreach].
      exact (typed_persist _ _ _ _ _ _ _ _ _ _ _ _ _ _ _ Hreach Hup Hbind).
    + intros Hreq.
      destruct (uploadAndAddGenomeHandler_reaches W c header Hform Hfile Hps Hreq)
        as [okBody Hreach].
      exact (typed_persist _ _ _ _ _ _ _ _ _ _ _ _ _ _ _ Hreach Hup Hbind).
    + intros Hreq Hjson.
      destruct (uploadAndAddSpectrumHandler_reaches W c header Hform Hfile Hps
                  Hreq Hjson) as [okBody Hreach].
      exact (typed_persist _ _ _ _ _ _ _ _ _ _ _ _ _ _ _ Hreach Hup Hbind).
Qed.

(** C3, an instance: the paper row is stored, the file mapping insert fails,
    and the answer is 200. *)
Lemma metadata_insert_failures_witness :
  FormFile demoRequest = Some demoHeader
  /\ PostForm demoRequest "proofSetID" <> ""
  /\ uploadFileToStorage mappingFailsWorld demoHeader "http://pdp.local" "pdp" start
     = (inr "baga6ea4seaq", afterUpload)
  /\ addRootToProofSet mappingFailsWorld "http://pdp.local" "pdp" "12"
       "baga6ea4seaq" afterUpload = (None, afterBind)
  /\ Status (fst (uploadAndAddPaperHandler mappingFailsWorld demoRequest start))
     = StatusOK
  /\ snd (uploadAndAddPaperHandler mappingFailsWorld demoRequest start)
     = stated afterBind 2
         [DbExec insertPaper
            (paperArgs mappingFailsWorld demoRequest "baga6ea4seaq");
          DbExec insertFileCidsSpaced
            [SqlText "paper.pdf"; SqlText "baga6ea4seaq"];
          LogLine ("[DB ERROR] Failed to save file_cids: connection refused" ++ LF)].
Proof.
  assert (Hfile : FormFile demoRequest = Some demoHeader) by reflexivity.
  assert (Hps : PostForm demoRequest "proofSetID" <> "") by discriminate.
  assert (Hup : uploadFileToStorage mappingFailsWorld demoHeader
                  "http://pdp.local" "pdp" start
                = (inr "baga6ea4seaq", afterUpload)) by reflexivity.
  assert (Hbind : addRootToProofSet mappingFailsWorld "http://pdp.local" "pdp"
                    "12" "baga6ea4seaq" afterUpload = (None, afterBind))
    by reflexivity.
  assert (Htitle : PostForm demoRequest "title" <> "") by discriminate.
  repeat (split; [assumption|]).
  exact (proj1 (proj2 (metadata_insert_failures mappingFailsWorld demoRequest
                         demoHeader "baga6ea4seaq" afterUpload Hfile Hps Hup)
                  afterBind Hbind eq_refl) Htitle).
Defined.

(** C3, counterexample. Upload and bind succeed and the first database
    statement, the typed insert, fails: the three typed handlers answer 500
    and never attempt the file mapping insert. *)
Lemma typed_insert_failure_is_fatal :
  uploadFileToStorage insertFailsWorld demoHeader "http://pdp.local" "pdp" start
  = (inr "baga6ea4seaq", afterUpload)
  /\ addRootToProofSet insertFailsWorld "http://pdp.local" "pdp" "12"
       "baga6ea4seaq" afterUpload = (None, afterBind)
  /\ uploadAndAddPaperHandler insertFailsWorld demoRequest start
     = (serverError "Failed to save paper metadata",
        stated afterBind 1
          [DbExec insertPaper (paperArgs insertFailsWorld demoRequest "baga6ea4seaq");
           LogLine ("[DB ERROR] Failed to save paper: connection refused" ++ LF)])
  /\ Status (fst (uploadAndAddPaperHandler insertFailsWorld demoRequest start))
     <> StatusOK
  /\ Status (fst (uploadAndAddGenomeHandler insertFailsWorld demoRequest start))
     = StatusInternalServerError
  /\ Status (fst (uploadAndAddSpectrumHandler insertFailsWorld demoRequest start))
     = StatusInternalServerError.
Proof. repeat split. discriminate. Qed.

(** C8. When [upload-file] succeeds, the upload step [uploadFileToStorage]
    returns the content identifier after a 3 second sleep if the file name
    ends in [".enc"] in some letter case, and with no sleep otherwise; the
    inline upload of [uploadAndAddRootHandler] does the same, before its
    first [add-roots]. *)
Theorem upload_settle_delay (W : World) (c : Request) (header : FileHeader)
    (tmpPath : string) (h : History) :
  let serviceUrl := PostForm c "serviceUrl" in
  let serviceName := PostForm c "serviceName" in
  let upArgs := uploadFileArgs serviceUrl serviceName tmpPath in
  let rootCID := parseRootCID_line (output (tool W (spawned h) upArgs)) in
  let isEncrypted := isEncryptedName (Filename header) in
  createTemp W = inl tmpPath ->
  copyFile W = None ->
  err (tool W (spawned h) upArgs) = None ->
  (isEncrypted = true
   <-> exists p e, Filename header = p ++ e /\ strings.ToLower e = ".enc")
  /\ uploadFileToStorage W header serviceUrl serviceName h
     = (inr rootCID, advance h 1 (Spawn upArgs :: settle isEncrypted))
  /\ settle true = [Sleep 3] /\ settle false = []
  /\ (FormFile c = Some header -> PostForm c "proofSetID" <> "" ->
      exists rest,
        events (snd (uploadAndAddRootHandler W c h))
        = (events h ++ Spawn upArgs :: settle isEncrypted
             ++ Spawn (addRootsArgs serviceUrl serviceName
                         (PostForm c "proofSetID") rootCID) :: rest)%list).
Proof.
  intros serviceUrl serviceName upArgs rootCID isEncrypted Htmp Hcopy Herr.
  split; [apply isEncryptedName_iff|].
  split; [now apply uploadFileToStorage_run|].
  split; [reflexivity|]. split; [reflexivity|].
  intros Hfile Hps.
  rewrite (uploadAndAddRootHandler_run W c header tmpPath h Hps Hfile Htmp Hcopy Herr).
  cbn zeta. fold serviceUrl serviceName upArgs rootCID isEncrypted.
  change (if isEncrypted then [Sleep 3] else []) with (settle isEncrypted).
  set (h1 := advance h 1 (Spawn upArgs :: settle isEncrypted)).
  set (addArgs := addRootsArgs serviceUrl serviceName (PostForm c "proofSetID") rootCID).
  destruct (inlineAddRoots_first W addArgs rootCID isEncrypted 2 1 "" h1)
    as [rest Hrest].
  change (S 2) with maxRetries in Hrest.
  assert (Hh1 : (events h1 ++ Spawn addArgs :: rest
                 = events h ++ Spawn upArgs :: settle isEncrypted
                     ++ Spawn addArgs :: rest)%list).
  { unfold h1. cbn [advance events]. now rewrite <- List.app_assoc. }
  destruct (inlineAddRoots W maxRetries 1 addArgs rootCID isEncrypted "" h1)
    as [[resp|arOut [|]] h2]; cbn [fst snd] in *.
  - exists rest. now rewrite Hrest.
  - eexists. cbn [stated events]. rewrite Hrest. unfold h1.
    cbn [advance events]. rewrite <- !List.app_assoc. cbn [app]. reflexivity.
  - exists rest. now rewrite Hrest.
Qed.

(** C8, an instance: ["genome.fasta.ENC"] is uploaded, then the step sleeps
    3 seconds. *)
Lemma upload_settle_delay_witness :
  createTemp mappingFailsWorld = inl "/tmp/pdp-upload-1"
  /\ copyFile mappingFailsWorld = None
  /\ err (tool mappingFailsWorld (spawned start) demoUploadArgs) = None
  /\ uploadFileToStorage mappingFailsWorld encHeader "http://pdp.local" "pdp" start
     = (inr "baga6ea4seaq",
        {| spawned := 1; statements := 0;
           events := [Spawn demoUploadArgs; Sleep 3] |}).
Proof.
  repeat (split; [reflexivity|]).
  exact (proj1 (proj2 (upload_settle_delay mappingFailsWorld demoRequest encHeader
                         "/tmp/pdp-upload-1" start eq_refl eq_refl eq_refl))).
Defined.

(** * Error payloads *)

Ltac branch_in H :=
  match type of H with
  | context [if ?x then _ else _] => destruct x eqn:?
  | context [match ?x with Some _ => _ | None => _ end] => destruct x eqn:?
  | context [match ?x with inl _ => _ | inr _ => _ end] => destruct x eqn:?
  | context [match ?x with Returned _ => _ | LoopEnd _ _ => _ end] =>
      destruct x eqn:?
  | context [let (_, _) := ?x in _] => destruct x eqn:?
  end.


(** One step of running a handler: unfold the monad, compute, or split on
    the next test the handler makes. *)
Ltac step_in H :=
  first
    [ progress
        (unfold bind, CombinedOutput, Exec, sleep, logf, record, ret in H;
         cbn -[strings.Contains strings.HasSuffix strings.ToLower
               strings.TrimSpace parseRootCID_line parseRootCID_colon
               parseTxHash parseProofSetID String.eqb String.append] in H)
    | branch_in H ].









Lemma orchestrateHandler_create_fails (W : World) (fuel : nat) (c : Request)
    (header : FileHeader) :
  FormFile c = Some header ->
  let args := createProofSetArgs (PostForm c "serviceUrl")
                (PostForm c "serviceName") (PostForm c "recordkeeper") in
  err (tool W 0 args) <> None ->
  orchestrateHandler W fuel c start
  = (Some (serverError "create-proof-set failed"),
     {| spawned := 1; statements := 0; events := [Spawn args] |}).
Proof.
  intros Hfile args Herr. unfold orchestrateHandler. rewrite Hfile.
  rewrite (bind_run _ _ _ _ _ (CombinedOutput_run W _ start)).
  fold args. change (spawned start) with 0.
  destruct (err (tool W 0 args)); [reflexivity | congruence].
Qed.





(** * The creation/poll loop *)

Lemma parseProofSetID_pending (sout : string) :
  strings.Contains (strings.ToLower sout) createdMarker = false ->
  parseProofSetID sout = None.
Proof. unfold parseProofSetID. now intros ->. Qed.

Lemma pollProofSet_pending (W : World) (args : list string) (fuel : nat)
    (h : History) :
  strings.Contains (strings.ToLower (output (tool W (spawned h) args)))
    createdMarker = false ->
  pollProofSet W (S fuel) args h
  = pollProofSet W fuel args (advance h 1 [Spawn args; Sleep 3]).
Proof.
  intros Hno. cbn [pollProofSet].
  rewrite (bind_run _ _ _ _ _ (CombinedOutput_run W args h)).
  rewrite (parseProofSetID_pending _ Hno).
  rewrite (bind_run _ _ _ _ _ (sleep_run _ _)).
  now rewrite advance_advance.
Qed.

Lemma pollProofSet_created (W : World) (args : list string) (fuel : nat)
    (h : History) (proofSetID : string) :
  parseProofSetID (output (tool W (spawned h) args)) = Some proofSetID ->
  pollProofSet W (S fuel) args h = (Some proofSetID, advance h 1 [Spawn args]).
Proof.
  intros Hid. cbn [pollProofSet].
  rewrite (bind_run _ _ _ _ _ (CombinedOutput_run W args h)).
  now rewrite Hid.
Qed.

(** The loop looks at the captured output only: two worlds whose tools print
    the same text make it behave alike, whatever their exit statuses. *)
Lemma pollProofSet_ignores_err (W W' : World) (args : list string) (fuel : nat)
    (h : History) :
  (forall n a, output (tool W' n a) = output (tool W n a)) ->
  pollProofSet W' fuel args h = pollProofSet W fuel args h.
Proof.
  intros Hout. revert h; induction fuel as [|fuel IH]; intros h; [reflexivity|].
  cbn [pollProofSet].
  rewrite (bind_run _ _ _ _ _ (CombinedOutput_run W args h)).
  rewrite (bind_run _ _ _ _ _ (CombinedOutput_run W' args h)).
  rewrite Hout.
  destruct (parseProofSetID (output (tool W (spawned h) args))); [reflexivity|].
  rewrite !(bind_run _ _ _ _ _ (sleep_run _ _)). apply IH.
Qed.

(** A status command that never prints the marker is polled for as long as
    the loop runs; its failures are never reported. *)
Lemma pollProofSet_all_pending (W : World) (args : list string) (fuel : nat)
    (h : History) :
  (forall n, strings.Contains (strings.ToLower (output (tool W n args)))
               createdMarker = false) ->
  fst (pollProofSet W fuel args h) = None
  /\ spawned (snd (pollProofSet W fuel args h)) = spawned h + fuel.
Proof.
  intros Hall. revert h; induction fuel as [|fuel IH]; intros h.
  - cbn. split; [reflexivity | lia].
  - rewrite pollProofSet_pending by apply Hall.
    destruct (IH (advance h 1 [Spawn args; Sleep 3])) as [Hnone Hcount].
    split; [exact Hnone|]. rewrite Hcount. cbn. lia.
Qed.

Lemma advance_none (h : History) : advance h 0 [] = h.
Proof.
  destruct h as [n m es]. unfold advance. cbn.
  apply history_eq; [lia | reflexivity | apply List.app_nil_r].
Qed.

(** After [k] pending answers the loop has polled [k] times, slept 3 seconds
    after each answer, and goes on with the next poll. *)
Lemma pollProofSet_pending_run (W : World) (args : list string) (k : nat) :
  forall (fuel : nat) (h : History),
    (forall j, j < k ->
       strings.Contains
         (strings.ToLower (output (tool W (spawned h + j) args)))
         createdMarker = false) ->
    pollProofSet W (k + fuel) args h
    = pollProofSet W fuel args (advance h k (pendingPolls k args)).
Proof.
  induction k as [|k IH]; intros fuel h Hpending.
  - cbn [Nat.add pendingPolls]. now rewrite advance_none.
  - cbn [Nat.add pendingPolls].
    rewrite pollProofSet_pending
      by (rewrite <- (Nat.add_0_r (spawned h)); apply Hpending; lia).
    rewrite IH.
    + rewrite advance_advance. reflexivity.
    + intros j Hj. cbn [advance spawned].
      replace (spawned h + 1 + j) with (spawned h + S j) by lia.
      apply Hpending. lia.
Qed.

(** C10. Status invocations whose captured output lacks the
    "proofset created: true" marker are pending results whatever their exit
    status, which the loop never reads: after [k] of them, failed or not,
    the loop has run the status command [k] times, has slept 3 seconds after
    each, and polls again. No error is reported: with nothing but such
    answers the loop is still polling, and when the next answer (an ASCII
    text) reports the creation, the loop leaves with its identifier as if
    no invocation had failed. Two worlds whose status commands print the
    same texts make the loop behave alike, whatever their exit statuses. *)
Theorem status_failure_is_pending (W : World) (args : list string)
    (fuel k : nat) (h : History) :
  let result := fun j => tool W (spawned h + j) args in
  (forall j, j < k ->
     strings.Contains (strings.ToLower (output (result j))) createdMarker
     = false) ->
  pollProofSet W k args h = (None, advance h k (pendingPolls k args))
  /\ pollProofSet W (k + fuel) args h
     = pollProofSet W fuel args (advance h k (pendingPolls k args))
  /\ (forall proofSetID,
        strings.isASCII (output (result k)) = true ->
        parseProofSetID (output (result k)) = Some proofSetID ->
        pollProofSet W (k + S fuel) args h
        = (Some proofSetID,
           advance h (S k) (pendingPolls k args ++ [Spawn args])))
  /\ (forall W' n h',
        (forall i a, output (tool W' i a) = output (tool W i a)) ->
        pollProofSet W' n args h' = pollProofSet W n args h').
Proof.
  intros result Hpending. unfold result in *.
  split.
  { rewrite <- (Nat.add_0_r k) at 1.
    now rewrite pollProofSet_pending_run. }
  split; [now apply pollProofSet_pending_run|].
  split.
  - intros proofSetID _ Hid.
    rewrite pollProofSet_pending_run by exact Hpending.
    rewrite (pollProofSet_created _ _ _ _ proofSetID).
    + now rewrite advance_advance, Nat.add_1_r.
    + cbn [advance spawned]. exact Hid.
  - intros W' n h' Hout. now apply pollProofSet_ignores_err.
Qed.

(** C10, an instance: the status command exits non-zero without output,
    then exits non-zero with a message, then reports the creation; the loop
    sleeps after each failure and leaves with the identifier. *)
Lemma status_failure_is_pending_witness :
  tool statusRecoversWorld 1 demoStatusArgs = exited ""
  /\ tool statusRecoversWorld 2 demoStatusArgs
     = exited ("Error: connection refused" ++ LF)
  /\ pollProofSet statusRecoversWorld 3 demoStatusArgs (advance start 1 [])
     = (Some "7",
        {| spawned := 4; statements := 0;
           events := [Spawn demoStatusArgs; Sleep 3;
                      Spawn demoStatusArgs; Sleep 3;
                      Spawn demoStatusArgs] |}).
Proof.
  assert (Hpending : forall j, j < 2 ->
            strings.Contains
              (strings.ToLower
                 (output (tool statusRecoversWorld
                            (spawned (advance start 1 []) + j) demoStatusArgs)))
              createdMarker = false).
  { intros j Hj. destruct j as [|[|j]]; [reflexivity | reflexivity | lia]. }
  split; [reflexivity|]. split; [reflexivity|].
  exact (proj1 (proj2 (proj2
           (status_failure_is_pending statusRecoversWorld demoStatusArgs 0 2
              (advance start 1 []) Hpending))) "7" eq_refl eq_refl).
Defined.

(** A status command that keeps failing is polled again and again, 3 seconds
    apart; its failure is never reported. *)
Example status_down_keeps_polling :
  tool statusDownWorld 1 demoStatusArgs = exited ""
  /\ pollProofSet statusDownWorld 3 demoStatusArgs (advance start 1 [])
     = (None,
        {| spawned := 4; statements := 0;
           events := pendingPolls 3 demoStatusArgs |}).
Proof. split; reflexivity. Qed.

(** * The transaction handle parser *)

Lemma scanLocation_cons (line : string) (rest : list string) :
  scanLocation (line :: rest)
  = if locationLine line
    then strings.TrimSpace
           (strings.drop
              (Z.to_nat (strings.Index (strings.TrimSpace line) createdSegment)
               + String.length createdSegment)
              (strings.TrimSpace line))
    else scanLocation rest.
Proof.
  unfold locationLine, strings.Contains. cbn [scanLocation].
  destruct (strings.HasPrefix (strings.TrimSpace line) "Location:");
    [|reflexivity].
  cbn [andb].
  destruct (0 <=? strings.Index (strings.TrimSpace line) createdSegment)%Z;
    reflexivity.
Qed.

Lemma scanLocation_none (lines : list string) :
  (forall line, In line lines -> locationLine line = false) ->
  scanLocation lines = "".
Proof.
  induction lines as [|line rest IH]; intros H; [reflexivity|].
  rewrite scanLocation_cons, (H line) by now left.
  apply IH. intros l Hl. apply H. now right.
Qed.

Lemma scanLocation_skip (before rest : list string) :
  (forall line, In line before -> locationLine line = false) ->
  scanLocation (before ++ rest) = scanLocation rest.
Proof.
  induction before as [|line before IH]; intros H; [reflexivity|].
  cbn [app]. rewrite scanLocation_cons, (H line) by now left.
  apply IH. intros l Hl. apply H. now right.
Qed.

(** The line that carries the handle: what follows the first occurrence of
    the path segment, trimmed. *)
Lemma scanLocation_found (raw u handle : string) (after : list string) :
  strings.TrimSpace raw = "Location:" ++ u ++ createdSegment ++ handle ->
  absentBefore (strings.TrimSpace raw) createdSegment
    (String.length ("Location:" ++ u)) ->
  scanLocation (raw :: after) = strings.TrimSpace handle.
Proof.
  intros Hline Habsent.
  assert (Hline' : strings.TrimSpace raw
                   = ("Location:" ++ u) ++ createdSegment ++ handle).
  { rewrite Hline. now rewrite append_assoc_s. }
  assert (Hidx : strings.Index (strings.TrimSpace raw) createdSegment
                 = Z.of_nat (String.length ("Location:" ++ u))).
  { apply Index_first.
    - exact Habsent.
    - rewrite Hline', drop_app_length. apply HasPrefix_app_self.
    - rewrite Hline'. rewrite (length_append_s ("Location:" ++ u)). lia. }
  rewrite scanLocation_cons. unfold locationLine, strings.Contains.
  rewrite Hidx.
  replace (strings.HasPrefix (strings.TrimSpace raw) "Location:") with true
    by (rewrite Hline; symmetry; apply HasPrefix_app_self).
  replace (0 <=? Z.of_nat (String.length ("Location:" ++ u)))%Z with true
    by (symmetry; apply Z.leb_le; lia).
  cbn [andb]. rewrite Nat2Z.id. f_equal.
  rewrite Hline', <- append_assoc_s.
  rewrite <- length_append_s.
  apply drop_app_length.
Qed.

Lemma orchestrateHandler_no_handle (W : World) (fuel : nat) (c : Request)
    (header : FileHeader) :
  FormFile c = Some header ->
  let args := createProofSetArgs (PostForm c "serviceUrl")
                (PostForm c "serviceName") (PostForm c "recordkeeper") in
  err (tool W 0 args) = None ->
  parseTxHash (output (tool W 0 args)) = "" ->
  orchestrateHandler W fuel c start
  = (Some (serverError "txHash parse failed"),
     {| spawned := 1; statements := 0; events := [Spawn args] |}).
Proof.
  intros Hfile args Herr Hempty. unfold orchestrateHandler. rewrite Hfile.
  rewrite (bind_run _ _ _ _ _ (CombinedOutput_run W _ start)).
  fold args. change (spawned start) with 0.
  rewrite Herr, Hempty. reflexivity.
Qed.

(** C6. [parseTxHash] returns the empty string when no line of the buffer
    starts with [Location:] (after trimming) and contains
    [/pdp/proof-sets/created/]; when the first such line is
    [Location:<u>/pdp/proof-sets/created/<handle>] it returns the trimmed
    handle, ["ABC123"] for [.../pdp/proof-sets/created/ABC123]; and an empty
    handle ends [orchestrateHandler] with the 500 "txHash parse failed",
    after the [create-proof-set] process and before any status poll. *)
Theorem parseTxHash_spec (out : string) :
  ((forall line, In line (strings.Split out strings.newline) ->
      locationLine line = false) ->
   parseTxHash out = "")
  /\ (forall before raw after u handle,
        strings.Split out strings.newline = (before ++ raw :: after)%list ->
        (forall line, In line before -> locationLine line = false) ->
        strings.TrimSpace raw = "Location:" ++ u ++ createdSegment ++ handle ->
        absentBefore (strings.TrimSpace raw) createdSegment
          (String.length ("Location:" ++ u)) ->
        parseTxHash out = strings.TrimSpace handle)
  /\ parseTxHash
       ("HTTP/1.1 201 Created" ++ LF
        ++ "Location: https://pdp.local/pdp/proof-sets/created/ABC123" ++ LF)
     = "ABC123"
  /\ (forall W fuel c header,
        FormFile c = Some header ->
        let args := createProofSetArgs (PostForm c "serviceUrl")
                      (PostForm c "serviceName") (PostForm c "recordkeeper") in
        tool W 0 args = succeeded out ->
        parseTxHash out = "" ->
        orchestrateHandler W fuel c start
        = (Some (serverError "txHash parse failed"),
           {| spawned := 1; statements := 0; events := [Spawn args] |})).
Proof.
  split; [|split; [|split]].
  - apply scanLocation_none.
  - intros before raw after u handle Hsplit Hbefore Hline Habsent.
    unfold parseTxHash. rewrite Hsplit, scanLocation_skip by exact Hbefore.
    now apply scanLocation_found with (u := u).
  - reflexivity.
  - intros W fuel c header Hfile args Htool Hempty.
    apply orchestrateHandler_no_handle with (header := header).
    + exact Hfile.
    + fold args. now rewrite Htool.
    + fold args. now rewrite Htool.
Qed.

(** C6, an instance: a one-line buffer. *)
Lemma parseTxHash_spec_witness :
  strings.Split "Location: /pdp/proof-sets/created/ABC123" strings.newline
  = ([] ++ ["Location: /pdp/proof-sets/created/ABC123"])%list
  /\ strings.TrimSpace "Location: /pdp/proof-sets/created/ABC123"
     = "Location:" ++ " " ++ createdSegment ++ "ABC123"
  /\ absentBefore (strings.TrimSpace "Location: /pdp/proof-sets/created/ABC123")
       createdSegment (String.length ("Location:" ++ " "))
  /\ parseTxHash "Location: /pdp/proof-sets/created/ABC123"
     = strings.TrimSpace "ABC123".
Proof.
  assert (Habsent : absentBefore
            (strings.TrimSpace "Location: /pdp/proof-sets/created/ABC123")
            createdSegment (String.length ("Location:" ++ " "))).
  { intros k Hk. do 10 (destruct k as [|k]; [reflexivity|]).
    exfalso. cbn in Hk. lia. }
  split; [reflexivity|]. split; [reflexivity|]. split; [exact Habsent|].
  apply (proj1 (proj2 (parseTxHash_spec "Location: /pdp/proof-sets/created/ABC123"))
           [] "Location: /pdp/proof-sets/created/ABC123" [] " " "ABC123").
  - reflexivity.
  - intros line [].
  - reflexivity.
  - exact Habsent.
Defined.

(** * The proof set identifier parser *)

Lemma hasByte_no_prefix (c : ascii) (v : string) :
  hasByte c v = false ->
  forall k, strings.HasPrefix (strings.drop k v) (String c "") = false.
Proof.
  induction v as [|d v IH]; intros H k.
  - now rewrite drop_empty.
  - cbn [hasByte] in H. apply orb_false_iff in H as [Hd Hv].
    destruct k as [|k]; cbn [strings.drop].
    + cbn [strings.HasPrefix]. now rewrite Hd.
    + now apply IH.
Qed.

Lemma hasByte_no_prefix_app (c : ascii) (v b : string) :
  hasByte c v = false ->
  forall k, k < String.length v ->
    strings.HasPrefix (strings.drop k (v ++ b)) (String c "") = false.
Proof.
  induction v as [|d v IH]; intros H k Hk; [cbn in Hk; lia|].
  cbn [hasByte] in H. apply orb_false_iff in H as [Hd Hv].
  destruct k as [|k]; cbn [strings.drop append].
  - cbn [strings.HasPrefix]. now rewrite Hd.
  - apply IH; [assumption | cbn in Hk; lia].
Qed.

(** The text up to the next line feed, or to the end. *)
Lemma line_end (v b : string) :
  hasByte strings.newline v = false ->
  b = "" \/ strings.HasPrefix b LF = true ->
  (if (strings.Index (v ++ b) LF <? 0)%Z then strings.TrimSpace (v ++ b)
   else strings.TrimSpace
          (strings.take (Z.to_nat (strings.Index (v ++ b) LF)) (v ++ b)))
  = strings.TrimSpace v.
Proof.
  intros Hv [-> | Hb].
  - rewrite append_empty_r.
    rewrite Index_none by now apply hasByte_no_prefix.
    reflexivity.
  - rewrite (Index_first (String.length v)).
    + destruct (Z.ltb_spec (Z.of_nat (String.length v)) 0); [lia|].
      now rewrite Nat2Z.id, take_app_length.
    + intros k Hk. now apply hasByte_no_prefix_app.
    + now rewrite drop_app_length.
    + rewrite length_append_s. lia.
Qed.

Lemma extractProofSetID_idLine (sout v : string) :
  idLine sout v -> extractProofSetID sout = strings.TrimSpace v.
Proof.
  intros (a & m & b & Hsout & Hm & Habsent & Hv & Hb).
  assert (Hlen : String.length m = String.length idMarker)
    by now rewrite <- Hm, length_ToLower.
  assert (Hidx : strings.Index (strings.ToLower sout) idMarker
                 = Z.of_nat (String.length a)).
  { apply Index_first.
    - exact Habsent.
    - rewrite Hsout, !ToLower_append, Hm.
      rewrite <- (length_ToLower a), drop_app_length.
      apply HasPrefix_app_self.
    - rewrite length_ToLower, Hsout, length_append_s. lia. }
  unfold extractProofSetID. rewrite Hidx.
  destruct (Z.leb_spec 0 (Z.of_nat (String.length a))); [|lia].
  rewrite Nat2Z.id, <- Hlen.
  assert (Hrest : strings.drop (String.length a + String.length m) sout = v ++ b).
  { rewrite Hsout, drop_app, drop_app_length. reflexivity. }
  rewrite Hrest. now apply line_end.
Qed.

Lemma parseProofSetID_idLine (sout v : string) :
  strings.Contains (strings.ToLower sout) createdMarker = true ->
  idLine sout v ->
  parseProofSetID sout = Some (strings.TrimSpace v).
Proof.
  intros Hcreated Hid. unfold parseProofSetID. rewrite Hcreated.
  f_equal. now apply extractProofSetID_idLine.
Qed.




(** C5 (as amended). When the first two status outputs lack the marker
    "proofset created: true" and the third is an ASCII text that has it,
    with "7" after its first "proofset id: " marker (both markers in any
    letter case), the loop runs the status command three times, sleeps
    3 seconds after each of the two pending results, and leaves with the
    identifier ["7"]. *)
Theorem poll_until_created (W : World) (args : list string) (fuel : nat)
    (h : History) (v : string) :
  let out := fun j => output (tool W (spawned h + j) args) in
  strings.Contains (strings.ToLower (out 0)) createdMarker = false ->
  strings.Contains (strings.ToLower (out 1)) createdMarker = false ->
  strings.isASCII (out 2) = true ->
  strings.Contains (strings.ToLower (out 2)) createdMarker = true ->
  idLine (out 2) v ->
  strings.TrimSpace v = "7" ->
  pollProofSet W (3 + fuel) args h
  = (Some "7",
     advance h 3 [Spawn args; Sleep 3; Spawn args; Sleep 3; Spawn args]).
Proof.
  intros out H0 H1 _ H2 Hid Hv. unfold out in *.
  rewrite Nat.add_0_r in H0.
  change (3 + fuel) with (S (S (S fuel))).
  rewrite pollProofSet_pending by exact H0.
  rewrite pollProofSet_pending by exact H1.
  assert (Hidx : spawned (advance (advance h 1 [Spawn args; Sleep 3]) 1
                            [Spawn args; Sleep 3]) = spawned h + 2)
    by (cbn; lia).
  rewrite (pollProofSet_created _ _ _ _ "7").
  - rewrite !advance_advance. reflexivity.
  - rewrite Hidx, <- Hv. now apply parseProofSetID_idLine.
Qed.

(** C5, an instance: ["ProofSet Created: true"], ["ProofSet Id: 7"] on the
    third poll. *)
Lemma poll_until_created_witness :
  strings.Contains
    (strings.ToLower (output (tool createdWorld (spawned start + 0) demoStatusArgs)))
    createdMarker = false
  /\ strings.Contains
       (strings.ToLower (output (tool createdWorld (spawned start + 1) demoStatusArgs)))
       createdMarker = false
  /\ strings.isASCII
       (output (tool createdWorld (spawned start + 2) demoStatusArgs)) = true
  /\ strings.Contains
       (strings.ToLower (output (tool createdWorld (spawned start + 2) demoStatusArgs)))
       createdMarker = true
  /\ idLine (output (tool createdWorld (spawned start + 2) demoStatusArgs)) "7"
  /\ strings.TrimSpace "7" = "7"
  /\ pollProofSet createdWorld 3 demoStatusArgs start
     = (Some "7",
        {| spawned := 3; statements := 0;
           events := [Spawn demoStatusArgs; Sleep 3;
                      Spawn demoStatusArgs; Sleep 3;
                      Spawn demoStatusArgs] |}).
Proof.
  assert (Hid : idLine
            (output (tool createdWorld (spawned start + 2) demoStatusArgs)) "7").
  { exists ("ProofSet Created: true" ++ LF), "ProofSet Id: ", LF.
    split; [reflexivity|]. split; [reflexivity|]. split.
    - intros k Hk. do 23 (destruct k as [|k]; [reflexivity|]).
      exfalso. cbn in Hk. lia.
    - split; [reflexivity | right; reflexivity]. }
  split; [reflexivity|]. split; [reflexivity|]. split; [reflexivity|].
  split; [reflexivity|]. split; [exact Hid|]. split; [reflexivity|].
  exact (poll_until_created createdWorld demoStatusArgs 0 start "7"
           eq_refl eq_refl eq_refl eq_refl Hid eq_refl).
Defined.

(** C5, counterexample. The third status output is
    ["created: true / id: 7"]: it contains "created: true" and "id: 7" but
    not "proofset created: true", so the loop treats it as pending and is
    still polling after three, and after fifty, invocations. *)
Lemma abbreviated_markers_keep_polling :
  strings.Contains
    (strings.ToLower (output (tool abbreviatedWorld 0 demoStatusArgs)))
    createdMarker = false
  /\ strings.Contains
       (strings.ToLower (output (tool abbreviatedWorld 1 demoStatusArgs)))
       createdMarker = false
  /\ strings.Contains
       (strings.ToLower (output (tool abbreviatedWorld 2 demoStatusArgs)))
       "created: true" = true
  /\ strings.Contains
       (strings.ToLower (output (tool abbreviatedWorld 2 demoStatusArgs)))
       "id: 7" = true
  /\ pollProofSet abbreviatedWorld 3 demoStatusArgs start
     = (None,
        {| spawned := 3; statements := 0;
           events := [Spawn demoStatusArgs; Sleep 3;
                      Spawn demoStatusArgs; Sleep 3;
                      Spawn demoStatusArgs; Sleep 3] |})
  /\ fst (pollProofSet abbreviatedWorld 50 demoStatusArgs start) = None
  /\ spawned (snd (pollProofSet abbreviatedWorld 50 demoStatusArgs start)) = 50.
Proof. repeat split; vm_compute; reflexivity. Qed.

(** * Further properties of the bind and upload handlers *)

Lemma retrySchedule_slept (n : nat) (args : list string) :
  n <= maxRetries -> list_sum (sleepsOf (retrySchedule n 1 args)) <= 6.
Proof.
  unfold maxRetries. intros Hn.
  destruct n as [|[|[|[|n]]]]; cbn; lia.
Qed.

(** X1. [addRootToProofSet] runs [add-roots] between one and three times and
    sleeps at most 6 seconds; it returns [nil] exactly when the last
    [add-roots] it ran succeeded and otherwise the error
    "add-roots failed: " followed by the output of that last run. The error
    "add-roots failed after 3 attempts" after its loop is never returned. *)
Theorem addRootToProofSet_outcome (W : World)
    (serviceUrl serviceName proofSetID rootCID : string) (h : History) :
  let args := addRootsArgs serviceUrl serviceName proofSetID rootCID in
  let res := addRootToProofSet W serviceUrl serviceName proofSetID rootCID h in
  exists n,
    1 <= n <= maxRetries
    /\ snd res = advance h n (retrySchedule n 1 args)
    /\ spawnsOf (retrySchedule n 1 args) = repeat args n
    /\ list_sum (sleepsOf (retrySchedule n 1 args)) <= 6
    /\ fst res = bindError (tool W (spawned h + n - 1) args)
    /\ (fst res = None <-> err (tool W (spawned h + n - 1) args) = None)
    /\ fst res <> Some "add-roots failed after 3 attempts".
Proof.
  intros args res. unfold res, addRootToProofSet. fold args.
  rewrite addRootAttempts_run by (unfold maxRetries; lia). cbn zeta.
  set (n := attemptsCapped (fun j => tool W j args) maxRetries (spawned h)).
  assert (Hpos : 1 <= n) by (apply attemptsCapped_pos; unfold maxRetries; lia).
  assert (Hle : n <= maxRetries) by apply attemptsCapped_le.
  exists n. cbn [fst snd].
  split; [lia|]. split; [reflexivity|].
  split; [apply retrySchedule_spawns|].
  split; [now apply retrySchedule_slept|].
  split; [reflexivity|].
  unfold bindError.
  destruct (err (tool W (spawned h + n - 1) args)).
  - split; [split; discriminate | discriminate].
  - split; [split; reflexivity | discriminate].
Qed.

(** X2. In [addRootToProofSet] a failure of [add-roots] whose output lacks
    "not found or does not belong to service" is final on whichever attempt
    it occurs: after [k] failures that carry the text, a failure without it
    on attempt [k + 1] is returned with its output, and [add-roots] is not
    run again. *)
Theorem addRootToProofSet_stops_on_other_failure (W : World)
    (serviceUrl serviceName proofSetID rootCID : string) (h : History) (k : nat) :
  let args := addRootsArgs serviceUrl serviceName proofSetID rootCID in
  let result := fun j => tool W (spawned h + j) args in
  k < maxRetries ->
  (forall j, j < k ->
     err (result j) <> None
     /\ strings.Contains (output (result j)) notFoundMarker = true) ->
  err (result k) <> None ->
  strings.Contains (output (result k)) notFoundMarker = false ->
  addRootToProofSet W serviceUrl serviceName proofSetID rootCID h
  = (Some ("add-roots failed: " ++ output (result k)),
     advance h (S k) (retrySchedule (S k) 1 args))
  /\ spawnsOf (retrySchedule (S k) 1 args) = repeat args (S k).
Proof.
  intros args result Hk Hbefore Herr Hno.
  split; [|apply retrySchedule_spawns].
  unfold addRootToProofSet. fold args.
  rewrite addRootAttempts_run by (unfold maxRetries; lia). cbn zeta.
  rewrite (attemptsCapped_min _ _ _ k).
  - rewrite Nat.min_r by lia.
    replace (spawned h + S k - 1) with (spawned h + k) by lia.
    unfold bindError. fold (result k). destruct (err (result k)); congruence.
  - intros j Hj. destruct (Hbefore j Hj) as [Hf Hc].
    unfold stops. fold (result j). rewrite Hc.
    destruct (err (result j)); [reflexivity | congruence].
  - unfold stops. fold (result k). rewrite Hno.
    destruct (err (result k)); [reflexivity | congruence].
Qed.

(** X2, an instance: a transient failure, then "Error: permission denied". *)
Lemma addRootToProofSet_stops_on_other_failure_witness :
  1 < maxRetries
  /\ strings.Contains
       (output (tool deniedBindWorld (spawned start + 1) demoAddRootsArgs))
       notFoundMarker = false
  /\ addRootToProofSet deniedBindWorld "http://pdp.local" "pdp" "12"
       "baga6ea4seaq" start
     = (Some "add-roots failed: Error: permission denied",
        {| spawned := 2; statements := 0;
           events := [Spawn demoAddRootsArgs; Sleep 2; Spawn demoAddRootsArgs] |}).
Proof.
  assert (Hk : 1 < maxRetries) by (unfold maxRetries; lia).
  split; [exact Hk|]. split; [reflexivity|].
  refine (proj1 (addRootToProofSet_stops_on_other_failure deniedBindWorld
                   "http://pdp.local" "pdp" "12" "baga6ea4seaq" start 1
                   Hk _ _ eq_refl)).
  - intros j Hj. destruct j as [|j].
    + split; [discriminate | reflexivity].
    + exfalso. lia.
  - discriminate.
Defined.

Ltac early_leaf Hres :=
  let Hst := fresh "Hst" in
  injection Hres as <- <-; cbn; intros Hst;
  first [reflexivity | discriminate Hst].

Lemma uploadAndAddRootHandler_rejects (W : World) (c : Request) :
  rejectsEarly (uploadAndAddRootHandler W c start).
Proof.
  unfold rejectsEarly.
  destruct (uploadAndAddRootHandler W c start) as [resp h'] eqn:Hres.
  unfold uploadAndAddRootHandler, start, maxRetries, isEncryptedName in Hres.
  repeat step_in Hres; early_leaf Hres.
Qed.

Lemma uploadBindPersist_rejects (W : World) (header : FileHeader)
    (serviceUrl serviceName proofSetID typedSql : string)
    (typedArgs : string -> list SqlArg) (typedFailure typedLog : string)
    (okBody : string -> list (string * JSON)) :
  rejectsEarly
    (uploadBindPersist W header serviceUrl serviceName proofSetID
       typedSql typedArgs typedFailure typedLog okBody start).
Proof.
  unfold rejectsEarly.
  destruct (uploadBindPersist _ _ _ _ _ _ _ _ _ _ _) as [resp h'] eqn:Hres.
  unfold uploadBindPersist, uploadFileToStorage, addRootToProofSet, start,
    maxRetries, isEncryptedName in Hres.
  repeat step_in Hres; early_leaf Hres.
Qed.

Lemma badRequest_rejects (msg : string) :
  rejectsEarly (ret (badRequest msg) start).
Proof. intros _. reflexivity. Qed.

Lemma typed_handlers_reject (W : World) (c : Request) :
  rejectsEarly (uploadAndAddPaperHandler W c start)
  /\ rejectsEarly (uploadAndAddGenomeHandler W c start)
  /\ rejectsEarly (uploadAndAddSpectrumHandler W c start).
Proof.
  split; [|split].
  - unfold uploadAndAddPaperHandler.
    destruct (ParseMultipartForm c); [apply badRequest_rejects|].
    destruct (_ || _); [apply badRequest_rejects|].
    destruct (FormFile c); [|apply badRequest_rejects].
    apply (uploadBindPersist_rejects W f _ _ _ insertPaper (paperArgs W c)
             "Failed to save paper metadata" "Failed to save paper: ").
  - unfold uploadAndAddGenomeHandler.
    destruct (ParseMultipartForm c); [apply badRequest_rejects|].
    destruct (_ || _); [apply badRequest_rejects|].
    destruct (FormFile c); [|apply badRequest_rejects].
    apply (uploadBindPersist_rejects W f _ _ _ insertGenome (genomeArgs c)
             "Failed to save genome metadata" "Failed to save genome: ").
  - unfold uploadAndAddSpectrumHandler.
    destruct (ParseMultipartForm c); [apply badRequest_rejects|].
    destruct (_ || _); [apply badRequest_rejects|].
    destruct (_ && _); [apply badRequest_rejects|].
    destruct (FormFile c); [|apply badRequest_rejects].
    apply (uploadBindPersist_rejects W f _ _ _ insertSpectrum (spectrumArgs c)
             "Failed to save spectrum metadata" "Failed to save spectrum: ").
Qed.

Lemma legacy_handlers_reject (W : World) (c : Request) :
  rejectsEarly (pingHandler W c start)
  /\ rejectsEarly (createProofSetHandler W c start)
  /\ rejectsEarly (uploadFileHandler W c start)
  /\ rejectsEarly (addRootsHandler W c start).
Proof.
  split; [|split; [|split]]; unfold rejectsEarly.
  - destruct (pingHandler W c start) as [resp h'] eqn:Hres.
    unfold pingHandler, start in Hres. repeat step_in Hres; early_leaf Hres.
  - destruct (createProofSetHandler W c start) as [resp h'] eqn:Hres.
    unfold createProofSetHandler, start in Hres.
    repeat step_in Hres; early_leaf Hres.
  - destruct (uploadFileHandler W c start) as [resp h'] eqn:Hres.
    unfold uploadFileHandler, start in Hres. repeat step_in Hres; early_leaf Hres.
  - destruct (addRootsHandler W c start) as [resp h'] eqn:Hres.
    unfold addRootsHandler, start in Hres. repeat step_in Hres; early_leaf Hres.
Qed.

Lemma orchestrateHandler_rejects (W : World) (fuel : nat) (c : Request)
    (resp : Response) (h' : History) :
  orchestrateHandler W fuel c start = (Some resp, h') ->
  rejectsEarly (resp, h').
Proof.
  intros Hres. unfold rejectsEarly.
  unfold orchestrateHandler, start in Hres.
  repeat step_in Hres;
    first [discriminate Hres
          | injection Hres as <- <-; cbn; intros Hst;
            first [reflexivity | discriminate Hst]].
Qed.

(** X3. A request that is answered 400 (a missing form field, file or JSON
    body, an unparsable form, invalid JSON metadata) has run no process, has
    not slept, has sent nothing to the database and has written no
    [[DB ERROR]] line. This holds for every handler that runs the tool. (The
    debug lines that the handlers print are not part of the history.) *)
Theorem validation_precedes_effects (W : World) (c : Request) :
  rejectsEarly (uploadAndAddRootHandler W c start)
  /\ rejectsEarly (uploadAndAddPaperHandler W c start)
  /\ rejectsEarly (uploadAndAddGenomeHandler W c start)
  /\ rejectsEarly (uploadAndAddSpectrumHandler W c start)
  /\ rejectsEarly (pingHandler W c start)
  /\ rejectsEarly (createProofSetHandler W c start)
  /\ rejectsEarly (uploadFileHandler W c start)
  /\ rejectsEarly (addRootsHandler W c start)
  /\ (forall fuel,
        match fst (orchestrateHandler W fuel c start) with
        | Some resp => rejectsEarly (resp, snd (orchestrateHandler W fuel c start))
        | None => True
        end).
Proof.
  split; [apply uploadAndAddRootHandler_rejects|].
  destruct (typed_handlers_reject W c) as (Hp & Hg & Hs).
  destruct (legacy_handlers_reject W c) as (H1 & H2 & H3 & H4).
  repeat (split; [assumption|]).
  intros fuel.
  destruct (orchestrateHandler W fuel c start) as [[resp|] h'] eqn:Hres;
    cbn [fst snd]; [|exact I].
  now apply orchestrateHandler_rejects with (W := W) (fuel := fuel) (c := c).
Qed.

Ltac impossible_retry :=
  match goal with
  | H : _ && false = true |- _ => rewrite andb_false_r in H; discriminate H
  end.

Ltac bounded_leaf Hres :=
  first
    [ impossible_retry
    | injection Hres as <- <-;
      unfold boundedEffects, countSpawns, sleptSeconds, maxRetries;
      cbn; repeat split; lia ].

Lemma uploadAndAddRootHandler_bounded (W : World) (c : Request) :
  boundedEffects (uploadAndAddRootHandler W c start).
Proof.
  destruct (uploadAndAddRootHandler W c start) as [resp h'] eqn:Hres.
  unfold uploadAndAddRootHandler, start, maxRetries, isEncryptedName in Hres.
  repeat step_in Hres; bounded_leaf Hres.
Qed.

Lemma uploadBindPersist_bounded (W : World) (header : FileHeader)
    (serviceUrl serviceName proofSetID typedSql : string)
    (typedArgs : string -> list SqlArg) (typedFailure typedLog : string)
    (okBody : string -> list (string * JSON)) :
  boundedEffects
    (uploadBindPersist W header serviceUrl serviceName proofSetID
       typedSql typedArgs typedFailure typedLog okBody start).
Proof.
  destruct (uploadBindPersist _ _ _ _ _ _ _ _ _ _ _) as [resp h'] eqn:Hres.
  unfold uploadBindPersist, uploadFileToStorage, addRootToProofSet, start,
    maxRetries, isEncryptedName in Hres.
  repeat step_in Hres; bounded_leaf Hres.
Qed.

Lemma badRequest_bounded (msg : string) :
  boundedEffects (ret (badRequest msg) start).
Proof. unfold boundedEffects, maxRetries. cbn. repeat split; lia. Qed.

(** X4. Whatever the tool and the database do, one request to an upload
    handler runs [upload-file] at most once and [add-roots] at most three
    times and no other process, sleeps at most 9 seconds in all (3 to settle,
    2 and 4 between binds) and sends at most two statements to the
    database. *)
Theorem upload_request_is_bounded (W : World) (c : Request) :
  boundedEffects (uploadAndAddRootHandler W c start)
  /\ boundedEffects (uploadAndAddPaperHandler W c start)
  /\ boundedEffects (uploadAndAddGenomeHandler W c start)
  /\ boundedEffects (uploadAndAddSpectrumHandler W c start).
Proof.
  split; [apply uploadAndAddRootHandler_bounded|]. split; [|split].
  - unfold uploadAndAddPaperHandler.
    destruct (ParseMultipartForm c); [apply badRequest_bounded|].
    destruct (_ || _); [apply badRequest_bounded|].
    destruct (FormFile c); [|apply badRequest_bounded].
    apply (uploadBindPersist_bounded W f _ _ _ insertPaper (paperArgs W c)
             "Failed to save paper metadata" "Failed to save paper: ").
  - unfold uploadAndAddGenomeHandler.
    destruct (ParseMultipartForm c); [apply badRequest_bounded|].
    destruct (_ || _); [apply badRequest_bounded|].
    destruct (FormFile c); [|apply badRequest_bounded].
    apply (uploadBindPersist_bounded W f _ _ _ insertGenome (genomeArgs c)
             "Failed to save genome metadata" "Failed to save genome: ").
  - unfold uploadAndAddSpectrumHandler.
    destruct (ParseMultipartForm c); [apply badRequest_bounded|].
    destruct (_ || _); [apply badRequest_bounded|].
    destruct (_ && _); [apply badRequest_bounded|].
    destruct (FormFile c); [|apply badRequest_bounded].
    apply (uploadBindPersist_bounded W f _ _ _ insertSpectrum (spectrumArgs c)
             "Failed to save spectrum metadata" "Failed to save spectrum: ").
Qed.

Ltac persist_leaf Hres :=
  first
    [ impossible_retry
    | let Hdb := fresh "Hdb" in
      injection Hres as <- <-; unfold persistsAfterBind; cbn; intros Hdb;
      first [ exfalso; apply Hdb; reflexivity
            | eexists; split; [reflexivity | cbn; assumption] ] ].

Lemma uploadAndAddRootHandler_persists (W : World) (c : Request) :
  persistsAfterBind W (uploadAndAddRootHandler W c start).
Proof.
  destruct (uploadAndAddRootHandler W c start) as [resp h'] eqn:Hres.
  unfold uploadAndAddRootHandler, start, maxRetries, isEncryptedName in Hres.
  repeat step_in Hres; persist_leaf Hres.
Qed.

Lemma uploadBindPersist_persists (W : World) (header : FileHeader)
    (serviceUrl serviceName proofSetID typedSql : string)
    (typedArgs : string -> list SqlArg) (typedFailure typedLog : string)
    (okBody : string -> list (string * JSON)) :
  persistsAfterBind W
    (uploadBindPersist W header serviceUrl serviceName proofSetID
       typedSql typedArgs typedFailure typedLog okBody start).
Proof.
  destruct (uploadBindPersist _ _ _ _ _ _ _ _ _ _ _) as [resp h'] eqn:Hres.
  unfold uploadBindPersist, uploadFileToStorage, addRootToProofSet, start,
    maxRetries, isEncryptedName in Hres.
  repeat step_in Hres; persist_leaf Hres.
Qed.

Lemma badRequest_persists (W : World) (msg : string) :
  persistsAfterBind W (ret (badRequest msg) start).
Proof. intros H. exfalso. apply H. reflexivity. Qed.

(** X5. The upload handlers write to the database only after a successful
    bind: whenever a request has sent a statement (the typed insert or the
    file mapping insert), the last process it ran was an [add-roots] that
    succeeded. A failed upload or bind leaves no row behind. *)
Theorem database_written_after_bind (W : World) (c : Request) :
  persistsAfterBind W (uploadAndAddRootHandler W c start)
  /\ persistsAfterBind W (uploadAndAddPaperHandler W c start)
  /\ persistsAfterBind W (uploadAndAddGenomeHandler W c start)
  /\ persistsAfterBind W (uploadAndAddSpectrumHandler W c start).
Proof.
  split; [apply uploadAndAddRootHandler_persists|]. split; [|split].
  - unfold uploadAndAddPaperHandler.
    destruct (ParseMultipartForm c); [apply badRequest_persists|].
    destruct (_ || _); [apply badRequest_persists|].
    destruct (FormFile c); [|apply badRequest_persists].
    apply (uploadBindPersist_persists W f _ _ _ insertPaper (paperArgs W c)
             "Failed to save paper metadata" "Failed to save paper: ").
  - unfold uploadAndAddGenomeHandler.
    destruct (ParseMultipartForm c); [apply badRequest_persists|].
    destruct (_ || _); [apply badRequest_persists|].
    destruct (FormFile c); [|apply badRequest_persists].
    apply (uploadBindPersist_persists W f _ _ _ insertGenome (genomeArgs c)
             "Failed to save genome metadata" "Failed to save genome: ").
  - unfold uploadAndAddSpectrumHandler.
    destruct (ParseMultipartForm c); [apply badRequest_persists|].
    destruct (_ || _); [apply badRequest_persists|].
    destruct (_ && _); [apply badRequest_persists|].
    destruct (FormFile c); [|apply badRequest_persists].
    apply (uploadBindPersist_persists W f _ _ _ insertSpectrum (spectrumArgs c)
             "Failed to save spectrum metadata" "Failed to save spectrum: ").
Qed.

Ltac root_leaf Hres :=
  first
    [ impossible_retry
    | let args := fresh "args" in
      let Hin := fresh "Hin" in
      injection Hres as <- <-; unfold bindsUploadedRoot; cbn; intros args Hin;
      repeat match type of Hin with
             | _ \/ _ => destruct Hin as [Hin | Hin]
             end;
      first [ contradiction
            | discriminate Hin
            | injection Hin as <-;
              eexists; split; [reflexivity | split; [assumption | reflexivity]] ] ].

Lemma uploadAndAddRootHandler_binds_uploaded (W : World) (c : Request) :
  bindsUploadedRoot W (uploadAndAddRootHandler W c start).
Proof.
  destruct (uploadAndAddRootHandler W c start) as [resp h'] eqn:Hres.
  unfold uploadAndAddRootHandler, start, maxRetries, isEncryptedName in Hres.
  repeat step_in Hres; root_leaf Hres.
Qed.

Lemma uploadBindPersist_binds_uploaded (W : World) (header : FileHeader)
    (serviceUrl serviceName proofSetID typedSql : string)
    (typedArgs : string -> list SqlArg) (typedFailure typedLog : string)
    (okBody : string -> list (string * JSON)) :
  bindsUploadedRoot W
    (uploadBindPersist W header serviceUrl serviceName proofSetID
       typedSql typedArgs typedFailure typedLog okBody start).
Proof.
  destruct (uploadBindPersist _ _ _ _ _ _ _ _ _ _ _) as [resp h'] eqn:Hres.
  unfold uploadBindPersist, uploadFileToStorage, addRootToProofSet, start,
    maxRetries, isEncryptedName in Hres.
  repeat step_in Hres; root_leaf Hres.
Qed.

Lemma badRequest_binds_uploaded (W : World) (msg : string) :
  bindsUploadedRoot W (ret (badRequest msg) start).
Proof. intros args []. Qed.

(** X6. The upload handlers bind only what they have uploaded: whenever a
    request has run [add-roots], its first process was an [upload-file] that
    succeeded, and the [--root] argument of every [add-roots] is the trimmed
    last line of the output of that upload. *)
Theorem bind_follows_upload (W : World) (c : Request) :
  bindsUploadedRoot W (uploadAndAddRootHandler W c start)
  /\ bindsUploadedRoot W (uploadAndAddPaperHandler W c start)
  /\ bindsUploadedRoot W (uploadAndAddGenomeHandler W c start)
  /\ bindsUploadedRoot W (uploadAndAddSpectrumHandler W c start).
Proof.
  split; [apply uploadAndAddRootHandler_binds_uploaded|]. split; [|split].
  - unfold uploadAndAddPaperHandler.
    destruct (ParseMultipartForm c); [apply badRequest_binds_uploaded|].
    destruct (_ || _); [apply badRequest_binds_uploaded|].
    destruct (FormFile c); [|apply badRequest_binds_uploaded].
    apply (uploadBindPersist_binds_uploaded W f _ _ _ insertPaper (paperArgs W c)
             "Failed to save paper metadata" "Failed to save paper: ").
  - unfold uploadAndAddGenomeHandler.
    destruct (ParseMultipartForm c); [apply badRequest_binds_uploaded|].
    destruct (_ || _); [apply badRequest_binds_uploaded|].
    destruct (FormFile c); [|apply badRequest_binds_uploaded].
    apply (uploadBindPersist_binds_uploaded W f _ _ _ insertGenome (genomeArgs c)
             "Failed to save genome metadata" "Failed to save genome: ").
  - unfold uploadAndAddSpectrumHandler.
    destruct (ParseMultipartForm c); [apply badRequest_binds_uploaded|].
    destruct (_ || _); [apply badRequest_binds_uploaded|].
    destruct (_ && _); [apply badRequest_binds_uploaded|].
    destruct (FormFile c); [|apply badRequest_binds_uploaded].
    apply (uploadBindPersist_binds_uploaded W f _ _ _ insertSpectrum
             (spectrumArgs c)
             "Failed to save spectrum metadata" "Failed to save spectrum: ").
Qed.

(** * Further properties of the orchestrated flow *)

Lemma pollSchedule_advance (h : History) (k : nat) (args : list string) :
  advance (advance h 1 [Spawn args; Sleep 3]) (S k) (pollSchedule k args)
  = advance h (S (S k)) (pollSchedule (S k) args).
Proof. rewrite advance_advance. reflexivity. Qed.

(** How the poll loop is left: after [k] pending polls and one that reports
    the creation, or, for the model, on running out of its bound. *)
Lemma pollProofSet_shape (W : World) (args : list string) (fuel : nat)
    (h : History) (proofSetID : string) (h' : History) :
  pollProofSet W fuel args h = (Some proofSetID, h') ->
  exists k,
    k < fuel
    /\ h' = advance h (S k) (pollSchedule k args)
    /\ parseProofSetID (output (tool W (spawned h + k) args)) = Some proofSetID
    /\ (forall j, j < k ->
          parseProofSetID (output (tool W (spawned h + j) args)) = None).
Proof.
  revert h; induction fuel as [|fuel IH]; intros h Hrun; [discriminate|].
  cbn [pollProofSet] in Hrun.
  rewrite (bind_run _ _ _ _ _ (CombinedOutput_run W args h)) in Hrun.
  destruct (parseProofSetID (output (tool W (spawned h) args))) as [id|] eqn:Hparse.
  - injection Hrun as <- <-. exists 0. rewrite Nat.add_0_r.
    split; [lia|]. split; [reflexivity|]. split; [exact Hparse|].
    intros j Hj. lia.
  - rewrite (bind_run _ _ _ _ _ (sleep_run _ _)) in Hrun.
    rewrite advance_advance in Hrun.
    destruct (IH _ Hrun) as (k & Hk & Hh & Hid & Hbefore).
    exists (S k). split; [lia|]. split; [|split].
    + rewrite Hh. apply pollSchedule_advance.
    + cbn [advance spawned] in Hid.
      now replace (spawned h + S k) with (spawned h + (1 + 0) + k) by lia.
    + intros j Hj. destruct j as [|j].
      * now rewrite Nat.add_0_r.
      * cbn [advance spawned] in Hbefore.
        replace (spawned h + S j) with (spawned h + (1 + 0) + j) by lia.
        apply Hbefore. lia.
Qed.

(** X7. A 200 answer of [orchestrateHandler] means that the four steps ran
    in order and once each, but for the polls: [create-proof-set] succeeded
    and gave a non-empty handle, the status command was polled [k + 1] times
    with that handle, 3 seconds apart, until its output reported the
    creation, then [upload-file] and a single [add-roots] (with no retry)
    succeeded, bound to the identifier taken from the last poll and to the
    text before the first colon of the upload's last line. Nothing was sent
    to the database. *)
Theorem orchestrate_success_shape (W : World) (fuel : nat) (c : Request)
    (resp : Response) (h' : History) :
  orchestrateHandler W fuel c start = (Some resp, h') ->
  Status resp = StatusOK ->
  let serviceUrl := PostForm c "serviceUrl" in
  let serviceName := PostForm c "serviceName" in
  let createArgs :=
    createProofSetArgs serviceUrl serviceName (PostForm c "recordkeeper") in
  let txHash := parseTxHash (output (tool W 0 createArgs)) in
  let pollArgs := statusArgs serviceUrl serviceName txHash in
  exists k tmpPath proofSetID,
    let upArgs := uploadFileArgs serviceUrl serviceName tmpPath in
    let rootCID := parseRootCID_colon (output (tool W (2 + k) upArgs)) in
    let bindArgs := addRootsArgs serviceUrl serviceName proofSetID rootCID in
    err (tool W 0 createArgs) = None
    /\ txHash <> ""
    /\ k < fuel
    /\ (forall j, j < k ->
          parseProofSetID (output (tool W (1 + j) pollArgs)) = None)
    /\ parseProofSetID (output (tool W (1 + k) pollArgs)) = Some proofSetID
    /\ createTemp W = inl tmpPath
    /\ err (tool W (2 + k) upArgs) = None
    /\ err (tool W (3 + k) bindArgs) = None
    /\ h' = {| spawned := 4 + k; statements := 0;
               events := (Spawn createArgs :: pollSchedule k pollArgs
                          ++ [Spawn upArgs; Spawn bindArgs])%list |}
    /\ resp = {| Status := StatusOK;
                 Body := [("txHash", JString txHash);
                          ("proofSetID", JString proofSetID);
                          ("rootCID", JString rootCID);
                          ("addRoots",
                           JString (strings.TrimSpace
                                      (output (tool W (3 + k) bindArgs))))] |}.
Proof.
  intros Hres Hok serviceUrl serviceName createArgs txHash pollArgs.
  unfold orchestrateHandler in Hres.
  destruct (FormFile c) as [header|];
    [|injection Hres as <- <-; discriminate Hok].
  rewrite (bind_run _ _ _ _ _ (CombinedOutput_run W _ start)) in Hres.
  fold serviceUrl serviceName createArgs in Hres.
  change (spawned start) with 0 in Hres.
  destruct (err (tool W 0 createArgs)) eqn:Hcreate;
    [injection Hres as <- <-; discriminate Hok|].
  fold txHash in Hres.
  destruct (String.eqb txHash "") eqn:Htx;
    [injection Hres as <- <-; discriminate Hok|].
  apply String.eqb_neq in Htx. fold pollArgs in Hres.
  unfold bind at 1 in Hres.
  destruct (pollProofSet W fuel pollArgs (advance start 1 [Spawn createArgs]))
    as [[proofSetID|] h2] eqn:Hpoll; [|discriminate Hres].
  destruct (pollProofSet_shape _ _ _ _ _ _ Hpoll) as (k & Hk & Hh2 & Hid & Hbefore).
  cbn [advance spawned start] in Hid, Hbefore.
  destruct (createTemp W) as [tmpPath|e] eqn:Htmp;
    [|injection Hres as <- <-; discriminate Hok].
  rewrite (bind_run _ _ _ _ _ (CombinedOutput_run W _ h2)) in Hres.
  assert (Hsp : spawned h2 = 2 + k) by (rewrite Hh2; cbn; lia).
  rewrite Hsp in Hres.
  destruct (err (tool W (2 + k) (uploadFileArgs serviceUrl serviceName tmpPath)))
    eqn:Hup; [injection Hres as <- <-; discriminate Hok|].
  rewrite (bind_run _ _ _ _ _ (CombinedOutput_run W _ _)) in Hres.
  cbn [advance spawned] in Hres. rewrite Hsp in Hres.
  replace (2 + k + 1) with (3 + k) in Hres by lia.
  exists k, tmpPath, proofSetID. cbn zeta.
  destruct (err (tool W (3 + k) _)) eqn:Hbind in Hres;
    [injection Hres as <- <-; discriminate Hok|].
  injection Hres as <- <-.
  split; [reflexivity|]. split; [exact Htx|]. split; [exact Hk|].
  split; [exact Hbefore|]. split; [exact Hid|]. split; [reflexivity|].
  split; [exact Hup|]. split; [exact Hbind|].
  split; [|reflexivity].
  rewrite Hh2. unfold advance, start. cbn.
  apply history_eq; [lia | reflexivity |].
  rewrite <- List.app_assoc. reflexivity.
Qed.

(** X7, an instance: the run of [orchestrate_run], with one pending poll. *)
Lemma orchestrate_success_shape_witness :
  Status (match fst (orchestrateHandler orchestrateWorld 10 demoRequest start) with
          | Some resp => resp
          | None => badRequest ""
          end) = StatusOK
  /\ exists k tmpPath,
       k < 10 /\ createTemp orchestrateWorld = inl tmpPath.
Proof.
  split; [reflexivity|].
  destruct (orchestrate_success_shape orchestrateWorld 10 demoRequest
              _ _ eq_refl eq_refl)
    as (k & tmpPath & proofSetID & _ & _ & Hk & _ & _ & Htmp & _).
  exists k, tmpPath. split; [exact Hk | exact Htmp].
Defined.

Lemma hasByte_drop (c : ascii) (n : nat) (s : string) :
  hasByte c s = false -> hasByte c (strings.drop n s) = false.
Proof.
  revert s; induction n as [|n IH]; intros [|d r] H; cbn; auto.
  cbn in H. apply orb_false_iff in H as [_ H]. auto.
Qed.

(** The text before the first line feed has none; a text in which [Index]
    finds no line feed has none. *)
Lemma before_newline (rest : string) :
  ((0 <= strings.Index rest LF)%Z ->
   hasByte strings.newline
     (strings.take (Z.to_nat (strings.Index rest LF)) rest) = false)
  /\ ((strings.Index rest LF < 0)%Z -> hasByte strings.newline rest = false).
Proof.
  induction rest as [|c r [IHfound IHnone]].
  - split; reflexivity.
  - rewrite Index_cons.
    assert (Hp : strings.HasPrefix (String c r) LF = Ascii.eqb c strings.newline).
    { cbn. rewrite HasPrefix_empty. apply andb_true_r. }
    rewrite Hp. destruct (Ascii.eqb c strings.newline) eqn:Ec.
    + split; [reflexivity | lia].
    + destruct (Z.ltb_spec (strings.Index r LF) 0) as [Hneg|Hpos].
      * split; [lia|]. intros _. cbn. rewrite Ec. now apply IHnone.
      * split; [|lia]. intros _.
        replace (Z.to_nat (strings.Index r LF + 1))
          with (S (Z.to_nat (strings.Index r LF))) by lia.
        cbn. rewrite Ec. now apply IHfound.
Qed.

Lemma scanLocation_clean (lines : list string) :
  Forall (fun l => hasByte strings.newline l = false) lines ->
  strings.TrimSpace (scanLocation lines) = scanLocation lines
  /\ hasByte strings.newline (scanLocation lines) = false.
Proof.
  induction lines as [|line rest IH]; intros Hfree; [split; reflexivity|].
  inversion Hfree as [|? ? Hline Hrest]; subst.
  rewrite scanLocation_cons. destruct (locationLine line); [|now apply IH].
  split; [apply TrimSpace_idem|].
  now apply hasByte_TrimSpace, hasByte_drop, hasByte_TrimSpace.
Qed.

Lemma extractProofSetID_clean (sout : string) :
  strings.TrimSpace (extractProofSetID sout) = extractProofSetID sout
  /\ hasByte strings.newline (extractProofSetID sout) = false.
Proof.
  unfold extractProofSetID.
  destruct (0 <=? strings.Index (strings.ToLower sout) idMarker)%Z;
    [|split; reflexivity].
  set (rest := strings.drop _ sout).
  destruct (before_newline rest) as [Hfound Hnone].
  destruct (Z.ltb_spec (strings.Index rest LF) 0) as [Hneg|Hpos].
  - split; [apply TrimSpace_idem | now apply hasByte_TrimSpace, Hnone].
  - split; [apply TrimSpace_idem | now apply hasByte_TrimSpace, Hfound].
Qed.

(** X8. Every value the handlers extract from the tool's output and pass on
    as a command line argument is a single-line token: the transaction
    handle, the proof set identifier and the whole-line content identifier
    are trimmed and hold no line feed; the content identifier taken before
    the colon holds neither a line feed nor a colon. *)
Theorem extracted_values_are_tokens (out : string) :
  (strings.TrimSpace (parseTxHash out) = parseTxHash out
   /\ hasByte strings.newline (parseTxHash out) = false)
  /\ (forall proofSetID,
        parseProofSetID out = Some proofSetID ->
        strings.TrimSpace proofSetID = proofSetID
        /\ hasByte strings.newline proofSetID = false)
  /\ (strings.TrimSpace (parseRootCID_line out) = parseRootCID_line out
      /\ hasByte strings.newline (parseRootCID_line out) = false)
  /\ (hasByte strings.newline (parseRootCID_colon out) = false
      /\ hasByte strings.colon (parseRootCID_colon out) = false).
Proof.
  split; [|split; [|split]].
  - apply scanLocation_clean, Split_lines_free.
  - intros proofSetID. unfold parseProofSetID.
    destruct (strings.Contains _ _); [|discriminate].
    intros [= <-]. apply extractProofSetID_clean.
  - split; [apply TrimSpace_idem | apply parseRootCID_line_free].
  - apply parseRootCID_colon_free.
Qed.

Lemma extractProofSetID_absent (sout : string) :
  strings.Contains (strings.ToLower sout) idMarker = false ->
  extractProofSetID sout = "".
Proof.
  unfold strings.Contains, extractProofSetID. now intros ->.
Qed.

(** X9. When a status output reports the creation but has no
    "proofset id: " marker, the poll loop is left with the empty identifier,
    and [orchestrateHandler] goes on to upload and to run [add-roots] with an
    empty [--proof-set-id]. *)
Theorem created_without_identifier (W : World) (fuel : nat) (c : Request)
    (header : FileHeader) (tmpPath : string) :
  let serviceUrl := PostForm c "serviceUrl" in
  let serviceName := PostForm c "serviceName" in
  let createArgs :=
    createProofSetArgs serviceUrl serviceName (PostForm c "recordkeeper") in
  let txHash := parseTxHash (output (tool W 0 createArgs)) in
  let pollArgs := statusArgs serviceUrl serviceName txHash in
  let sout := output (tool W 1 pollArgs) in
  let upArgs := uploadFileArgs serviceUrl serviceName tmpPath in
  let rootCID := parseRootCID_colon (output (tool W 2 upArgs)) in
  FormFile c = Some header ->
  err (tool W 0 createArgs) = None ->
  txHash <> "" ->
  strings.Contains (strings.ToLower sout) createdMarker = true ->
  strings.Contains (strings.ToLower sout) idMarker = false ->
  createTemp W = inl tmpPath ->
  err (tool W 2 upArgs) = None ->
  parseProofSetID sout = Some ""
  /\ events (snd (orchestrateHandler W (S fuel) c start))
     = [Spawn createArgs; Spawn pollArgs; Spawn upArgs;
        Spawn (addRootsArgs serviceUrl serviceName "" rootCID)].
Proof.
  intros serviceUrl serviceName createArgs txHash pollArgs sout upArgs rootCID
    Hfile Hcreate Htx Hcreated Hnoid Htmp Hup.
  assert (Hparse : parseProofSetID sout = Some "").
  { unfold parseProofSetID. rewrite Hcreated.
    now rewrite extractProofSetID_absent. }
  split; [exact Hparse|].
  unfold orchestrateHandler. rewrite Hfile.
  rewrite (bind_run _ _ _ _ _ (CombinedOutput_run W _ start)).
  fold serviceUrl serviceName createArgs.
  change (spawned start) with 0. rewrite Hcreate. fold txHash.
  apply String.eqb_neq in Htx. rewrite Htx. fold pollArgs.
  rewrite (bind_run _ _ _ _ _
             (pollProofSet_created W pollArgs fuel
                (advance start 1 [Spawn createArgs]) "" Hparse)).
  rewrite Htmp.
  rewrite (bind_run _ _ _ _ _ (CombinedOutput_run W _ _)).
  fold upArgs. change (spawned _) with 2 at 1. rewrite Hup. fold rootCID.
  rewrite (bind_run _ _ _ _ _ (CombinedOutput_run W _ _)).
  match goal with
  | |- context [match err ?r with _ => _ end] => destruct (err r)
  end; reflexivity.
Qed.

(** X9, an instance: ["ProofSet Created: true"] alone. *)
Lemma created_without_identifier_witness :
  FormFile demoRequest = Some demoHeader
  /\ parseTxHash
       (output (tool unidentifiedWorld 0
                  (createProofSetArgs "http://pdp.local" "pdp" ""))) <> ""
  /\ strings.Contains
       (strings.ToLower (output (tool unidentifiedWorld 1 demoStatusArgs)))
       idMarker = false
  /\ events (snd (orchestrateHandler unidentifiedWorld 1 demoRequest start))
     = [Spawn (createProofSetArgs "http://pdp.local" "pdp" "");
        Spawn demoStatusArgs; Spawn demoUploadArgs;
        Spawn (addRootsArgs "http://pdp.local" "pdp" "" "baga6ea4seaq")].
Proof.
  assert (Htx : parseTxHash
                  (output (tool unidentifiedWorld 0
                             (createProofSetArgs "http://pdp.local" "pdp" "")))
                <> "") by discriminate.
  split; [reflexivity|]. split; [exact Htx|]. split; [reflexivity|].
  exact (proj2 (created_without_identifier unidentifiedWorld 0 demoRequest
                  demoHeader "/tmp/pdp-upload-1"
                  eq_refl eq_refl Htx eq_refl eq_refl eq_refl eq_refl)).
Defined.

(** * The data endpoints *)


(** X11. An [order] parameter other than ["ASC"] and ["DESC"] (another
    letter case, free text, an SQL fragment) is the same request as
    [order=DESC]: the same statements are sent and the same answer is
    given. *)
Theorem unknown_order_is_DESC (W : World) (D : Reads) (c : QueryContext) :
  DefaultQuery c "order" "DESC" <> "ASC" ->
  DefaultQuery c "order" "DESC" <> "DESC" ->
  queryDataHandler W D c = queryDataHandler W D (withQuery c "order" "DESC").
Proof.
  intros Hasc Hdesc. apply String.eqb_neq in Hasc, Hdesc.
  unfold queryDataHandler. rewrite Hasc, Hdesc.
  reflexivity.
Qed.

(** X11, an instance: [order=desc; DROP TABLE paper]. *)
Lemma unknown_order_is_DESC_witness :
  DefaultQuery (dataRequest "paper" [("order", "desc; DROP TABLE paper")])
    "order" "DESC" <> "ASC"
  /\ queryDataHandler retryWorld emptyReads
       (dataRequest "paper" [("order", "desc; DROP TABLE paper")])
     = queryDataHandler retryWorld emptyReads
         (withQuery (dataRequest "paper" [("order", "desc; DROP TABLE paper")])
            "order" "DESC").
Proof.
  assert (H1 : DefaultQuery
                 (dataRequest "paper" [("order", "desc; DROP TABLE paper")])
                 "order" "DESC" <> "ASC") by discriminate.
  split; [exact H1|].
  apply (unknown_order_is_DESC retryWorld emptyReads _ H1). discriminate.
Defined.

Lemma validTypes_cases (t : string) :
  In t validTypes ->
  t = "paper" \/ t = "genome" \/ t = "spectrum" \/ t = "file_cids".
Proof.
  intros [H | [H | [H | [H | []]]]]; symmetry in H; auto.
Qed.

Lemma validTypes_iff (t : string) :
  existsb (String.eqb t) validTypes = true <-> In t validTypes.
Proof.
  rewrite existsb_exists. split.
  - intros (x & Hin & Heq). apply String.eqb_eq in Heq. now subst x.
  - intros Hin. exists t. split; [exact Hin | apply String.eqb_refl].
Qed.

(** For a valid type, [queryDataHandler] answers with the outcome of the
    count and row statements of the table of that type. *)
Lemma queryDataHandler_valid (W : World) (D : Reads) (c : QueryContext) :
  let t := RouteParam c "type" in
  let sortBy := DefaultQuery c "sort" "created_at" in
  let sortOrder := usedOrder (DefaultQuery c "order" "DESC") in
  let limit := parseIntParam W c "limit" 20 in
  let offset := parseIntParam W c "offset" 0 in
  In t validTypes ->
  queryDataHandler W D c
  = answerOf limit offset sortBy sortOrder
      (selectRows W D t (filtersOf W c) (usedSort t sortBy) sortOrder
         limit offset).
Proof.
  intros t sortBy sortOrder limit offset Hin.
  unfold queryDataHandler, filtersOf. fold t. fold sortBy limit offset.
  change (if negb (DefaultQuery c "order" "DESC" =? "ASC")%string
             && negb (DefaultQuery c "order" "DESC" =? "DESC")%string
          then "DESC" else DefaultQuery c "order" "DESC") with sortOrder.
  clearbody sortBy sortOrder limit offset.
  destruct (validTypes_cases t Hin) as [Ht | [Ht | [Ht | Ht]]];
    clearbody t; subst t;
    cbn [existsb validTypes String.eqb Ascii.eqb Bool.eqb negb orb andb];
    cbv iota.
  - unfold queryPapers, selectRows, countThenSelect, answerOf, usedSort.
    cbn [String.eqb Ascii.eqb Bool.eqb sortFieldsOf defaultSortOf columnsOf].
    cbv iota.
    destruct (countRows D _ _); [reflexivity|].
    destruct (paperRows D _ _); [reflexivity|].
    destruct (scanRows _ _ _); reflexivity.
  - unfold queryGenomes, selectRows, countThenSelect, answerOf, usedSort.
    cbn [String.eqb Ascii.eqb Bool.eqb sortFieldsOf defaultSortOf columnsOf].
    cbv iota.
    destruct (countRows D _ _); [reflexivity|].
    destruct (genomeRows D _ _); [reflexivity|].
    destruct (scanRows _ _ _); reflexivity.
  - unfold querySpectrums, selectRows, countThenSelect, answerOf, usedSort.
    cbn [String.eqb Ascii.eqb Bool.eqb sortFieldsOf defaultSortOf columnsOf].
    cbv iota.
    destruct (countRows D _ _); [reflexivity|].
    destruct (spectrumRows D _ _); [reflexivity|].
    destruct (scanRows _ _ _); reflexivity.
  - unfold queryFileCids, selectRows, countThenSelect, answerOf, usedSort.
    cbn [String.eqb Ascii.eqb Bool.eqb sortFieldsOf defaultSortOf columnsOf].
    cbv iota.
    destruct (countRows D _ _); [reflexivity|].
    destruct (fileCidRows D _ _); [reflexivity|].
    destruct (scanRows _ _ _); reflexivity.
Qed.

(** The statements of a table: the count, and after it, when it succeeds,
    the row query with the limit and the offset as last arguments. *)
Lemma selectRows_sent (W : World) (D : Reads) (t : string) (f : Filters)
    (sortBy sortOrder : string) (limit offset : Z) :
  let countQuery := countQueryOf t (whereClauseOf f) in
  let query :=
    selectQuery (columnsOf t) t (whereClauseOf f) sortBy sortOrder (argIndex f) in
  let args := (queryArgs f ++ [SqlInt (Some limit); SqlInt (Some offset)])%list in
  snd (selectRows W D t f sortBy sortOrder limit offset)
  = match countRows D countQuery (queryArgs f) with
    | inl _ => [(countQuery, queryArgs f)]
    | inr _ => [(countQuery, queryArgs f); (query, args)]
    end.
Proof.
  intros countQuery query args. unfold selectRows, countThenSelect.
  fold countQuery query args.
  destruct (String.eqb t "paper");
    [|destruct (String.eqb t "genome"); [|destruct (String.eqb t "spectrum")]];
    (destruct (countRows D countQuery (queryArgs f)); [reflexivity|]).
  - destruct (paperRows D query args); [reflexivity|].
    destruct (scanRows _ _ _); reflexivity.
  - destruct (genomeRows D query args); [reflexivity|].
    destruct (scanRows _ _ _); reflexivity.
  - destruct (spectrumRows D query args); [reflexivity|].
    destruct (scanRows _ _ _); reflexivity.
  - destruct (fileCidRows D query args); [reflexivity|].
    destruct (scanRows _ _ _); reflexivity.
Qed.

Lemma snd_answerOf (limit offset : Z) (sortBy sortOrder : string)
    (res : QueryOutcome * list Statement) :
  snd (answerOf limit offset sortBy sortOrder res) = snd res.
Proof.
  unfold answerOf. destruct (fst res) as [e | [results total]]; reflexivity.
Qed.

(** The answer does not depend on the sort field but for its echo. *)
Lemma answerOf_sort (limit offset : Z) (sortBy sortBy' sortOrder : string)
    (res : QueryOutcome * list Statement) :
  Status (fst (answerOf limit offset sortBy sortOrder res))
  = Status (fst (answerOf limit offset sortBy' sortOrder res))
  /\ (forall key, key <> "sort" ->
        lookup key (Body (fst (answerOf limit offset sortBy sortOrder res)))
        = lookup key (Body (fst (answerOf limit offset sortBy' sortOrder res))))
  /\ (Status (fst (answerOf limit offset sortBy sortOrder res)) = StatusOK ->
      lookup "sort" (Body (fst (answerOf limit offset sortBy sortOrder res)))
      = Some (JObject [("by", JString sortBy); ("order", JString sortOrder)])).
Proof.
  unfold answerOf. destruct (fst res) as [e | [results total]]; cbn [fst Status Body].
  - split; [reflexivity|]. split; [reflexivity|]. discriminate.
  - split; [reflexivity|]. split; [|reflexivity].
    intros key Hkey. cbn [lookup].
    destruct (String.eqb "data" key); [reflexivity|].
    destruct (String.eqb "pagination" key); [reflexivity|].
    assert (Hne : String.eqb "sort" key = false)
      by (apply String.eqb_neq; congruence).
    rewrite Hne. reflexivity.
Qed.

Lemma usedSort_default (t : string) :
  usedSort t (defaultSortOf t) = defaultSortOf t.
Proof.
  unfold usedSort. now destruct (validSort _ _).
Qed.

(** X12. A [sort] parameter that is not a sort field of the table (for
    [file_cids] also the handler's own default, ["created_at"]) is not put
    into the statement: the statements sent and the rows answered are those
    of the request sorted by the default field of the table, [uploaded_at]
    for [file_cids] and [created_at] otherwise. Only the [sort.by] field of
    the answer differs: it repeats the requested field, not the one the rows
    are sorted by. *)
Theorem unknown_sort_is_default (W : World) (D : Reads) (c : QueryContext) :
  let t := RouteParam c "type" in
  let sortBy := DefaultQuery c "sort" "created_at" in
  In t validTypes ->
  validSort (sortFieldsOf t) sortBy = false ->
  let res := queryDataHandler W D c in
  let res' := queryDataHandler W D (withQuery c "sort" (defaultSortOf t)) in
  snd res = snd res'
  /\ Status (fst res) = Status (fst res')
  /\ (forall key, key <> "sort" ->
        lookup key (Body (fst res)) = lookup key (Body (fst res')))
  /\ (Status (fst res) = StatusOK ->
      exists sortOrder,
        lookup "sort" (Body (fst res))
        = Some (JObject [("by", JString sortBy); ("order", JString sortOrder)])).
Proof.
  intros t sortBy Hin Hsort res res'. subst res res'.
  rewrite (queryDataHandler_valid W D c Hin).
  rewrite (queryDataHandler_valid W D (withQuery c "sort" (defaultSortOf t)) Hin).
  fold t. fold sortBy.
  change (RouteParam (withQuery c "sort" (defaultSortOf t)) "type") with t.
  change (filtersOf W (withQuery c "sort" (defaultSortOf t)))
    with (filtersOf W c).
  change (DefaultQuery (withQuery c "sort" (defaultSortOf t)) "sort" "created_at")
    with (defaultSortOf t).
  change (DefaultQuery (withQuery c "sort" (defaultSortOf t)) "order" "DESC")
    with (DefaultQuery c "order" "DESC").
  change (parseIntParam W (withQuery c "sort" (defaultSortOf t)) "limit" 20)
    with (parseIntParam W c "limit" 20).
  change (parseIntParam W (withQuery c "sort" (defaultSortOf t)) "offset" 0)
    with (parseIntParam W c "offset" 0).
  rewrite usedSort_default.
  replace (usedSort t sortBy) with (defaultSortOf t)
    by (unfold usedSort; now rewrite Hsort).
  rewrite !snd_answerOf. split; [reflexivity|].
  destruct (answerOf_sort (parseIntParam W c "limit" 20)
              (parseIntParam W c "offset" 0) sortBy (defaultSortOf t)
              (usedOrder (DefaultQuery c "order" "DESC"))
              (selectRows W D t (filtersOf W c) (defaultSortOf t)
                 (usedOrder (DefaultQuery c "order" "DESC"))
                 (parseIntParam W c "limit" 20) (parseIntParam W c "offset" 0)))
    as (Hst & Hkeys & Hecho).
  split; [exact Hst|]. split; [exact Hkeys|].
  intros Hok. eexists. apply Hecho, Hok.
Qed.

(** X12, an instance: [GET /api/data/file_cids] with no [sort]. *)
Lemma unknown_sort_is_default_witness :
  validSort (sortFieldsOf "file_cids") "created_at" = false
  /\ snd (queryDataHandler retryWorld emptyReads (dataRequest "file_cids" []))
     = snd (queryDataHandler retryWorld emptyReads
              (dataRequest "file_cids" [("sort", "uploaded_at")]))
  /\ lookup "sort"
       (Body (fst (queryDataHandler retryWorld emptyReads
                     (dataRequest "file_cids" []))))
     = Some (JObject [("by", JString "created_at"); ("order", JString "DESC")]).
Proof.
  split; [reflexivity|].
  destruct (unknown_sort_is_default retryWorld emptyReads
              (dataRequest "file_cids" [])
              (or_intror (or_intror (or_intror (or_introl eq_refl)))) eq_refl)
    as (Hsent & _ & _ & _).
  split; [exact Hsent | reflexivity].
Defined.

(** ** Placeholders and arguments *)

Ltac filter_cases :=
  repeat match goal with
    | |- context [String.eqb (QueryOf ?c ?k) ""] =>
        destruct (String.eqb (QueryOf c k) "")
    | |- context [Atoi ?W ?s] => destruct (Atoi W s)
    end.

Ltac numbered_leaf :=
  unfold numbered;
  cbn [whereClauses queryArgs argIndex addFilter noFilters List.app List.length];
  split; [reflexivity|]; split; [reflexivity|];
  let j := fresh "j" in
  let Hj := fresh "Hj" in
  intros j Hj;
  repeat (destruct j as [|j]; [vm_compute; reflexivity|]);
  exfalso; lia.

Lemma paperFilters_numbered (W : World) (c : QueryContext) :
  numbered (paperFilters W c).
Proof. unfold paperFilters, addLike. filter_cases; numbered_leaf. Qed.

Lemma genomeFilters_numbered (c : QueryContext) : numbered (genomeFilters c).
Proof. unfold genomeFilters, addLike. filter_cases; numbered_leaf. Qed.

Lemma spectrumFilters_numbered (c : QueryContext) : numbered (spectrumFilters c).
Proof. unfold spectrumFilters, addLike. filter_cases; numbered_leaf. Qed.

Lemma fileCidFilters_numbered (c : QueryContext) : numbered (fileCidFilters c).
Proof. unfold fileCidFilters, addLike. filter_cases; numbered_leaf. Qed.

Lemma filtersOf_numbered (W : World) (c : QueryContext) :
  numbered (filtersOf W c).
Proof.
  unfold filtersOf.
  destruct (String.eqb _ "paper"); [apply paperFilters_numbered|].
  destruct (String.eqb _ "genome"); [apply genomeFilters_numbered|].
  destruct (String.eqb _ "spectrum"); [apply spectrumFilters_numbered|].
  apply fileCidFilters_numbered.
Qed.

Lemma selectQuery_suffix (columns table whereClause sortBy sortOrder : string)
    (n : nat) :
  strings.HasSuffix (selectQuery columns table whereClause sortBy sortOrder n)
    ("LIMIT $" ++ Itoa n ++ " OFFSET $" ++ Itoa (n + 1)) = true.
Proof.
  apply HasSuffix_iff.
  exists (LF ++ TAB ++ TAB ++ "SELECT " ++ columns ++ " " ++ LF
          ++ TAB ++ TAB ++ "FROM " ++ table ++ " " ++ whereClause ++ " " ++ LF
          ++ TAB ++ TAB ++ "ORDER BY " ++ sortBy ++ " " ++ sortOrder ++ " " ++ LF
          ++ TAB ++ TAB).
  unfold selectQuery. rewrite !append_assoc_s. reflexivity.
Qed.

(** The statements of a request with an invalid type, and of one with a
    valid type. *)
Lemma queryDataHandler_sent (W : World) (D : Reads) (c : QueryContext) :
  let t := RouteParam c "type" in
  let f := filtersOf W c in
  let countQuery := countQueryOf t (whereClauseOf f) in
  let query :=
    selectQuery (columnsOf t) t (whereClauseOf f)
      (usedSort t (DefaultQuery c "sort" "created_at"))
      (usedOrder (DefaultQuery c "order" "DESC")) (argIndex f) in
  let args :=
    (queryArgs f ++ [SqlInt (Some (parseIntParam W c "limit" 20));
                     SqlInt (Some (parseIntParam W c "offset" 0))])%list in
  snd (queryDataHandler W D c)
  = if existsb (String.eqb t) validTypes
    then match countRows D countQuery (queryArgs f) with
         | inl _ => [(countQuery, queryArgs f)]
         | inr _ => [(countQuery, queryArgs f); (query, args)]
         end
    else [].
Proof.
  intros t f countQuery query args.
  destruct (existsb (String.eqb t) validTypes) eqn:Hvalid.
  - apply validTypes_iff in Hvalid.
    rewrite (queryDataHandler_valid W D c Hvalid), snd_answerOf.
    apply selectRows_sent.
  - unfold queryDataHandler. fold t. rewrite Hvalid. reflexivity.
Qed.

(** X13. In the statements of the data queries every placeholder has its
    argument. The filters of each table give as many clauses as arguments,
    the [j]-th clause names [$j], and the next free placeholder is one more
    than the number of arguments. The row statement, sent second, ends with
    [LIMIT $n-1 OFFSET $n] where [n] is the number of its arguments, the
    last two of which are the limit and the offset; its other arguments are
    those of the count statement, sent first. *)
Theorem placeholders_match_arguments (W : World) (D : Reads) (c : QueryContext) :
  numbered (paperFilters W c) /\ numbered (genomeFilters c)
  /\ numbered (spectrumFilters c) /\ numbered (fileCidFilters c)
  /\ forall countQuery countArgs query args,
       snd (queryDataHandler W D c) = [(countQuery, countArgs); (query, args)] ->
       args = (countArgs ++ [SqlInt (Some (parseIntParam W c "limit" 20));
                             SqlInt (Some (parseIntParam W c "offset" 0))])%list
       /\ strings.HasSuffix query
            ("LIMIT $" ++ Itoa (List.length args - 1)
             ++ " OFFSET $" ++ Itoa (List.length args)) = true.
Proof.
  split; [apply paperFilters_numbered|].
  split; [apply genomeFilters_numbered|].
  split; [apply spectrumFilters_numbered|].
  split; [apply fileCidFilters_numbered|].
  intros countQuery countArgs query args Hsent.
  rewrite queryDataHandler_sent in Hsent.
  destruct (existsb _ validTypes); [|discriminate Hsent].
  destruct (countRows D _ _); [discriminate Hsent|].
  injection Hsent as _ Hargs Hquery Hargs'. subst countArgs.
  split; [now rewrite <- Hargs'|].
  destruct (filtersOf_numbered W c) as (_ & Hnext & _).
  rewrite <- Hargs', <- Hquery, List.length_app, Hnext. cbn [List.length].
  replace (List.length (queryArgs (filtersOf W c)) + 2 - 1)
    with (S (List.length (queryArgs (filtersOf W c)))) by lia.
  replace (List.length (queryArgs (filtersOf W c)) + 2)
    with (S (List.length (queryArgs (filtersOf W c))) + 1) by lia.
  apply selectQuery_suffix.
Qed.

(** ** Request values are arguments *)

Lemma negb_eq (a b : bool) : negb a = negb b -> a = b.
Proof. now destruct a, b. Qed.

(** A filter by pattern adds a clause that depends on whether a value is
    given, not on the value. *)
Lemma addLike_shape (v1 v2 : string) (clause : nat -> string) (f1 f2 : Filters) :
  negb (String.eqb v1 "") = negb (String.eqb v2 "") ->
  whereClauses f1 = whereClauses f2 -> argIndex f1 = argIndex f2 ->
  whereClauses (addLike v1 clause f1) = whereClauses (addLike v2 clause f2)
  /\ argIndex (addLike v1 clause f1) = argIndex (addLike v2 clause f2).
Proof.
  intros Hgiven Hcl Hidx. apply negb_eq in Hgiven. unfold addLike.
  rewrite Hgiven. destruct (String.eqb v2 ""); [now split|].
  cbn [addFilter whereClauses argIndex]. now rewrite Hcl, Hidx.
Qed.

(** The clauses of a request depend on which filters it applies only. *)
Lemma shape_determines_clauses (W : World) (c1 c2 : QueryContext) :
  RouteParam c1 "type" = RouteParam c2 "type" ->
  filterShape W c1 = filterShape W c2 ->
  whereClauses (filtersOf W c1) = whereClauses (filtersOf W c2)
  /\ argIndex (filtersOf W c1) = argIndex (filtersOf W c2).
Proof.
  intros Htype. unfold filterShape, filtersOf. rewrite <- Htype.
  destruct (String.eqb _ "paper");
    [|destruct (String.eqb _ "genome"); [|destruct (String.eqb _ "spectrum")]];
    intros Hshape.
  - injection Hshape as Hsearch Hyear Hjournal Hkeyword.
    unfold paperFilters.
    destruct (addLike_shape _ _
                (fun i => "(title ILIKE $" ++ Itoa i ++ " OR journal ILIKE $"
                          ++ Itoa i ++ ")")
                noFilters noFilters Hsearch eq_refl eq_refl) as [Hc1 Hi1].
    set (f1 := addLike (QueryOf c1 "search") _ noFilters) in *.
    set (f2 := addLike (QueryOf c2 "search") _ noFilters) in *.
    clearbody f1 f2.
    assert (Hy : whereClauses
                   (if String.eqb (QueryOf c1 "year") "" then f1
                    else match Atoi W (QueryOf c1 "year") with
                         | Some year =>
                             addFilter (fun i => "year = $" ++ Itoa i)
                               (SqlInt (Some year)) f1
                         | None => f1
                         end)
                 = whereClauses
                     (if String.eqb (QueryOf c2 "year") "" then f2
                      else match Atoi W (QueryOf c2 "year") with
                           | Some year =>
                               addFilter (fun i => "year = $" ++ Itoa i)
                                 (SqlInt (Some year)) f2
                           | None => f2
                           end)
                 /\ argIndex
                      (if String.eqb (QueryOf c1 "year") "" then f1
                       else match Atoi W (QueryOf c1 "year") with
                            | Some year =>
                                addFilter (fun i => "year = $" ++ Itoa i)
                                  (SqlInt (Some year)) f1
                            | None => f1
                            end)
                    = argIndex
                        (if String.eqb (QueryOf c2 "year") "" then f2
                         else match Atoi W (QueryOf c2 "year") with
                              | Some year =>
                                  addFilter (fun i => "year = $" ++ Itoa i)
                                    (SqlInt (Some year)) f2
                              | None => f2
                              end)).
    { destruct (String.eqb (QueryOf c1 "year") ""),
        (String.eqb (QueryOf c2 "year") ""),
        (Atoi W (QueryOf c1 "year")), (Atoi W (QueryOf c2 "year"));
        try discriminate Hyear;
        cbn [addFilter whereClauses argIndex]; rewrite ?Hc1, ?Hi1; now split. }
    destruct Hy as [Hc2 Hi2].
    match goal with
    | |- context [addLike (QueryOf c1 "journal") ?cl ?g1] =>
        match goal with
        | |- context [addLike (QueryOf c2 "journal") cl ?g2] =>
            destruct (addLike_shape _ _ cl g1 g2 Hjournal Hc2 Hi2) as [Hc3 Hi3];
            set (f3 := addLike (QueryOf c1 "journal") cl g1) in *;
            set (f4 := addLike (QueryOf c2 "journal") cl g2) in *
        end
    end.
    clearbody f3 f4. apply negb_eq in Hkeyword. rewrite Hkeyword.
    destruct (String.eqb (QueryOf c2 "keyword") ""); [now split|].
    cbn [addFilter whereClauses argIndex]. now rewrite Hc3, Hi3.
  - injection Hshape as Hsearch Horganism Hassembly.
    unfold genomeFilters.
    apply (addLike_shape _ _ _ _ _ Hassembly);
      apply (addLike_shape _ _ _ _ _ Horganism);
      apply (addLike_shape _ _ _ _ _ Hsearch); reflexivity.
  - injection Hshape as Hsearch Hcompound Htechnique.
    unfold spectrumFilters.
    apply (addLike_shape _ _ _ _ _ Htechnique);
      apply (addLike_shape _ _ _ _ _ Hcompound);
      apply (addLike_shape _ _ _ _ _ Hsearch); reflexivity.
  - injection Hshape as Hsearch.
    unfold fileCidFilters.
    apply (addLike_shape _ _ _ _ _ Hsearch); reflexivity.
Qed.

(** X14. The values of a request are never written into the text of a
    statement. Two requests for the same type that apply the same filters
    (whatever the values searched for) and are sorted by the same field in
    the same order send statements with the same text, whatever the database
    answers and whatever the limits: values, limit and offset travel as
    arguments only. *)
Theorem filter_values_are_bound (W : World) (D1 D2 : Reads)
    (c1 c2 : QueryContext) :
  let t := RouteParam c1 "type" in
  t = RouteParam c2 "type" ->
  filterShape W c1 = filterShape W c2 ->
  usedSort t (DefaultQuery c1 "sort" "created_at")
  = usedSort t (DefaultQuery c2 "sort" "created_at") ->
  usedOrder (DefaultQuery c1 "order" "DESC")
  = usedOrder (DefaultQuery c2 "order" "DESC") ->
  forall i s1 s2,
    nth_error (snd (queryDataHandler W D1 c1)) i = Some s1 ->
    nth_error (snd (queryDataHandler W D2 c2)) i = Some s2 ->
    fst s1 = fst s2.
Proof.
  intros t Htype Hshape Hsort Horder i s1 s2.
  rewrite !queryDataHandler_sent. fold t. rewrite <- Htype.
  destruct (shape_determines_clauses W c1 c2 Htype Hshape) as [Hcl Hidx].
  assert (Hwhere : whereClauseOf (filtersOf W c1) = whereClauseOf (filtersOf W c2))
    by (unfold whereClauseOf; now rewrite Hcl).
  rewrite <- Hsort, <- Horder, <- Hwhere, <- Hidx.
  destruct (existsb _ validTypes); [|now destruct i].
  destruct (countRows D1 _ _), (countRows D2 _ _);
    destruct i as [|[|[|i]]]; cbn [nth_error];
    intros H1 H2; try discriminate H1; try discriminate H2;
    injection H1 as <-; injection H2 as <-; reflexivity.
Qed.

(** X14, an instance: a search for [%] and one for a quote and a
    statement. *)
Lemma filter_values_are_bound_witness :
  filterShape retryWorld (dataRequest "genome" [("search", "%")])
  = filterShape retryWorld
      (dataRequest "genome" [("search", "'; DROP TABLE genome; --")])
  /\ fst (nth 1 (snd (queryDataHandler retryWorld emptyReads
                        (dataRequest "genome" [("search", "%")])))
            ("", []))
     = fst (nth 1 (snd (queryDataHandler retryWorld emptyReads
                          (dataRequest "genome"
                             [("search", "'; DROP TABLE genome; --")])))
              ("", [])).
Proof.
  split; [reflexivity|].
  exact (filter_values_are_bound retryWorld emptyReads emptyReads
           (dataRequest "genome" [("search", "%")])
           (dataRequest "genome" [("search", "'; DROP TABLE genome; --")])
           eq_refl eq_refl eq_refl eq_refl 1 _ _ eq_refl eq_refl).
Defined.

(** ** Answers of the data endpoints *)

(** The loop over the rows keeps their order and stops at the first row
    that fails to scan. *)
Lemma scanRows_all {A : Type} (toMap : A -> list (string * JSON))
    (vals : list A) (acc : list JSON) :
  scanRows toMap (map inr vals) acc
  = inr (acc ++ map (fun r => JObject (toMap r)) vals)%list.
Proof.
  revert acc; induction vals as [|v vals IH]; intros acc; cbn [map scanRows].
  - now rewrite List.app_nil_r.
  - rewrite IH, <- List.app_assoc. reflexivity.
Qed.

Lemma scanRows_fails {A : Type} (toMap : A -> list (string * JSON))
    (vals : list A) (e : string) (rest : list (string + A)) (acc : list JSON) :
  scanRows toMap (map inr vals ++ inl e :: rest)%list acc = inl e.
Proof.
  revert acc; induction vals as [|v vals IH]; intros acc; cbn [map List.app scanRows].
  - reflexivity.
  - apply IH.
Qed.

(** Every list of rows is of one of these two forms. *)
Lemma rows_split {A : Type} (rows : list (string + A)) :
  (exists vals, rows = map inr vals)
  \/ exists vals e rest, rows = (map inr vals ++ inl e :: rest)%list.
Proof.
  induction rows as [|[e | v] rows IH].
  - left. now exists [].
  - right. now exists [], e, rows.
  - destruct IH as [[vals ->] | (vals & e & rest & ->)].
    + left. now exists (v :: vals).
    + right. now exists (v :: vals), e, rest.
Qed.

(** What the count and row statements give by what the database answers. *)
Lemma countThenSelect_outcome {A : Type} (D : Reads)
    (rowsOf : string -> list SqlArg -> Rows A)
    (toMap : A -> list (string * JSON)) (columns table : string) (f : Filters)
    (sortBy sortOrder : string) (limit offset : Z) :
  let countQuery := countQueryOf table (whereClauseOf f) in
  let query :=
    selectQuery columns table (whereClauseOf f) sortBy sortOrder (argIndex f) in
  let args := (queryArgs f ++ [SqlInt (Some limit); SqlInt (Some offset)])%list in
  let outcome :=
    fst (countThenSelect D rowsOf toMap columns table f sortBy sortOrder
           limit offset) in
  (forall e, countRows D countQuery (queryArgs f) = inl e -> outcome = inl e)
  /\ (forall total, countRows D countQuery (queryArgs f) = inr total ->
      (forall e, rowsOf query args = inl e -> outcome = inl e)
      /\ (forall rows vals,
            rowsOf query args = inr rows -> delivered rows = map inr vals ->
            outcome = inr (map (fun r => JObject (toMap r)) vals, total))
      /\ (forall rows vals e rest,
            rowsOf query args = inr rows ->
            delivered rows = (map inr vals ++ inl e :: rest)%list ->
            outcome = inl e)).
Proof.
  intros countQuery query args outcome. subst outcome.
  unfold countThenSelect. fold countQuery query args.
  split.
  - intros e ->. reflexivity.
  - intros total ->. split; [|split].
    + intros e ->. reflexivity.
    + intros rows vals -> ->. now rewrite scanRows_all.
    + intros rows vals e rest -> ->. now rewrite scanRows_fails.
Qed.

(** X15. The answers of [queryDataHandler]. A type other than the four
    valid ones is answered 400 and nothing is sent to the database. For a
    valid type the count statement is sent first, with the arguments of the
    filters; when it fails the answer is 500 with its error and the row
    statement is never sent. Otherwise the row statement is sent second and
    the answer is 200 or 500; a 200 carries the total of the count statement
    (which the limit does not bound), the limit and the offset used, and a
    count that is the number of rows in [data], which is [null], not an
    empty array, when there is no row. *)
Theorem query_answers (W : World) (D : Reads) (c : QueryContext) :
  let t := RouteParam c "type" in
  let limit := parseIntParam W c "limit" 20 in
  let offset := parseIntParam W c "offset" 0 in
  let f := filtersOf W c in
  let countQuery := countQueryOf t (whereClauseOf f) in
  let res := queryDataHandler W D c in
  (~ In t validTypes -> res = (badRequest invalidTypeMessage, []))
  /\ (In t validTypes ->
      match countRows D countQuery (queryArgs f) with
      | inl e => res = (serverError e, [(countQuery, queryArgs f)])
      | inr total =>
          (exists query,
             snd res
             = [(countQuery, queryArgs f);
                (query, (queryArgs f ++ [SqlInt (Some limit);
                                         SqlInt (Some offset)])%list)])
          /\ (Status (fst res) = StatusOK
              \/ Status (fst res) = StatusInternalServerError)
          /\ (Status (fst res) = StatusOK ->
              exists results,
                lookup "data" (Body (fst res)) = Some (jsonSlice results)
                /\ (results = [] -> lookup "data" (Body (fst res)) = Some JNull)
                /\ lookup "pagination" (Body (fst res))
                   = Some (JObject
                             [("total", JInt total); ("limit", JInt limit);
                              ("offset", JInt offset);
                              ("count", JInt (Z.of_nat (List.length results)))]))
      end).
Proof.
  intros t limit offset f countQuery res. subst res. split.
  - intros Hinvalid. unfold queryDataHandler. fold t.
    destruct (existsb (String.eqb t) validTypes) eqn:Hvalid; [|reflexivity].
    apply validTypes_iff in Hvalid. contradiction.
  - intros Hvalid.
    assert (Hsent := queryDataHandler_sent W D c). cbv zeta in Hsent.
    fold t f countQuery limit offset in Hsent.
    rewrite (proj2 (validTypes_iff t) Hvalid) in Hsent.
    rewrite (queryDataHandler_valid W D c Hvalid) in Hsent |- *.
    fold t f limit offset in Hsent |- *.
    set (sortBy := DefaultQuery c "sort" "created_at") in *.
    set (sortOrder := usedOrder (DefaultQuery c "order" "DESC")) in *.
    set (rows := selectRows W D t f (usedSort t sortBy) sortOrder limit offset)
      in *.
    assert (Hcount : forall e,
               countRows D countQuery (queryArgs f) = inl e -> fst rows = inl e).
    { intros e He. subst rows. unfold selectRows.
      destruct (String.eqb t "paper");
        [|destruct (String.eqb t "genome");
          [|destruct (String.eqb t "spectrum")]];
        apply countThenSelect_outcome; exact He. }
    assert (Htotal : forall total results total',
               countRows D countQuery (queryArgs f) = inr total ->
               fst rows = inr (results, total') -> total' = total).
    { intros total results total' He. subst rows.
      unfold selectRows, countThenSelect. fold countQuery. rewrite He.
      destruct (String.eqb t "paper");
        [|destruct (String.eqb t "genome");
          [|destruct (String.eqb t "spectrum")]];
        match goal with
        | |- context [match ?r with inl _ => _ | inr _ => _ end] => destruct r
        end; cbn [fst]; try discriminate;
        destruct (scanRows _ _ _); cbn [fst]; try discriminate;
        intros H; now injection H. }
    destruct (countRows D countQuery (queryArgs f)) as [e | total] eqn:He.
    + unfold answerOf in *. rewrite (Hcount e eq_refl) in *.
      cbn [snd] in Hsent. now rewrite Hsent.
    + split; [eexists; exact Hsent|].
      unfold answerOf.
      destruct (fst rows) as [e | [results total']] eqn:Hrows; cbn [fst Status].
      * split; [now right|]. discriminate.
      * split; [now left|]. intros _. exists results.
        rewrite (Htotal total results total' eq_refl eq_refl).
        split; [reflexivity|]. split; [|reflexivity].
        intros ->. reflexivity.
Qed.

Lemma countThenSelect_rows_read {A : Type} (D : Reads)
    (rowsOf : string -> list SqlArg -> Rows A)
    (toMap : A -> list (string * JSON)) (columns table : string) (f : Filters)
    (sortBy sortOrder : string) (limit offset total : Z) :
  countRows D (countQueryOf table (whereClauseOf f)) (queryArgs f) = inr total ->
  answersRowsRead
    (rowsOf (selectQuery columns table (whereClauseOf f) sortBy sortOrder
               (argIndex f))
       (queryArgs f ++ [SqlInt (Some limit); SqlInt (Some offset)])%list)
    toMap total
    (fst (countThenSelect D rowsOf toMap columns table f sortBy sortOrder
            limit offset)).
Proof.
  intros Hcount.
  destruct (countThenSelect_outcome D rowsOf toMap columns table f sortBy
              sortOrder limit offset) as [_ Hrows].
  destruct (Hrows total Hcount) as (Herr & Hall & Hfail).
  unfold answersRowsRead.
  destruct (rowsOf _ _) as [e | rows]; [now apply Herr|].
  split.
  - intros vals Hvals. now apply (Hall rows).
  - intros vals e rest Hvals. now apply (Hfail rows vals e rest).
Qed.

(** X16. When the count succeeds, each of the four query functions answers
    for the rows that its row statement delivers: all of them, as maps in
    the order of the database and with the total of the count, or none of
    them, with the error of the statement or of the first row that cannot
    be scanned, whatever rows were scanned before it. An error that ends the
    reading early ([rows.Err()]) is never looked at: the rows delivered
    before it are returned as the whole result, without an error. The row
    statement selects the columns of the table, sorted by the requested
    field when it is one of the table's sort fields and by the default field
    otherwise. *)
Theorem rows_in_database_order (W : World) (D : Reads) (c : QueryContext)
    (limit offset : Z) (sortBy sortOrder : string) :
  let args := fun f =>
    (queryArgs f ++ [SqlInt (Some limit); SqlInt (Some offset)])%list in
  let query := fun t f =>
    selectQuery (columnsOf t) t (whereClauseOf f) (usedSort t sortBy) sortOrder
      (argIndex f) in
  let counted := fun t f total =>
    countRows D (countQueryOf t (whereClauseOf f)) (queryArgs f) = inr total in
  (forall total, counted "paper" (paperFilters W c) total ->
     answersRowsRead
       (paperRows D (query "paper" (paperFilters W c)) (args (paperFilters W c)))
       jsonPaper total
       (fst (queryPapers W D c limit offset sortBy sortOrder)))
  /\ (forall total, counted "genome" (genomeFilters c) total ->
        answersRowsRead
          (genomeRows D (query "genome" (genomeFilters c))
             (args (genomeFilters c)))
          jsonGenome total
          (fst (queryGenomes D c limit offset sortBy sortOrder)))
  /\ (forall total, counted "spectrum" (spectrumFilters c) total ->
        answersRowsRead
          (spectrumRows D (query "spectrum" (spectrumFilters c))
             (args (spectrumFilters c)))
          (jsonSpectrum W) total
          (fst (querySpectrums W D c limit offset sortBy sortOrder)))
  /\ (forall total, counted "file_cids" (fileCidFilters c) total ->
        answersRowsRead
          (fileCidRows D (query "file_cids" (fileCidFilters c))
             (args (fileCidFilters c)))
          jsonFileCid total
          (fst (queryFileCids D c limit offset sortBy sortOrder))).
Proof.
  intros args query counted.
  split; [|split; [|split]]; intros total Hcount.
  - apply (countThenSelect_rows_read D (paperRows D) jsonPaper
             (columnsOf "paper") "paper" (paperFilters W c)
             (usedSort "paper" sortBy) sortOrder limit offset total Hcount).
  - apply (countThenSelect_rows_read D (genomeRows D) jsonGenome
             (columnsOf "genome") "genome" (genomeFilters c)
             (usedSort "genome" sortBy) sortOrder limit offset total Hcount).
  - apply (countThenSelect_rows_read D (spectrumRows D) (jsonSpectrum W)
             (columnsOf "spectrum") "spectrum" (spectrumFilters c)
             (usedSort "spectrum" sortBy) sortOrder limit offset total Hcount).
  - apply (countThenSelect_rows_read D (fileCidRows D) jsonFileCid
             (columnsOf "file_cids") "file_cids" (fileCidFilters c)
             (usedSort "file_cids" sortBy) sortOrder limit offset total Hcount).
Qed.

(** X17. [listCIDsHandler] sends one statement, whose only argument is the
    [filename] parameter (the empty text when it is absent, which the
    statement itself reads as no filter). A failure of the statement is
    answered 500 with its error. Otherwise the handler answers for the
    entries that the statement delivers: all of them, in the order of the
    database, with 200 ([null] when there is none), or none of them, a row
    that cannot be scanned being answered 500 with its error, whatever rows
    were scanned before it. An error that ends the reading early
    ([rows.Err()]) is never looked at: the entries delivered before it are
    answered with 200 as if they were the whole table. *)
Theorem listCIDs_all_or_nothing (D : Reads) (c : QueryContext) :
  let filename := QueryOf c "filename" in
  let res := listCIDsHandler D c in
  snd res = [(selectCIDs, [SqlText filename])]
  /\ match entryRows D selectCIDs [SqlText filename] with
     | inl e => fst res = (StatusInternalServerError, JObject (errorBody e))
     | inr {| delivered := rows; readError := lost |} =>
         (rows = [] -> fst res = (StatusOK, JNull))
         /\ (forall entries, rows = map inr entries ->
               fst res
               = (StatusOK,
                  jsonSlice (map (fun e => JObject (jsonEntry e)) entries)))
         /\ (forall entries e rest,
               rows = (map inr entries ++ inl e :: rest)%list ->
               fst res = (StatusInternalServerError, JObject (errorBody e)))
     end.
Proof.
  intros filename res. subst res. unfold listCIDsHandler. fold filename.
  destruct (entryRows D selectCIDs [SqlText filename]) as [e | [rows lost]].
  - now split.
  - cbn [delivered].
    split; [now destruct (scanRows jsonEntry rows [])|].
    split; [|split].
    + intros ->. reflexivity.
    + intros entries ->. now rewrite scanRows_all.
    + intros entries e rest ->. now rewrite scanRows_fails.
Qed.

(** A row that cannot be scanned hides the entry scanned before it. *)
Example listCIDs_broken_row :
  fst (listCIDsHandler brokenRowReads (dataRequest "" []))
  = (StatusInternalServerError, JObject (errorBody "can't scan into dest[2]")).
Proof. reflexivity. Qed.

(** A connection lost after the first of two entries goes unnoticed: the
    one entry is answered with 200. *)
Example listCIDs_interrupted :
  entryRows interruptedReads selectCIDs [SqlText ""]
  = inr {| delivered := [inr demoEntry]; readError := Some "unexpected EOF" |}
  /\ fst (listCIDsHandler interruptedReads (dataRequest "" []))
     = (StatusOK, JArray [JObject (jsonEntry demoEntry)]).
Proof. split; reflexivity. Qed.

(** X18. The answers of [getDataByIDHandler]. An empty CID or a type other
    than the four valid ones is answered 400 and nothing is sent to the
    database. Otherwise exactly one statement is sent, the lookup of the
    table of the type, with the CID as its only argument, and the answer
    follows the lookup of that type: its row under [data] with 200; 404
    ["Record not found"] when its error contains ["no rows"] anywhere
    (the text of the error is then not shown); 500 with the error
    otherwise. *)
Theorem lookup_answers (W : World) (D : Reads) (c : QueryContext) :
  let t := RouteParam c "type" in
  let cid := RouteParam c "cid" in
  let res := getDataByIDHandler W D c in
  let answer := fun (found : Lookup) =>
    (match fst found with
     | inr row => {| Status := StatusOK; Body := [("data", JObject row)] |}
     | inl e =>
         if strings.Contains e "no rows"
         then {| Status := StatusNotFound; Body := errorBody "Record not found" |}
         else serverError e
     end, snd found) in
  (cid = "" -> res = (badRequest "CID is required", []))
  /\ (cid <> "" -> ~ In t validTypes -> res = (badRequest invalidTypeMessage, []))
  /\ (cid <> "" ->
      (t = "paper" -> res = answer (getPaperByCID D cid))
      /\ (t = "genome" -> res = answer (getGenomeByCID D cid))
      /\ (t = "spectrum" -> res = answer (getSpectrumByCID W D cid))
      /\ (t = "file_cids" -> res = answer (getFileCidByCID D cid)))
  /\ (Status (fst res) = StatusBadRequest <-> cid = "" \/ ~ In t validTypes)
  /\ (Status (fst res) <> StatusBadRequest ->
      exists sql,
        snd res = [(sql, [SqlText cid])]
        /\ strings.HasPrefix sql "SELECT " = true
        /\ strings.HasSuffix sql (" FROM " ++ t ++ " WHERE cid = $1") = true).
Proof.
  intros t cid res answer. subst res answer.
  unfold getDataByIDHandler. fold t cid.
  split; [intros ->; reflexivity|].
  split.
  { intros Hcid Hinvalid. apply String.eqb_neq in Hcid. rewrite Hcid.
    destruct (String.eqb t "paper") eqn:H1;
      [apply String.eqb_eq in H1; rewrite H1 in Hinvalid;
       exfalso; apply Hinvalid; cbn; auto|].
    destruct (String.eqb t "genome") eqn:H2;
      [apply String.eqb_eq in H2; rewrite H2 in Hinvalid;
       exfalso; apply Hinvalid; cbn; auto|].
    destruct (String.eqb t "spectrum") eqn:H3;
      [apply String.eqb_eq in H3; rewrite H3 in Hinvalid;
       exfalso; apply Hinvalid; cbn; auto|].
    destruct (String.eqb t "file_cids") eqn:H4;
      [apply String.eqb_eq in H4; rewrite H4 in Hinvalid;
       exfalso; apply Hinvalid; cbn; auto|].
    reflexivity. }
  split.
  { intros Hcid. apply String.eqb_neq in Hcid. rewrite Hcid.
    split; [|split; [|split]]; intros ->; cbn [String.eqb Ascii.eqb Bool.eqb];
      cbv iota.
    - unfold getPaperByCID. cbn [fst snd].
      destruct (paperRow D _ _); [destruct (strings.Contains _ _)|]; reflexivity.
    - unfold getGenomeByCID. cbn [fst snd].
      destruct (genomeRow D _ _); [destruct (strings.Contains _ _)|]; reflexivity.
    - unfold getSpectrumByCID. cbn [fst snd].
      destruct (spectrumRow D _ _); [destruct (strings.Contains _ _)|]; reflexivity.
    - unfold getFileCidByCID. cbn [fst snd].
      destruct (fileCidRow D _ _); [destruct (strings.Contains _ _)|]; reflexivity. }
  destruct (String.eqb cid "") eqn:Hcid.
  { apply String.eqb_eq in Hcid. split; [split; auto|].
    intros H. now contradiction H. }
  apply String.eqb_neq in Hcid.
  destruct (String.eqb t "paper") eqn:H1.
  { apply String.eqb_eq in H1. rewrite H1. unfold getPaperByCID.
    destruct (paperRow D _ _); [destruct (strings.Contains _ _)|];
      cbn [fst snd Status serverError];
      (split; [split; [discriminate | intros [? | Hn]; [contradiction|];
                       exfalso; apply Hn; cbn; auto]|]);
      intros _; eexists; (split; [reflexivity|]); split; reflexivity. }
  destruct (String.eqb t "genome") eqn:H2.
  { apply String.eqb_eq in H2. rewrite H2. unfold getGenomeByCID.
    destruct (genomeRow D _ _); [destruct (strings.Contains _ _)|];
      cbn [fst snd Status serverError];
      (split; [split; [discriminate | intros [? | Hn]; [contradiction|];
                       exfalso; apply Hn; cbn; auto]|]);
      intros _; eexists; (split; [reflexivity|]); split; reflexivity. }
  destruct (String.eqb t "spectrum") eqn:H3.
  { apply String.eqb_eq in H3. rewrite H3. unfold getSpectrumByCID.
    destruct (spectrumRow D _ _); [destruct (strings.Contains _ _)|];
      cbn [fst snd Status serverError];
      (split; [split; [discriminate | intros [? | Hn]; [contradiction|];
                       exfalso; apply Hn; cbn; auto]|]);
      intros _; eexists; (split; [reflexivity|]); split; reflexivity. }
  destruct (String.eqb t "file_cids") eqn:H4.
  { apply String.eqb_eq in H4. rewrite H4. unfold getFileCidByCID.
    destruct (fileCidRow D _ _); [destruct (strings.Contains _ _)|];
      cbn [fst snd Status serverError];
      (split; [split; [discriminate | intros [? | Hn]; [contradiction|];
                       exfalso; apply Hn; cbn; auto]|]);
      intros _; eexists; (split; [reflexivity|]); split; reflexivity. }
  cbn [fst snd Status badRequest]. split.
  - split; [|reflexivity]. intros _. right.
    intros Hin. apply validTypes_cases in Hin.
    apply String.eqb_neq in H1, H2, H3, H4.
    destruct Hin as [? | [? | [? | ?]]]; contradiction.
  - intros H. now contradiction H.
Qed.

(** * The JavaScript helpers *)

Lemma callSchedule_S (n i delayMs : nat) :
  callSchedule (S (S n)) i delayMs
  = Called i :: Waited delayMs :: callSchedule (S n) (S i) delayMs.
Proof. reflexivity. Qed.

Lemma callSchedule_waited (n i delayMs : nat) :
  waitedMs (callSchedule n i delayMs) = (n - 1) * delayMs.
Proof.
  revert i; induction n as [|[|n] IH]; intros i; [reflexivity | reflexivity |].
  rewrite callSchedule_S.
  change (waitedMs (Called i :: Waited delayMs :: callSchedule (S n) (S i) delayMs))
    with (delayMs + waitedMs (callSchedule (S n) (S i) delayMs)).
  rewrite IH. lia.
Qed.

(** The loop from the [i]-th call on, when the iterations left are those up
    to [attempts]. *)
Lemma retryLoop_outcome {E A : Type} (fn : nat -> E + A)
    (attempts delayMs : nat) (left i : nat) (lastError : option E) :
  i + left = S attempts ->
  exists n,
    n <= left
    /\ snd (retryLoop fn attempts delayMs i left lastError)
       = callSchedule n i delayMs
    /\ (forall j, j + 1 < n -> exists e, fn (i + j) = inl e)
    /\ match fst (retryLoop fn attempts delayMs i left lastError) with
       | Resolved a => 1 <= n /\ fn (i + n - 1) = inr a
       | Rejected thrown =>
           n = left
           /\ thrown = match left with
                       | 0 => lastError
                       | S _ => match fn attempts with
                                | inl e => Some e
                                | inr _ => None
                                end
                       end
           /\ (1 <= left -> exists e, fn attempts = inl e)
       end.
Proof.
  revert i lastError; induction left as [|left IH]; intros i lastError Hi.
  - exists 0. cbn. split; [lia|]. split; [reflexivity|].
    split; [intros j Hj; lia|]. split; [reflexivity|]. split; [reflexivity|].
    intros H; lia.
  - cbn [retryLoop]. destruct (fn i) as [e | a] eqn:Hfn.
    + assert (Hnext : S i + left = S attempts) by lia.
      destruct (IH (S i) (Some e) Hnext) as (n & Hn & Hev & Hfail & Hend).
      destruct (retryLoop fn attempts delayMs (S i) left (Some e))
        as [settled events] eqn:Hloop.
      cbn [fst snd] in *. exists (S n). split; [lia|].
      split.
      { destruct left as [|left].
        - assert (n = 0) by lia. subst n.
          assert (Hlast : i = attempts) by lia.
          rewrite Hlast, Nat.ltb_irrefl, Hev. reflexivity.
        - assert (Hlt : (i <? attempts) = true) by (apply Nat.ltb_lt; lia).
          rewrite Hlt. cbn [List.app].
          destruct n as [|n].
          + exfalso. destruct settled as [a | thrown].
            * destruct Hend as [H _]; lia.
            * destruct Hend as [H _]; lia.
          + rewrite callSchedule_S, Hev. reflexivity. }
      split.
      { intros [|j] Hj.
        - rewrite Nat.add_0_r. now exists e.
        - replace (i + S j) with (S i + j) by lia. apply Hfail. lia. }
      destruct settled as [a | thrown].
      * destruct Hend as [Hpos Hval]. split; [lia|].
        replace (i + S n - 1) with (S i + n - 1) by lia. exact Hval.
      * destruct Hend as (Hnl & Hthrown & Hlast). split; [lia|].
        destruct left as [|left].
        -- assert (Hi' : i = attempts) by lia.
           split; [now rewrite <- Hi', Hfn, Hthrown|].
           intros _. exists e. now rewrite <- Hi'.
        -- split; [exact Hthrown|]. intros _. apply Hlast. lia.
    + exists 1. cbn [fst snd]. split; [lia|]. split; [reflexivity|].
      split; [intros j Hj; lia|]. split; [lia|].
      replace (i + 1 - 1) with i by lia. exact Hfn.
Qed.

(** X19. [retryAsync] calls the operation [n] times, [n <= attempts], one
    call after the other and [delayMs] apart (so it waits [(n - 1) * delayMs]
    in all, and not after the last call): every call but the last failed.
    Either the last call succeeded and its value is returned at once, or all
    [attempts] calls failed and the error of the last one is thrown (not the
    first, and no summary of the attempts). With [attempts = 0] the
    operation is never called and [undefined] is thrown. *)
Theorem retryAsync_outcome {E A : Type} (fn : nat -> E + A)
    (attempts delayMs : nat) :
  exists n,
    n <= attempts
    /\ snd (retryAsync fn attempts delayMs) = callSchedule n 1 delayMs
    /\ waitedMs (snd (retryAsync fn attempts delayMs)) = (n - 1) * delayMs
    /\ (forall i, 1 <= i < n -> exists e, fn i = inl e)
    /\ match fst (retryAsync fn attempts delayMs) with
       | Resolved a => 1 <= n /\ fn n = inr a
       | Rejected None => attempts = 0
       | Rejected (Some e) => 1 <= attempts /\ n = attempts /\ fn attempts = inl e
       end.
Proof.
  unfold retryAsync.
  destruct (retryLoop_outcome fn attempts delayMs attempts 1 None eq_refl)
    as (n & Hn & Hev & Hfail & Hend).
  exists n. split; [exact Hn|]. split; [exact Hev|].
  split; [rewrite Hev; apply callSchedule_waited|].
  split.
  { intros i Hi. replace i with (1 + (i - 1)) by lia. apply Hfail. lia. }
  destruct (fst (retryLoop fn attempts delayMs 1 attempts None)) as [a | thrown].
  - destruct Hend as [Hpos Hval]. split; [exact Hpos|].
    replace (1 + n - 1) with n in Hval by lia. exact Hval.
  - destruct Hend as (Hnl & Hthrown & Hlast).
    destruct attempts as [|attempts].
    + now subst thrown.
    + assert (Hpos : 1 <= S attempts) by lia.
      destruct (Hlast Hpos) as [e He]. rewrite He in Hthrown.
      subst thrown. split; [lia|]. split; [exact Hnl | exact He].
Qed.

(** An operation that fails twice is called three times, 250 ms apart. *)
Example retryAsync_third_time :
  retryAsync thirdTimeLucky 100 250
  = (Resolved 7, [Called 1; Waited 250; Called 2; Waited 250; Called 3]).
Proof. reflexivity. Qed.

(** X20. The error middleware never answers an empty error text and never
    the status 0: a missing or zero status is answered 500, any other status
    is passed on as it is. An error without a cause is answered with its
    message, or with the fixed text when the message is undefined or empty.
    An error with a cause is always answered with "message: cause message",
    where a missing message reads ["undefined"]. *)
Theorem errorMiddleware_answer (err : JsError) :
  fst (errorMiddleware err) <> 0
  /\ (forall status, err_status err = Some status -> status <> 0 ->
        fst (errorMiddleware err) = status)
  /\ (err_status err = None \/ err_status err = Some 0 ->
      fst (errorMiddleware err) = 500)
  /\ exists text,
       snd (errorMiddleware err) = [("error", JString text)]
       /\ text <> ""
       /\ (forall causeMessage, err_cause err = Some causeMessage ->
             text = interpolate (err_message err) ++ ": "
                    ++ interpolate causeMessage)
       /\ (err_cause err = None ->
           forall message, err_message err = Some message -> message <> "" ->
           text = message)
       /\ (err_cause err = None ->
           err_message err = None \/ err_message err = Some "" ->
           text = "An internal server error occurred.").
Proof.
  unfold errorMiddleware, errorMessage. cbn [fst snd].
  split; [destruct (err_status err) as [[|n]|]; discriminate|].
  split.
  { intros status Hstatus Hnz. rewrite Hstatus.
    destruct status as [|n]; [contradiction | reflexivity]. }
  split; [intros [-> | ->]; reflexivity|].
  destruct (err_cause err) as [causeMessage|].
  - assert (Hne : interpolate (err_message err) ++ ": " ++ interpolate causeMessage
                  <> "").
    { destruct (interpolate (err_message err)); discriminate. }
    remember (interpolate (err_message err) ++ ": " ++ interpolate causeMessage)
      as text eqn:Htext.
    destruct text as [|ch rest]; [contradiction|].
    eexists. split; [reflexivity|].
    split; [discriminate|]. split; [|split; discriminate].
    intros cm Hcm. injection Hcm as <-. exact Htext.
  - destruct (err_message err) as [[|ch rest]|]; eexists;
      (split; [reflexivity|]); (split; [discriminate|]);
      (split; [discriminate|]); split; intros _.
    + intros message Hm Hne. injection Hm as <-. contradiction.
    + reflexivity.
    + intros message Hm _. now injection Hm as <-.
    + intros [H | H]; discriminate H.
    + intros message Hm. discriminate Hm.
    + reflexivity.
Qed.

(** * The legacy endpoints *)

Ltac single_shot :=
  match goal with
  | |- singleShot _ _ (ret _ _) => left; split; [reflexivity | discriminate]
  | |- singleShot ?W ?h (bind (CombinedOutput ?W ?args) _ ?h) =>
      right; exists args;
      rewrite (bind_run _ _ _ _ _ (CombinedOutput_run W args h));
      destruct (err (tool W (spawned h) args)); split; reflexivity
  end.

(** X21. The five legacy handlers run the tool at most once per request,
    never wait and never write to the database. Either nothing is run and
    the answer is not a 200 (a body that does not bind, a missing file, a
    temporary file that cannot be created), or exactly one process is run
    and the answer is 200 when it succeeded and 500 when it failed: none of
    them retries, not even [addRootsHandler], whose tool command is the one
    [addRootToProofSet] retries. *)
Theorem legacy_handlers_single_shot (W : World) (c : Request) (h : History) :
  singleShot W h (pingHandler W c h)
  /\ singleShot W h (createProofSetHandler W c h)
  /\ singleShot W h (getProofSetStatusHandler W c h)
  /\ singleShot W h (uploadFileHandler W c h)
  /\ singleShot W h (addRootsHandler W c h).
Proof.
  split; [|split; [|split; [|split]]].
  - unfold pingHandler. destruct (ShouldBindJSON c); single_shot.
  - unfold createProofSetHandler. destruct (ShouldBindJSON c); single_shot.
  - unfold getProofSetStatusHandler. single_shot.
  - unfold uploadFileHandler.
    destruct (FormFile c); [destruct (createTemp W)|]; single_shot.
  - unfold addRootsHandler. destruct (ShouldBindJSON c); single_shot.
Qed.
